(** * Shallow embedding of the branched DeepLabV3+ model with cross-task
      self-attention (mtl/models/model_parts.py, mtl/models/model_attention.py)

    Tensors are four-dimensional (batch, channels, height, width).  A tensor
    is its shape, four Python integers, together with its entries, indexed
    by position.  Entries are real numbers: the arithmetic of the network is
    read in exact arithmetic, rounding and the non-finite values of machine
    floats are outside this development.

    Every operation that can raise in the source returns a [result].

    A forward pass is a function of the module, as it is when the call
    starts, and of the input.  What a call changes in a module is not
    threaded through, no statement here being about two successive calls:
    the kernel size of the pooling layer of ASPP, which every call sets
    anew before using it, and, in training mode, the running statistics of
    the normalisation layers ([BatchNorm2d_after]), which the value of a
    call in training mode does not depend on. *)

From Stdlib Require Import ZArith Reals Lra Lia List.
From stdpp Require Import gmap strings list fin_maps.
Import ListNotations.

Local Open Scope Z_scope.

(** ** Exceptions *)

Inductive exn : Type :=
| AssertionError
| ZeroDivisionError
| KeyError
| AttributeError
| TypeError
| ValueError
| RuntimeError (where_ : string).

Inductive result (A : Type) : Type :=
| Ok (a : A)
| Raise (e : exn).
Arguments Ok {A} a.
Arguments Raise {A} e.

#[global] Instance result_ret : MRet result := fun _ a => Ok a.
#[global] Instance result_bind : MBind result := fun _ _ k c =>
  match c with
  | Ok a => k a
  | Raise e => Raise e
  end.

Definition returns {A} (c : result A) : Prop := exists a, c = Ok a.

(** ** Tensors *)

Record Tensor : Type := mkTensor {
  tN : Z;
  tC : Z;
  tH : Z;
  tW : Z;
  tdata : Z -> Z -> Z -> Z -> R
}.

(** [x.shape] *)
Definition shape (x : Tensor) : Z * Z * Z * Z := (tN x, tC x, tH x, tW x).

(** Two tensors are the same value when they have the same shape and the
    same entry at every position inside it. *)
Definition tensor_eq (x y : Tensor) : Prop :=
  shape x = shape y /\
  forall n c i j, 0 <= n < tN x -> 0 <= c < tC x -> 0 <= i < tH x -> 0 <= j < tW x ->
    tdata x n c i j = tdata y n c i j.

Definition zeros (n c h w : Z) : Tensor := mkTensor n c h w (fun _ _ _ _ => 0%R).
Definition ones (n c h w : Z) : Tensor := mkTensor n c h w (fun _ _ _ _ => 1%R).

(** Sum of [f 0 + ... + f (n-1)]; empty for [n <= 0]. *)
Fixpoint sum_nat (n : nat) (f : Z -> R) : R :=
  match n with
  | O => 0%R
  | S k => (sum_nat k f + f (Z.of_nat k))%R
  end.
Definition sum_upto (n : Z) (f : Z -> R) : R := sum_nat (Z.to_nat n) f.

(** ** Framework primitives (torch.nn, torch.nn.functional)

    The layers the source instantiates, with the shape arithmetic and the
    shape checks of the framework. *)

Definition data := Z -> Z -> Z -> Z -> R.

(** Entry of [x] at a position of the zero-padded plane. *)
Definition padded (x : Tensor) (n c i j : Z) : R :=
  if (0 <=? i) && (i <? tH x) && (0 <=? j) && (j <? tW x)
  then tdata x n c i j else 0%R.

(** torch.nn.Conv2d, square kernel, the same stride, padding and dilation
    on both axes, groups = 1. *)
Record Conv2d : Type := mkConv2d {
  in_channels : Z;
  out_channels : Z;
  kernel_size : Z;
  stride : Z;
  padding : Z;
  dilation : Z;
  weight : data;                (* indexed (out, in, ky, kx) *)
  bias : option (Z -> R)
}.

(** Constructor.  [w0] and [b0] are the values the random initialiser
    draws.  Allocating the weight tensor (out, in, k, k) is refused for a
    negative dimension. *)
Definition Conv2d_new (cin cout k s p d : Z) (with_bias : bool)
    (w0 : data) (b0 : Z -> R) : result Conv2d :=
  if (cin <? 0) || (cout <? 0) || (k <? 0)
  then Raise (RuntimeError "Conv2d: negative dimension")
  else Ok (mkConv2d cin cout k s p d w0 (if with_bias then Some b0 else None)).

Definition conv_out_size (h k s p d : Z) : Z :=
  (h + 2 * p - d * (k - 1) - 1) / s + 1.

Definition Conv2d_data (m : Conv2d) (x : Tensor) : data := fun n o i j =>
  (sum_upto (in_channels m) (fun c =>
     sum_upto (kernel_size m) (fun ki =>
       sum_upto (kernel_size m) (fun kj =>
         weight m o c ki kj *
         padded x n c (i * stride m - padding m + ki * dilation m)
                      (j * stride m - padding m + kj * dilation m))))
   + match bias m with Some b => b o | None => 0 end)%R.

Definition Conv2d_forward (m : Conv2d) (x : Tensor) : result Tensor :=
  if negb (tC x =? in_channels m)
  then Raise (RuntimeError "conv2d: input channels")
  else if (stride m <=? 0) || (dilation m <=? 0) || (padding m <? 0)
  then Raise (RuntimeError "conv2d: stride, padding, dilation")
  else
    let ho := conv_out_size (tH x) (kernel_size m) (stride m) (padding m) (dilation m) in
    let wo := conv_out_size (tW x) (kernel_size m) (stride m) (padding m) (dilation m) in
    if (ho <=? 0) || (wo <=? 0)
    then Raise (RuntimeError "conv2d: kernel larger than input")
    else Ok (mkTensor (tN x) (out_channels m) ho wo (Conv2d_data m x)).

(** torch.nn.BatchNorm2d.  A module is in training mode after its
    construction; [train] sets the mode, [eval()] is [train(False)].  In
    training mode a call normalises every channel with the mean and the
    biased variance of the batch, and refuses an input with one value per
    channel; in evaluation mode it normalises with the running statistics.
    The number of features is never negative where the source builds the
    layer: a Conv2d with that many output channels is built first. *)
Record BatchNorm2d : Type := mkBatchNorm2d {
  num_features : Z;
  bn_weight : Z -> R;
  bn_bias : Z -> R;
  running_mean : Z -> R;
  running_var : Z -> R;
  eps : R;
  training : bool
}.

Definition BatchNorm2d_new (c : Z) : BatchNorm2d :=
  mkBatchNorm2d c (fun _ => 1%R) (fun _ => 0%R) (fun _ => 0%R) (fun _ => 1%R)
    (1 / 100000)%R true.

(** torch.nn.Module.train(mode) on a BatchNorm2d *)
Definition BatchNorm2d_train (mode : bool) (m : BatchNorm2d) : BatchNorm2d :=
  mkBatchNorm2d (num_features m) (bn_weight m) (bn_bias m) (running_mean m)
    (running_var m) (eps m) mode.

(** Sum of [g] over the entries of channel [c], over batch and plane. *)
Definition channel_sum (x : Tensor) (c : Z) (g : R -> R) : R :=
  sum_upto (tN x) (fun n =>
    sum_upto (tH x) (fun i =>
      sum_upto (tW x) (fun j => g (tdata x n c i j)))).

(** Number of values per channel: size[0] * size[2] * size[3]. *)
Definition size_prods (x : Tensor) : Z := tN x * tH x * tW x.

Definition batch_mean (x : Tensor) (c : Z) : R :=
  (channel_sum x c (fun v => v) / IZR (size_prods x))%R.

Definition batch_var (x : Tensor) (c : Z) : R :=
  (channel_sum x c (fun v => (v - batch_mean x c) * (v - batch_mean x c))
   / IZR (size_prods x))%R.

Definition BatchNorm2d_data (m : BatchNorm2d) (x : Tensor) : data := fun n c i j =>
  let mean := if training m then batch_mean x c else running_mean m c in
  let var := if training m then batch_var x c else running_var m c in
  ((tdata x n c i j - mean) / sqrt (var + eps m) * bn_weight m c + bn_bias m c)%R.

(** In training mode the batch size is verified first (ValueError:
    expected more than 1 value per channel when training), then the
    channel count. *)
Definition BatchNorm2d_forward (m : BatchNorm2d) (x : Tensor) : result Tensor :=
  if training m && (size_prods x =? 1)
  then Raise ValueError
  else if negb (tC x =? num_features m)
  then Raise (RuntimeError "batch_norm: num_features")
  else Ok (mkTensor (tN x) (tC x) (tH x) (tW x) (BatchNorm2d_data m x)).

(** The module after a call on [x]: in training mode the running
    statistics move towards the statistics of the batch (momentum 0.1, the
    variance unbiased); in evaluation mode nothing changes. *)
Definition BatchNorm2d_after (m : BatchNorm2d) (x : Tensor) : BatchNorm2d :=
  if training m
  then mkBatchNorm2d (num_features m) (bn_weight m) (bn_bias m)
         (fun c => ((1 - 1 / 10) * running_mean m c + 1 / 10 * batch_mean x c)%R)
         (fun c => ((1 - 1 / 10) * running_var m c
                    + 1 / 10 * (batch_var x c * IZR (size_prods x)
                                / IZR (size_prods x - 1)))%R)
         (eps m) true
  else m.

(** torch.nn.ReLU *)
Definition ReLU (x : Tensor) : Tensor :=
  mkTensor (tN x) (tC x) (tH x) (tW x) (fun n c i j => Rmax 0 (tdata x n c i j)).

(** torch.sigmoid *)
Definition sigmoid_R (v : R) : R := (1 / (1 + exp (- v)))%R.
Definition sigmoid (x : Tensor) : Tensor :=
  mkTensor (tN x) (tC x) (tH x) (tW x) (fun n c i j => sigmoid_R (tdata x n c i j)).

(** torch.nn.Sequential(Conv2d, BatchNorm2d, ReLU) *)
Record ConvBNReLU : Type := mkConvBNReLU {
  cbr_conv : Conv2d;
  cbr_bn : BatchNorm2d
}.

Definition ConvBNReLU_forward (m : ConvBNReLU) (x : Tensor) : result Tensor :=
  y ← Conv2d_forward (cbr_conv m) x;
  z ← BatchNorm2d_forward (cbr_bn m) y;
  mret (ReLU z).

(** [train(mode)] reaches the children of a module; among the layers of a
    block only the normalisation depends on the mode. *)
Definition ConvBNReLU_train (mode : bool) (m : ConvBNReLU) : ConvBNReLU :=
  mkConvBNReLU (cbr_conv m) (BatchNorm2d_train mode (cbr_bn m)).

(** F.interpolate(x, size=(oh, ow), mode='bilinear', align_corners=False).
    The source coordinate of output position [i] is
    max(0, (i + 1/2) * in / out - 1/2), written here as the fraction
    [src_num / (2 * out)]. *)
Definition src_num (i n_in n_out : Z) : Z := Z.max 0 ((2 * i + 1) * n_in - n_out).
Definition src_lo (i n_in n_out : Z) : Z := src_num i n_in n_out / (2 * n_out).
Definition src_hi (i n_in n_out : Z) : Z :=
  let lo := src_lo i n_in n_out in if lo <? n_in - 1 then lo + 1 else lo.
Definition src_lambda (i n_in n_out : Z) : R :=
  (IZR (src_num i n_in n_out mod (2 * n_out)) / IZR (2 * n_out))%R.

Definition interpolate_data (x : Tensor) (oh ow : Z) : data := fun n c i j =>
  let h0 := src_lo i (tH x) oh in
  let h1 := src_hi i (tH x) oh in
  let lh := src_lambda i (tH x) oh in
  let w0 := src_lo j (tW x) ow in
  let w1 := src_hi j (tW x) ow in
  let lw := src_lambda j (tW x) ow in
  ((1 - lh) * ((1 - lw) * tdata x n c h0 w0 + lw * tdata x n c h0 w1)
   + lh * ((1 - lw) * tdata x n c h1 w0 + lw * tdata x n c h1 w1))%R.

Definition interpolate (x : Tensor) (size : Z * Z) : result Tensor :=
  let '(oh, ow) := size in
  if (tH x <=? 0) || (tW x <=? 0) || (oh <=? 0) || (ow <=? 0)
  then Raise (RuntimeError "interpolate: sizes should be greater than 0")
  else Ok (mkTensor (tN x) (tC x) oh ow (interpolate_data x oh ow)).

(** torch.nn.AvgPool2d((1, 1)): the stride is fixed to (1, 1) by the
    constructor; [kernel] is the attribute ASPP.forward overwrites. *)
Definition AvgPool2d_forward (kernel : Z * Z) (x : Tensor) : result Tensor :=
  let '(kh, kw) := kernel in
  let ho := tH x - kh + 1 in
  let wo := tW x - kw + 1 in
  if (kh <=? 0) || (kw <=? 0) || (ho <=? 0) || (wo <=? 0)
  then Raise (RuntimeError "avg_pool2d: output size")
  else Ok (mkTensor (tN x) (tC x) ho wo (fun n c i j =>
         (sum_upto kh (fun a => sum_upto kw (fun b => tdata x n c (i + a) (j + b)))
          / IZR (kh * kw))%R)).

(** torch.cat((a, b), 1) and torch.cat([...], dim=1) *)
Definition cat2 (a b : Tensor) : result Tensor :=
  if (tN a =? tN b) && (tH a =? tH b) && (tW a =? tW b)
  then Ok (mkTensor (tN a) (tC a + tC b) (tH a) (tW a) (fun n c i j =>
         if c <? tC a then tdata a n c i j else tdata b n (c - tC a) i j))
  else Raise (RuntimeError "cat: sizes of tensors must match except in dimension 1").

Fixpoint cat_from (acc : Tensor) (ts : list Tensor) : result Tensor :=
  match ts with
  | [] => Ok acc
  | t :: ts' => acc' ← cat2 acc t; cat_from acc' ts'
  end.

Definition cat (ts : list Tensor) : result Tensor :=
  match ts with
  | [] => Raise (RuntimeError "cat: expected a non-empty list of tensors")
  | t :: ts' => cat_from t ts'
  end.

(** x[:, a:b, :, :] with Python's slice rules: a negative bound counts from
    the end, bounds are clamped to [0, C], an empty range gives no channel. *)
Definition slice_bound (v len : Z) : Z :=
  if v <? 0 then Z.max (v + len) 0 else Z.min v len.

Definition slice_channels (x : Tensor) (a b : Z) : Tensor :=
  let start := slice_bound a (tC x) in
  let stop := slice_bound b (tC x) in
  mkTensor (tN x) (Z.max 0 (stop - start)) (tH x) (tW x)
    (fun n c i j => tdata x n (start + c) i j).

(** Broadcasting of one dimension, and the elementwise operators. *)
Definition broadcast_dim (a b : Z) : option Z :=
  if a =? b then Some a
  else if a =? 1 then Some b
  else if b =? 1 then Some a
  else None.

Definition bidx (dim i : Z) : Z := if dim =? 1 then 0 else i.

Definition broadcast_shape (x y : Tensor) : option (Z * Z * Z * Z) :=
  n ← broadcast_dim (tN x) (tN y);
  c ← broadcast_dim (tC x) (tC y);
  h ← broadcast_dim (tH x) (tH y);
  w ← broadcast_dim (tW x) (tW y);
  Some (n, c, h, w).

Definition elementwise (op : R -> R -> R) (opname : string) (x y : Tensor)
  : result Tensor :=
  match broadcast_shape x y with
  | Some (n, c, h, w) =>
      Ok (mkTensor n c h w (fun n c i j =>
        op (tdata x (bidx (tN x) n) (bidx (tC x) c) (bidx (tH x) i) (bidx (tW x) j))
           (tdata y (bidx (tN y) n) (bidx (tC y) c) (bidx (tH y) i) (bidx (tW y) j))))
  | None => Raise (RuntimeError opname)
  end.

Definition tensor_add : Tensor -> Tensor -> result Tensor :=
  elementwise Rplus "add: tensor sizes must match".
Definition tensor_mul : Tensor -> Tensor -> result Tensor :=
  elementwise Rmult "mul: tensor sizes must match".

(** ** model_parts.py *)

(** The values the random initialiser draws, by qualified parameter name. *)
Definition Init := string -> data.

Definition sub (prefix name : string) : string := prefix +:+ "." +:+ name.

Definition ConvBNReLU_new (draw : Init) (name : string)
    (cin cout k s p d : Z) (with_bias : bool) : result ConvBNReLU :=
  conv ← Conv2d_new cin cout k s p d with_bias
           (draw (sub name "0.weight")) (fun o => draw (sub name "0.bias") o 0 0 0);
  mret (mkConvBNReLU conv (BatchNorm2d_new cout)).

(** *** ASPP *)

(** class ASPPpart(torch.nn.Sequential): Conv2d without bias, BatchNorm2d, ReLU *)
Definition ASPPpart_new (draw : Init) (name : string) (cin cout k s p d : Z)
  : result ConvBNReLU :=
  ConvBNReLU_new draw name cin cout k s p d false.

Record ASPP : Type := mkASPP {
  conv_1 : ConvBNReLU;
  conv_2 : ConvBNReLU;
  conv_3 : ConvBNReLU;
  conv_4 : ConvBNReLU;
  conv1x1_global : ConvBNReLU;
  conv_final : ConvBNReLU
}.

Definition default_rates : Z * Z * Z := (3, 6, 9).

Definition ASPP_new (draw : Init) (name : string) (cin cout : Z) (rates : Z * Z * Z)
  : result ASPP :=
  let '(r0, r1, r2) := rates in
  c1 ← ASPPpart_new draw (sub name "conv_1") cin cout 1 1 0 1;
  c2 ← ASPPpart_new draw (sub name "conv_2") cin cout 3 1 r0 r0;
  c3 ← ASPPpart_new draw (sub name "conv_3") cin cout 3 1 r1 r1;
  c4 ← ASPPpart_new draw (sub name "conv_4") cin cout 3 1 r2 r2;
  cg ← ASPPpart_new draw (sub name "conv1x1_global") cin cout 1 1 1 1;
  cf ← ASPPpart_new draw (sub name "conv_final") (cout * 5) cout 1 1 0 1;
  mret (mkASPP c1 c2 c3 c4 cg cf).

Definition ASPP_forward (m : ASPP) (x : Tensor) : result Tensor :=
  conv1x1 ← ConvBNReLU_forward (conv_1 m) x;
  conv3x3_1 ← ConvBNReLU_forward (conv_2 m) x;
  conv3x3_2 ← ConvBNReLU_forward (conv_3 m) x;
  conv3x3_3 ← ConvBNReLU_forward (conv_4 m) x;
  (* self.avg_pool.kernel_size = x.shape[2:] *)
  global_feat ← AvgPool2d_forward (tH x, tW x) x;
  global_feat ← ConvBNReLU_forward (conv1x1_global m) global_feat;
  global_feat ← interpolate global_feat (tH x, tW x);
  feature_cat ← cat [conv1x1; conv3x3_1; conv3x3_2; conv3x3_3; global_feat];
  ConvBNReLU_forward (conv_final m) feature_cat.

Definition ASPP_train (mode : bool) (m : ASPP) : ASPP :=
  mkASPP (ConvBNReLU_train mode (conv_1 m)) (ConvBNReLU_train mode (conv_2 m))
    (ConvBNReLU_train mode (conv_3 m)) (ConvBNReLU_train mode (conv_4 m))
    (ConvBNReLU_train mode (conv1x1_global m)) (ConvBNReLU_train mode (conv_final m)).

(** *** DecoderDeeplabV3p *)

Record DecoderDeeplabV3p : Type := mkDecoderDeeplabV3p {
  conv1x1_skip : ConvBNReLU;
  conv3x3_final : ConvBNReLU;
  features_to_predictions : Conv2d
}.

Definition n_skip : Z := 48.

Definition DecoderDeeplabV3p_new (draw : Init) (name : string)
    (bottleneck_ch skip_4x_ch num_out_ch : Z) : result DecoderDeeplabV3p :=
  skip ← ConvBNReLU_new draw (sub name "conv1x1_skip") skip_4x_ch n_skip 1 1 0 1 true;
  final ← ConvBNReLU_new draw (sub name "conv3x3_final")
            (bottleneck_ch + n_skip) bottleneck_ch 3 1 1 1 false;
  pred ← Conv2d_new bottleneck_ch num_out_ch 3 1 0 1 true
           (draw (sub name "features_to_predictions.weight"))
           (fun o => draw (sub name "features_to_predictions.bias") o 0 0 0);
  mret (mkDecoderDeeplabV3p skip final pred).

Definition DecoderDeeplabV3p_forward (m : DecoderDeeplabV3p)
    (features_bottleneck features_skip_4x : Tensor) : result (Tensor * Tensor) :=
  features_bottleneck_4x ←
    interpolate features_bottleneck (tH features_skip_4x, tW features_skip_4x);
  features_skip_4x_reduced ← ConvBNReLU_forward (conv1x1_skip m) features_skip_4x;
  feature_cat ← cat [features_bottleneck_4x; features_skip_4x_reduced];
  feature_cat ← ConvBNReLU_forward (conv3x3_final m) feature_cat;
  predictions ← Conv2d_forward (features_to_predictions m) feature_cat;
  mret (predictions, features_bottleneck_4x).

Definition DecoderDeeplabV3p_train (mode : bool) (m : DecoderDeeplabV3p)
  : DecoderDeeplabV3p :=
  mkDecoderDeeplabV3p (ConvBNReLU_train mode (conv1x1_skip m))
    (ConvBNReLU_train mode (conv3x3_final m)) (features_to_predictions m).

(** *** SelfAttention *)

Record SelfAttention : Type := mkSelfAttention {
  sa_conv : Conv2d;
  sa_attention : Conv2d
}.

(** self.attention.weight.copy_(torch.zeros_like(self.attention.weight)) *)
Definition zero_weight (c : Conv2d) : Conv2d :=
  mkConv2d (in_channels c) (out_channels c) (kernel_size c) (stride c)
    (padding c) (dilation c) (fun _ _ _ _ => 0%R) (bias c).

Definition SelfAttention_new (draw : Init) (name : string) (cin cout : Z)
  : result SelfAttention :=
  conv ← Conv2d_new cin cout 3 1 1 1 false (draw (sub name "conv.weight")) (fun _ => 0%R);
  attention ← Conv2d_new cin cout 3 1 1 1 false
                (draw (sub name "attention.weight")) (fun _ => 0%R);
  mret (mkSelfAttention conv (zero_weight attention)).

Definition SelfAttention_forward (m : SelfAttention) (x : Tensor) : result Tensor :=
  features ← Conv2d_forward (sa_conv m) x;
  logits ← Conv2d_forward (sa_attention m) x;
  let attention_mask := sigmoid logits in
  tensor_mul features attention_mask.

(** *** DecoderDistillation *)

Record DecoderDistillation : Type := mkDecoderDistillation {
  conv3x3_final1 : ConvBNReLU;
  conv3x3_final2 : ConvBNReLU;
  conv3x3_final3 : Conv2d
}.

Definition DecoderDistillation_new (draw : Init) (name : string)
    (cin num_out_ch : Z) : result DecoderDistillation :=
  f1 ← ConvBNReLU_new draw (sub name "conv3x3_final1") cin (cin / 2) 3 1 1 1 false;
  f2 ← ConvBNReLU_new draw (sub name "conv3x3_final2") (cin / 2) (cin / 4) 3 1 1 1 false;
  f3 ← Conv2d_new (cin / 4) num_out_ch 3 1 1 1 false
         (draw (sub name "conv3x3_final3.weight")) (fun _ => 0%R);
  mret (mkDecoderDistillation f1 f2 f3).

(** The tensor entering [conv3x3_final3]. *)
Definition DecoderDistillation_features (m : DecoderDistillation)
    (features_low features_sa : Tensor) : result Tensor :=
  all_features ← tensor_add features_low features_sa;
  all_features ← ConvBNReLU_forward (conv3x3_final1 m) all_features;
  all_features ← interpolate all_features (tH all_features * 2, tW all_features * 2);
  all_features ← ConvBNReLU_forward (conv3x3_final2 m) all_features;
  interpolate all_features (tH all_features * 2, tW all_features * 2).

Definition DecoderDistillation_forward (m : DecoderDistillation)
    (features_low features_sa : Tensor) : result Tensor :=
  all_features ← DecoderDistillation_features m features_low features_sa;
  Conv2d_forward (conv3x3_final3 m) all_features.

Definition DecoderDistillation_train (mode : bool) (m : DecoderDistillation)
  : DecoderDistillation :=
  mkDecoderDistillation (ConvBNReLU_train mode (conv3x3_final1 m))
    (ConvBNReLU_train mode (conv3x3_final2 m)) (conv3x3_final3 m).

(** *** Encoder *)

Definition _basic_block_layers : list (string * (Z * Z * Z * Z)) :=
  [("resnet18", (2, 2, 2, 2)); ("resnet34", (3, 4, 6, 3))].

Definition is_basic_block (encoder_name : string) : bool :=
  bool_decide (encoder_name ∈ _basic_block_layers.*1).

Definition get_encoder_channel_counts (encoder_name : string) : Z * Z :=
  let ch_out_encoder_bottleneck := if is_basic_block encoder_name then 512 else 2048 in
  let ch_out_encoder_4x := if is_basic_block encoder_name then 64 else 256 in
  (ch_out_encoder_bottleneck, ch_out_encoder_4x).

(** The residual network the encoder wraps: the stages [Encoder.forward]
    calls, each a function on tensors that may raise. *)
Record ResNet : Type := mkResNet {
  conv1 : Tensor -> result Tensor;
  bn1 : Tensor -> result Tensor;
  relu : Tensor -> result Tensor;
  maxpool : Tensor -> result Tensor;
  layer1 : Tensor -> result Tensor;
  layer2 : Tensor -> result Tensor;
  layer3 : Tensor -> result Tensor;
  layer4 : Tensor -> result Tensor
}.

Definition dilation_flags := (bool * bool * bool)%type.

(** What the encoder uses of torchvision.models.resnet.
    [tv_getattr name] is getattr(resnet, name): nothing when the module has
    no such attribute, otherwise the attribute, seen through what calling it
    with the keyword arguments of the encoder does.  An attribute need not
    be a model constructor (conv3x3, _resnet and ResNet are attributes
    too): the call can raise, TypeError for instance.
    [tv_resnet] is the call of resnet._resnet with BasicBlockWithDilation,
    which can raise as well.
    [tv_dilate k] sets padding and dilation of layer<k>[0].conv2 to (2, 2),
    [tv_train mode] is train(mode) on the network. *)
Record Torchvision : Type := mkTorchvision {
  tv_getattr : string -> option (dilation_flags -> result ResNet);
  tv_resnet : string -> Z * Z * Z * Z -> dilation_flags -> result ResNet;
  tv_dilate : Z -> ResNet -> ResNet;
  tv_train : bool -> ResNet -> ResNet
}.

Definition Encoder__create (tv : Torchvision) (name : string)
    (replace_stride_with_dilation : dilation_flags) : result ResNet :=
  model ←
    match list_to_map (M := gmap string (Z * Z * Z * Z)) _basic_block_layers !! name with
    | None =>
        match tv_getattr tv name with
        | Some fn_name => fn_name replace_stride_with_dilation
        | None => Raise AttributeError
        end
    | Some layers => tv_resnet tv name layers replace_stride_with_dilation
    end;
  let '(r0, r1, r2) := replace_stride_with_dilation in
  let model := if r0 then tv_dilate tv 2 model else model in
  let model := if r1 then tv_dilate tv 3 model else model in
  let model := if r2 then tv_dilate tv 4 model else model in
  mret model.

(** [__init__] also deletes the attributes avgpool and fc of the network,
    which every residual network has and [forward] does not use. *)
Record Encoder : Type := mkEncoder { encoder_net : ResNet }.

Definition Encoder_new (tv : Torchvision) (name : string) (flags : dilation_flags)
  : result Encoder :=
  encoder ← Encoder__create tv name flags;
  mret (mkEncoder encoder).

Definition update_skip_dict (skips : gmap Z Tensor) (x : Tensor) (sz_in : Z)
  : result (gmap Z Tensor) :=
  if tW x =? 0 then Raise ZeroDivisionError
  else
    let rem := sz_in mod tW x in
    let scale := sz_in / tW x in
    if negb (rem =? 0) then Raise AssertionError
    else Ok (<[scale := x]> skips).

Definition Encoder_forward (e : Encoder) (x : Tensor) : result (gmap Z Tensor) :=
  let out : gmap Z Tensor := {[ 1 := x ]} in
  let sz_in := tW x in
  x ← conv1 (encoder_net e) x;
  x ← bn1 (encoder_net e) x;
  x ← relu (encoder_net e) x;
  out ← update_skip_dict out x sz_in;
  x ← maxpool (encoder_net e) x;
  out ← update_skip_dict out x sz_in;
  x ← layer1 (encoder_net e) x;
  out ← update_skip_dict out x sz_in;
  x ← layer2 (encoder_net e) x;
  out ← update_skip_dict out x sz_in;
  x ← layer3 (encoder_net e) x;
  out ← update_skip_dict out x sz_in;
  x ← layer4 (encoder_net e) x;
  out ← update_skip_dict out x sz_in;
  mret out.

(** ** model_attention.py *)

Record Config : Type := mkConfig { model_encoder_name : string }.

(** [outputs_desc]: task name to number of channels, in insertion order. *)
Definition OutputsDesc := list (string * Z).

Definition sum_values (outputs_desc : OutputsDesc) : Z :=
  foldr Z.add 0 (outputs_desc.*2).

Record ModelDeepLabV3PlusBranchedSA : Type := mkModel {
  outputs_desc : OutputsDesc;
  encoder : Encoder;
  aspp_semseg : ASPP;
  decoder_semseg : DecoderDeeplabV3p;
  assp_depth : ASPP;
  decoder_depth : DecoderDeeplabV3p;
  sa_from_depth2semseg : SelfAttention;
  sa_from_semseg2depth : SelfAttention;
  decoder_semseg2 : DecoderDistillation;
  decoder_depth2 : DecoderDistillation
}.

Definition Model_new (tv : Torchvision) (draw : Init) (cfg : Config)
    (outputs_desc : OutputsDesc) : result ModelDeepLabV3PlusBranchedSA :=
  let ch_out := sum_values outputs_desc in
  encoder ← Encoder_new tv (model_encoder_name cfg) (false, false, true);
  let '(ch_out_encoder_bottleneck, ch_out_encoder_4x) :=
    get_encoder_channel_counts (model_encoder_name cfg) in
  aspp_semseg ← ASPP_new draw "aspp_semseg" ch_out_encoder_bottleneck 256 default_rates;
  decoder_semseg ←
    DecoderDeeplabV3p_new draw "decoder_semseg" 256 ch_out_encoder_4x (ch_out - 1);
  assp_depth ← ASPP_new draw "assp_depth" ch_out_encoder_bottleneck 256 default_rates;
  decoder_depth ← DecoderDeeplabV3p_new draw "decoder_depth" 256 ch_out_encoder_4x 1;
  sa_from_depth2semseg ← SelfAttention_new draw "sa_from_depth2semseg" 256 256;
  sa_from_semseg2depth ← SelfAttention_new draw "sa_from_semseg2depth" 256 256;
  decoder_semseg2 ← DecoderDistillation_new draw "decoder_semseg2" 256 (ch_out - 1);
  decoder_depth2 ← DecoderDistillation_new draw "decoder_depth2" 256 1;
  mret (mkModel outputs_desc encoder aspp_semseg decoder_semseg assp_depth
          decoder_depth sa_from_depth2semseg sa_from_semseg2depth
          decoder_semseg2 decoder_depth2).

(** max(features.keys()) *)
Definition max_key (features : gmap Z Tensor) : result Z :=
  match (map_to_list features).*1 with
  | [] => Raise ValueError
  | k :: ks => Ok (foldr Z.max k ks)
  end.

(** features[k] *)
Definition getitem (features : gmap Z Tensor) (k : Z) : result Tensor :=
  match features !! k with
  | Some t => Ok t
  | None => Raise KeyError
  end.

(** The forward pass up to the two concatenated prediction tensors
    [(intermediate_predictions, final_predictions)]. *)
Definition Model_predictions (m : ModelDeepLabV3PlusBranchedSA) (x : Tensor)
  : result (Tensor * Tensor) :=
  let input_resolution := (tH x, tW x) in
  features ← Encoder_forward (encoder m) x;
  lowest_scale ← max_key features;
  features_lowest ← getitem features lowest_scale;
  (* Semseg *)
  features_tasks_semseg ← ASPP_forward (aspp_semseg m) features_lowest;
  features_4 ← getitem features 4;
  '(intermediate_predictions_semseg, features_before_final_layer_semseg) ←
    DecoderDeeplabV3p_forward (decoder_semseg m) features_tasks_semseg features_4;
  intermediate_predictions_semseg ←
    interpolate intermediate_predictions_semseg input_resolution;
  (* Depth *)
  features_tasks_depth ← ASPP_forward (assp_depth m) features_lowest;
  features_4 ← getitem features 4;
  '(intermediate_predictions_depth, features_before_final_layer_depth) ←
    DecoderDeeplabV3p_forward (decoder_depth m) features_tasks_depth features_4;
  intermediate_predictions_depth ←
    interpolate intermediate_predictions_depth input_resolution;
  intermediate_predictions ←
    cat [intermediate_predictions_semseg; intermediate_predictions_depth];
  attention_from_semseg2depth ←
    SelfAttention_forward (sa_from_semseg2depth m) features_before_final_layer_semseg;
  attention_from_depth2semseg ←
    SelfAttention_forward (sa_from_depth2semseg m) features_before_final_layer_depth;
  final_predictions_semseg ←
    DecoderDistillation_forward (decoder_semseg2 m)
      features_before_final_layer_semseg attention_from_depth2semseg;
  final_predictions_depth ←
    DecoderDistillation_forward (decoder_depth2 m)
      features_before_final_layer_depth attention_from_semseg2depth;
  final_predictions_semseg ← interpolate final_predictions_semseg input_resolution;
  final_predictions_depth ← interpolate final_predictions_depth input_resolution;
  final_predictions ← cat [final_predictions_semseg; final_predictions_depth];
  mret (intermediate_predictions, final_predictions).

(** The loop over [outputs_desc.items()] filling [out]. *)
Fixpoint split_outputs (items : OutputsDesc) (offset : Z)
    (intermediate_predictions final_predictions : Tensor)
    (out : gmap string (Tensor * Tensor)) : gmap string (Tensor * Tensor) :=
  match items with
  | [] => out
  | (task, num_ch) :: rest =>
      let out := <[task := (slice_channels intermediate_predictions offset (offset + num_ch),
                            slice_channels final_predictions offset (offset + num_ch))]> out in
      split_outputs rest (offset + num_ch) intermediate_predictions final_predictions out
  end.

Definition Model_forward (m : ModelDeepLabV3PlusBranchedSA) (x : Tensor)
  : result (gmap string (Tensor * Tensor)) :=
  '(intermediate_predictions, final_predictions) ← Model_predictions m x;
  mret (split_outputs (outputs_desc m) 0 intermediate_predictions final_predictions ∅).


(** ** Auxiliary notions used by the statements *)

(** The tensors [Encoder.forward] passes to [update_skip_dict], in order. *)
Definition Encoder_stage_outputs (e : Encoder) (x : Tensor) : result (list Tensor) :=
  x ← conv1 (encoder_net e) x;
  x ← bn1 (encoder_net e) x;
  x1 ← relu (encoder_net e) x;
  x2 ← maxpool (encoder_net e) x1;
  x3 ← layer1 (encoder_net e) x2;
  x4 ← layer2 (encoder_net e) x3;
  x5 ← layer3 (encoder_net e) x4;
  x6 ← layer4 (encoder_net e) x5;
  mret [x1; x2; x3; x4; x5; x6].

(** The last tensor of a sequence of (scale, tensor) insertions whose scale
    is [k]; [acc] is the answer when there is none. *)
Fixpoint deepest_at (k : Z) (l : list (Z * Tensor)) (acc : option Tensor)
  : option Tensor :=
  match l with
  | [] => acc
  | (s, t) :: r => deepest_at k r (if s =? k then Some t else acc)
  end.

(** The insertions of one forward pass: the input under key 1, then every
    stage output under input width // its width. *)
Definition insertions (x : Tensor) (ts : list Tensor) : list (Z * Tensor) :=
  (1, x) :: map (fun t => (tW x / tW t, t)) ts.

(** A stand-in for the residual stages that keeps only their shape
    arithmetic: [c] output channels, spatial size divided by [s] rounding
    up, all entries zero. *)
Definition shape_stage (c s : Z) (x : Tensor) : result Tensor :=
  if (tH x <=? 0) || (tW x <=? 0)
  then Raise (RuntimeError "stage: empty input")
  else Ok (zeros (tN x) c ((tH x - 1) / s + 1) ((tW x - 1) / s + 1)).

Definition resnet_shapes (c : Z) (flags : dilation_flags) : ResNet :=
  let '(r0, r1, r2) := flags in
  mkResNet (shape_stage 64 2) Ok Ok (shape_stage 64 2)
    (shape_stage c 1)
    (shape_stage (2 * c) (if r0 then 1 else 2))
    (shape_stage (4 * c) (if r1 then 1 else 2))
    (shape_stage (8 * c) (if r2 then 1 else 2)).

(** A stand-in for torchvision.models.resnet with three bottleneck
    constructors and three attributes that are no model constructors. *)
Definition torchvision_shapes : Torchvision :=
  mkTorchvision
    (fun name =>
       if bool_decide (name ∈ ["resnet50"; "resnet101"; "resnet152"])
       then Some (fun flags => Ok (resnet_shapes 256 flags))
       else if bool_decide (name ∈ ["conv3x3"; "_resnet"; "ResNet"])
       then Some (fun _ => Raise TypeError)
       else None)
    (fun _ _ flags => Ok (resnet_shapes 64 flags))
    (fun _ net => net)
    (fun _ net => net).

(** [a * t], entry by entry. *)
Definition scale (a : R) (t : Tensor) : Tensor :=
  mkTensor (tN t) (tC t) (tH t) (tW t) (fun n c i j => (a * tdata t n c i j)%R).

(** Sizes [a] and [b] of one dimension can be broadcast together. *)
Definition compatible_dim (a b : Z) : Prop := a = b \/ a = 1 \/ b = 1.

(** The shapes of [x] and [y] can be broadcast together. *)
Definition compatible (x y : Tensor) : Prop :=
  compatible_dim (tN x) (tN y) /\ compatible_dim (tC x) (tC y) /\
  compatible_dim (tH x) (tH y) /\ compatible_dim (tW x) (tW y).

(** An [outputs_desc] of the shape the two fixed branches assume: exactly
    two tasks, the first with all channels but one, the second with one. *)
Definition two_task_split (od : OutputsDesc) : Prop :=
  exists semseg depth n, od = [(semseg, n); (depth, 1)].

Definition is_Ok {A} (c : result A) : bool :=
  match c with Ok _ => true | Raise _ => false end.

(** [out[task][k]] for every task of [outputs_desc], in its order. *)
Fixpoint collect (sel : Tensor * Tensor -> Tensor) (od : OutputsDesc)
    (out : gmap string (Tensor * Tensor)) : result (list Tensor) :=
  match od with
  | [] => Ok []
  | (task, _) :: rest =>
      match out !! task with
      | Some entry => ts ← collect sel rest out; mret (sel entry :: ts)
      | None => Raise KeyError
      end
  end.

(** torch.cat([out[task][k] for task in outputs_desc], 1) *)
Definition reassemble (sel : Tensor * Tensor -> Tensor) (od : OutputsDesc)
    (out : gmap string (Tensor * Tensor)) : result Tensor :=
  ts ← collect sel od out; cat ts.

(** The channel ranges [offset, offset + n) cut by the loop of [forward]. *)
Fixpoint slices (t : Tensor) (offset : Z) (counts : list Z) : list Tensor :=
  match counts with
  | [] => []
  | n :: rest => slice_channels t offset (offset + n) :: slices t (offset + n) rest
  end.

(** The heads of the two branches have the channel counts [__init__] gives
    them: all of [outputs_desc] but one for semseg, one for depth. *)
Definition heads_match (m : ModelDeepLabV3PlusBranchedSA) : Prop :=
  0 <= out_channels (features_to_predictions (decoder_semseg m)) /\
  out_channels (features_to_predictions (decoder_semseg m))
    = sum_values (outputs_desc m) - 1 /\
  out_channels (features_to_predictions (decoder_depth m)) = 1 /\
  out_channels (conv3x3_final3 (decoder_semseg2 m))
    = sum_values (outputs_desc m) - 1 /\
  out_channels (conv3x3_final3 (decoder_depth2 m)) = 1.

(** A model for the examples: resnet18 stand-in, nineteen classes and depth. *)
Definition example_model : result ModelDeepLabV3PlusBranchedSA :=
  Model_new torchvision_shapes (fun _ _ _ _ _ => 1%R) (mkConfig "resnet18")
    [("semseg", 19); ("depth", 1)].

(** The tensor [DecoderDeeplabV3p.forward] passes to
    [features_to_predictions]: the output of [conv3x3_final]. *)
Definition DecoderDeeplabV3p_fused (m : DecoderDeeplabV3p)
    (features_bottleneck features_skip_4x : Tensor) : result Tensor :=
  features_bottleneck_4x ←
    interpolate features_bottleneck (tH features_skip_4x, tW features_skip_4x);
  features_skip_4x_reduced ← ConvBNReLU_forward (conv1x1_skip m) features_skip_4x;
  feature_cat ← cat [features_bottleneck_4x; features_skip_4x_reduced];
  ConvBNReLU_forward (conv3x3_final m) feature_cat.

(** The insertions [Encoder.forward] makes for the stage outputs [ts]. *)
Fixpoint insert_all (sz_in : Z) (skips : gmap Z Tensor) (ts : list Tensor)
  : result (gmap Z Tensor) :=
  match ts with
  | [] => Ok skips
  | t :: rest => skips ← update_skip_dict skips t sz_in; insert_all sz_in skips rest
  end.

(** ** BasicBlockWithDilation *)

(** resnet.conv3x3(in_planes, out_planes, stride, groups=1, dilation): a
    3x3 convolution without bias whose padding is its dilation. *)
Definition conv3x3 (w0 : data) (in_planes out_planes stride dilation : Z)
  : result Conv2d :=
  Conv2d_new in_planes out_planes 3 stride dilation dilation false w0 (fun _ => 0%R).

(** [x += y]: the addition is done in place, so the broadcast shape has to
    be the shape of [x]. *)
Definition tensor_iadd (x y : Tensor) : result Tensor :=
  match broadcast_shape x y with
  | Some s =>
      if bool_decide (s = shape x) then tensor_add x y
      else Raise (RuntimeError "add_: output shape does not match the broadcast shape")
  | None => Raise (RuntimeError "add: tensor sizes must match")
  end.

(** A layer the caller supplies ([norm_layer(planes)], [downsample]): any
    torch.nn.Module, seen through its forward pass in either mode. *)
Record Module : Type := mkModule {
  module_forward : bool -> Tensor -> result Tensor;
  module_training : bool
}.

Definition Module_call (m : Module) (x : Tensor) : result Tensor :=
  module_forward m (module_training m) x.

Definition Module_train (mode : bool) (m : Module) : Module :=
  mkModule (module_forward m) mode.

Definition BatchNorm2d_Module (bn : BatchNorm2d) : Module :=
  mkModule (fun mode => BatchNorm2d_forward (BatchNorm2d_train mode bn)) (training bn).

Record BasicBlockWithDilation : Type := mkBasicBlockWithDilation {
  bb_conv1 : Conv2d;
  bb_bn1 : Module;
  bb_conv2 : Conv2d;
  bb_bn2 : Module;
  bb_downsample : option Module;
  bb_stride : Z
}.

(** [norm_layer] is a callable of the caller: it can raise. *)
Definition BasicBlockWithDilation_new (draw : Init) (name : string)
    (inplanes planes stride : Z) (downsample : option Module)
    (groups base_width dilation : Z) (norm_layer : option (Z -> result Module))
  : result BasicBlockWithDilation :=
  let norm_layer :=
    match norm_layer with
    | None => fun c => Ok (BatchNorm2d_Module (BatchNorm2d_new c))
    | Some nl => nl
    end in
  if negb (groups =? 1) || negb (base_width =? 64)
  then Raise ValueError
  else
    conv1 ← conv3x3 (draw (sub name "conv1.weight")) inplanes planes stride 1;
    bn1 ← norm_layer planes;
    conv2 ← conv3x3 (draw (sub name "conv2.weight")) planes planes 1 dilation;
    bn2 ← norm_layer planes;
    mret (mkBasicBlockWithDilation conv1 bn1 conv2 bn2 downsample stride).

Definition BasicBlockWithDilation_forward (m : BasicBlockWithDilation) (x : Tensor)
  : result Tensor :=
  let identity := x in
  out ← Conv2d_forward (bb_conv1 m) x;
  out ← Module_call (bb_bn1 m) out;
  let out := ReLU out in
  out ← Conv2d_forward (bb_conv2 m) out;
  out ← Module_call (bb_bn2 m) out;
  identity ← match bb_downsample m with
             | Some downsample => Module_call downsample x
             | None => Ok identity
             end;
  out ← tensor_iadd out identity;
  mret (ReLU out).

Definition BasicBlockWithDilation_train (mode : bool) (m : BasicBlockWithDilation)
  : BasicBlockWithDilation :=
  mkBasicBlockWithDilation (bb_conv1 m) (Module_train mode (bb_bn1 m))
    (bb_conv2 m) (Module_train mode (bb_bn2 m))
    (option_map (Module_train mode) (bb_downsample m)) (bb_stride m).

(** ** SqueezeAndExcitation *)

(** A two-dimensional tensor (batch, features). *)
Record Matrix : Type := mkMatrix {
  mrows : Z;
  mcols : Z;
  mdata : Z -> Z -> R
}.

(** torch.nn.Linear *)
Record Linear : Type := mkLinear {
  in_features : Z;
  out_features : Z;
  lin_weight : Z -> Z -> R;     (* indexed (out, in) *)
  lin_bias : Z -> R
}.

Definition Linear_new (fin fout : Z) (w0 : Z -> Z -> R) (b0 : Z -> R) : result Linear :=
  if (fin <? 0) || (fout <? 0)
  then Raise (RuntimeError "Linear: negative dimension")
  else Ok (mkLinear fin fout w0 b0).

Definition Linear_forward (l : Linear) (x : Matrix) : result Matrix :=
  if negb (mcols x =? in_features l)
  then Raise (RuntimeError "linear: shapes cannot be multiplied")
  else Ok (mkMatrix (mrows x) (out_features l) (fun n o =>
         (sum_upto (in_features l) (fun k => mdata x n k * lin_weight l o k)
          + lin_bias l o)%R)).

(** torch.mean(x, dim=(2, 3)).reshape(N, C) *)
Definition mean_plane (x : Tensor) : Matrix :=
  mkMatrix (tN x) (tC x) (fun n c =>
    (sum_upto (tH x) (fun i => sum_upto (tW x) (fun j => tdata x n c i j))
     / IZR (tH x * tW x))%R).

Definition matrix_map (g : R -> R) (z : Matrix) : Matrix :=
  mkMatrix (mrows z) (mcols z) (fun n c => g (mdata z n c)).

(** z.reshape(N, C, 1, 1): the number of entries has to be kept; entries
    are read in row-major order. *)
Definition reshape_NC11 (z : Matrix) (N C : Z) : result Tensor :=
  if mrows z * mcols z =? N * C
  then Ok (mkTensor N C 1 1 (fun n c _ _ =>
         mdata z ((n * C + c) / mcols z) ((n * C + c) mod mcols z)))
  else Raise (RuntimeError "reshape: shape is invalid for input size").

Record SqueezeAndExcitation : Type := mkSqueezeAndExcitation {
  se_fc1 : Linear;
  se_fc2 : Linear
}.

Definition SqueezeAndExcitation_new (draw : Init) (name : string) (channels r : Z)
  : result SqueezeAndExcitation :=
  if r =? 0 then Raise ZeroDivisionError
  else
    fc1 ← Linear_new channels (channels / r)
            (fun o k => draw (sub name "transform.0.weight") o k 0 0)
            (fun o => draw (sub name "transform.0.bias") o 0 0 0);
    fc2 ← Linear_new (channels / r) channels
            (fun o k => draw (sub name "transform.2.weight") o k 0 0)
            (fun o => draw (sub name "transform.2.bias") o 0 0 0);
    mret (mkSqueezeAndExcitation fc1 fc2).

Definition SqueezeAndExcitation_forward (m : SqueezeAndExcitation) (x : Tensor)
  : result Tensor :=
  let '(N, C, H, W) := shape x in
  let squeezed := mean_plane x in
  s ← Linear_forward (se_fc1 m) squeezed;
  let s := matrix_map (Rmax 0) s in
  s ← Linear_forward (se_fc2 m) s;
  let s := matrix_map sigmoid_R s in
  squeezed ← reshape_NC11 s N C;
  tensor_mul x squeezed.

(** * Properties *)

(** ** Results and sums *)

Lemma bind_Ok {A B} (c : result A) (k : A -> result B) (b : B) :
  (c ≫= k) = Ok b -> exists a, c = Ok a /\ k a = Ok b.
Proof. destruct c as [a|e]; simpl; [eauto | discriminate]. Qed.

Lemma bind_Ok_l {A B} (a : A) (k : A -> result B) : (Ok a ≫= k) = k a.
Proof. reflexivity. Qed.

(** Step through the next bind of a computation known to return. *)
Ltac bind_step H x Hx :=
  apply bind_Ok in H; destruct H as (x & Hx & H).

Lemma sum_nat_zero (n : nat) (f : Z -> R) :
  (forall k, 0 <= k < Z.of_nat n -> f k = 0%R) -> sum_nat n f = 0%R.
Proof.
  induction n as [|n IH]; intros Hf; simpl; [reflexivity|].
  rewrite IH by (intros k Hk; apply Hf; lia).
  rewrite Hf by lia. lra.
Qed.

Lemma sum_upto_zero (n : Z) (f : Z -> R) :
  (forall k, 0 <= k < n -> f k = 0%R) -> sum_upto n f = 0%R.
Proof.
  intros Hf. unfold sum_upto. apply sum_nat_zero.
  intros k Hk. apply Hf. lia.
Qed.

(** ** Encoder: the pyramid *)

Lemma update_skip_dict_Ok skips x sz_in out :
  update_skip_dict skips x sz_in = Ok out ->
  tW x <> 0 /\ sz_in mod tW x = 0 /\ out = <[sz_in / tW x := x]> skips.
Proof.
  unfold update_skip_dict.
  destruct (tW x =? 0) eqn:Hw; [discriminate|].
  destruct (sz_in mod tW x =? 0) eqn:Hr; simpl; [|discriminate].
  intros [= <-]. repeat split; lia.
Qed.

(** C8.  [update_skip_dict] stores the tensor under the key
    input width // tensor width and asserts that the division is exact:
    for a tensor of non-zero width, when the input width is not a multiple
    of the tensor's width the insertion raises AssertionError, and when it
    is a multiple the assertion passes, the tensor is stored under the
    quotient, and quotient * width gives back the input width. *)
Theorem update_skip_dict_exact (skips : gmap Z Tensor) (x : Tensor) (sz_in : Z) :
  tW x <> 0 ->
  (~ (tW x | sz_in) -> update_skip_dict skips x sz_in = Raise AssertionError) /\
  ((tW x | sz_in) ->
     update_skip_dict skips x sz_in = Ok (<[sz_in / tW x := x]> skips) /\
     sz_in / tW x * tW x = sz_in).
Proof.
  intros Hw. unfold update_skip_dict.
  destruct (tW x =? 0) eqn:E; [lia|]. clear E.
  split.
  - intros Hnd.
    destruct (sz_in mod tW x =? 0) eqn:Hr; simpl; [|reflexivity].
    exfalso. apply Hnd. apply Z.mod_divide; [assumption|lia].
  - intros Hd. apply Z.mod_divide in Hd; [|assumption].
    rewrite Hd. simpl. split; [reflexivity|].
    pose proof (Z.div_mod sz_in (tW x) Hw). lia.
Qed.

Lemma update_skip_dict_exact_witness :
  update_skip_dict ∅ (zeros 1 64 32 64) 256 = Ok {[ 4 := zeros 1 64 32 64 ]} /\
  update_skip_dict ∅ (zeros 1 64 32 48) 256 = Raise AssertionError.
Proof.
  pose proof (update_skip_dict_exact ∅ (zeros 1 64 32 64) 256 ltac:(simpl; lia)) as [_ H1].
  pose proof (update_skip_dict_exact ∅ (zeros 1 64 32 48) 256 ltac:(simpl; lia)) as [H2 _].
  split.
  - apply H1. exists 4. reflexivity.
  - apply H2. intros [q Hq]. simpl in Hq. lia.
Defined.

(** Every entry of the returned pyramid sits under a key that, multiplied
    by the entry's width, gives the input width. *)
Lemma Encoder_forward_scales (e : Encoder) (x : Tensor) (out : gmap Z Tensor) :
  Encoder_forward e x = Ok out ->
  forall k t, out !! k = Some t -> k * tW t = tW x.
Proof.
  unfold Encoder_forward. intros H.
  bind_step H x0 H0. bind_step H x0' H0'. bind_step H x1 H1.
  bind_step H o1 U1. bind_step H x2 H2. bind_step H o2 U2.
  bind_step H x3 H3. bind_step H o3 U3. bind_step H x4 H4.
  bind_step H o4 U4. bind_step H x5 H5. bind_step H o5 U5.
  bind_step H x6 H6. bind_step H o6 U6.
  injection H as <-.
  assert (Hstep : forall skips y o,
            (forall k t, skips !! k = Some t -> k * tW t = tW x) ->
            update_skip_dict skips y (tW x) = Ok o ->
            forall k t, o !! k = Some t -> k * tW t = tW x).
  { intros skips y o Hinv Hu k t Hk.
    apply update_skip_dict_Ok in Hu as (Hw & Hr & ->).
    destruct (decide (tW x / tW y = k)) as [<-|Hne].
    - rewrite lookup_insert_eq in Hk. injection Hk as <-.
      pose proof (Z.div_mod (tW x) (tW y) Hw). lia.
    - rewrite lookup_insert_ne in Hk by assumption. eauto. }
  assert (Hinit : forall k t, ({[ 1 := x ]} : gmap Z Tensor) !! k = Some t ->
                              k * tW t = tW x).
  { intros k t Hk. apply lookup_singleton_Some in Hk as [<- <-]. lia. }
  eauto 10.
Qed.

Lemma deepest_at_insert (k s : Z) (t : Tensor) (skips : gmap Z Tensor) :
  <[s := t]> skips !! k = if s =? k then Some t else skips !! k.
Proof.
  destruct (Z.eqb_spec s k) as [->|Hne].
  - apply lookup_insert_eq.
  - apply lookup_insert_ne. assumption.
Qed.

(** Two successive insertions under one key: only the later one is seen. *)
Lemma deepest_at_successive (k : Z) (l r : list (Z * Tensor)) (t t' : Tensor)
    (acc : option Tensor) :
  Forall (fun p => p.1 <> k) r ->
  deepest_at k (l ++ (k, t) :: (k, t') :: r) acc = Some t'.
Proof.
  intros Hr. revert acc. induction l as [|[s u] l IH]; intros acc; simpl.
  - rewrite !Z.eqb_refl. clear acc.
    induction Hr as [|[s u] r Hs Hr IH]; simpl; [reflexivity|].
    simpl in Hs. destruct (Z.eqb_spec s k); [contradiction|]. exact IH.
  - apply IH.
Qed.

Lemma deepest_at_lookup_successive (k : Z) (l : list (Z * Tensor)) (i : nat)
    (t t' : Tensor) (acc : option Tensor) :
  l !! i = Some (k, t) ->
  l !! S i = Some (k, t') ->
  Forall (fun p => p.1 <> k) (drop (S (S i)) l) ->
  deepest_at k l acc = Some t'.
Proof.
  intros Hi Hi' Hrest.
  rewrite <- (take_drop i l).
  rewrite (drop_S _ _ _ Hi), (drop_S _ _ _ Hi').
  apply deepest_at_successive. exact Hrest.
Qed.

(** C10.  The pyramid returned by [Encoder.forward] is the result of the
    seven insertions made in stage order (the input under key 1, then each
    stage output under input width // its width): looking a scale up gives
    the last tensor inserted under that scale, so when two successive
    stages have the same scale the later one has replaced the earlier one,
    and a scale occurs once among the keys. *)
Theorem Encoder_forward_deepest (e : Encoder) (x : Tensor) (out : gmap Z Tensor) :
  Encoder_forward e x = Ok out ->
  exists ts,
    Encoder_stage_outputs e x = Ok ts /\ length ts = 6%nat /\
    (forall k, out !! k = deepest_at k (insertions x ts) None) /\
    (forall i k t t', insertions x ts !! i = Some (k, t) ->
       insertions x ts !! S i = Some (k, t') ->
       Forall (fun p => p.1 <> k) (drop (S (S i)) (insertions x ts)) ->
       out !! k = Some t') /\
    NoDup (map_to_list out).*1.
Proof.
  unfold Encoder_forward, Encoder_stage_outputs. intros H.
  bind_step H x0 H0. bind_step H x0' H0'. bind_step H x1 H1.
  bind_step H o1 U1. bind_step H x2 H2. bind_step H o2 U2.
  bind_step H x3 H3. bind_step H o3 U3. bind_step H x4 H4.
  bind_step H o4 U4. bind_step H x5 H5. bind_step H o5 U5.
  bind_step H x6 H6. bind_step H o6 U6.
  injection H as <-.
  rewrite H0; simpl. rewrite H0'; simpl. rewrite H1; simpl. rewrite H2; simpl.
  rewrite H3; simpl. rewrite H4; simpl. rewrite H5; simpl. rewrite H6; simpl.
  exists [x1; x2; x3; x4; x5; x6].
  apply update_skip_dict_Ok in U1 as (_ & _ & ->).
  apply update_skip_dict_Ok in U2 as (_ & _ & ->).
  apply update_skip_dict_Ok in U3 as (_ & _ & ->).
  apply update_skip_dict_Ok in U4 as (_ & _ & ->).
  apply update_skip_dict_Ok in U5 as (_ & _ & ->).
  apply update_skip_dict_Ok in U6 as (_ & _ & ->).
  assert (Hlook : forall k,
    (<[tW x / tW x6 := x6]> (<[tW x / tW x5 := x5]> (<[tW x / tW x4 := x4]>
      (<[tW x / tW x3 := x3]> (<[tW x / tW x2 := x2]> (<[tW x / tW x1 := x1]>
        ({[ 1 := x ]} : gmap Z Tensor))))))) !! k
    = deepest_at k (insertions x [x1; x2; x3; x4; x5; x6]) None).
  { intros k. rewrite !deepest_at_insert. unfold insertions.
    cbn [map deepest_at].
    destruct (Z.eqb_spec 1 k) as [<-|Hne].
    - rewrite lookup_singleton_eq. reflexivity.
    - rewrite lookup_singleton_ne by assumption. reflexivity. }
  split; [reflexivity|]. split; [reflexivity|]. split; [exact Hlook|].
  split; [|apply NoDup_fst_map_to_list].
  intros i k t t' Hi Hi' Hrest. rewrite Hlook.
  exact (deepest_at_lookup_successive k _ i t t' None Hi Hi' Hrest).
Qed.

Lemma Encoder_forward_deepest_witness :
  match Encoder_forward (mkEncoder (resnet_shapes 64 (false, false, true)))
          (zeros 1 3 64 64) with
  | Ok out => out !! 16 = Some (zeros 1 512 4 4) /\
              out !! 4 = Some (zeros 1 64 16 16)
  | Raise _ => False
  end.
Proof.
  destruct (Encoder_forward _ _) as [out|err] eqn:E; [|vm_compute in E; discriminate].
  destruct (Encoder_forward_deepest _ _ out E) as (ts & Hts & _ & _ & Hsucc & _).
  vm_compute in Hts. injection Hts as <-.
  split.
  - apply (Hsucc 5%nat 16 (zeros 1 256 4 4)); [reflexivity|reflexivity|constructor].
  - apply (Hsucc 2%nat 4 (zeros 1 64 16 16)); [reflexivity|reflexivity|].
    vm_compute. repeat constructor; discriminate.
Defined.

(** ** Shapes of the primitives *)

Lemma Conv2d_new_Ok cin cout k s p d b w0 b0 m :
  Conv2d_new cin cout k s p d b w0 b0 = Ok m ->
  m = mkConv2d cin cout k s p d w0 (if b then Some b0 else None) /\
  0 <= cin /\ 0 <= cout /\ 0 <= k.
Proof.
  unfold Conv2d_new.
  destruct (cin <? 0) eqn:E1; [discriminate|].
  destruct (cout <? 0) eqn:E2; [discriminate|].
  destruct (k <? 0) eqn:E3; [discriminate|]. simpl.
  intros [= <-]. repeat split; lia.
Qed.

Lemma Conv2d_new_returns cin cout k s p d b w0 b0 :
  0 <= cin -> 0 <= cout -> 0 <= k ->
  Conv2d_new cin cout k s p d b w0 b0
  = Ok (mkConv2d cin cout k s p d w0 (if b then Some b0 else None)).
Proof.
  intros H1 H2 H3. unfold Conv2d_new.
  destruct (cin <? 0) eqn:E1; [lia|].
  destruct (cout <? 0) eqn:E2; [lia|].
  destruct (k <? 0) eqn:E3; [lia|]. reflexivity.
Qed.

Lemma conv_out_size_same (h k p d : Z) :
  2 * p = d * (k - 1) -> conv_out_size h k 1 p d = h.
Proof. intros E. unfold conv_out_size. rewrite Z.div_1_r. lia. Qed.

(** A stride-1 convolution whose padding compensates its dilated kernel
    keeps the spatial size and sets the channel count. *)
Lemma Conv2d_forward_same (m : Conv2d) (x : Tensor) :
  stride m = 1 -> 0 < dilation m -> 0 <= padding m ->
  2 * padding m = dilation m * (kernel_size m - 1) ->
  tC x = in_channels m -> 0 < tH x -> 0 < tW x ->
  Conv2d_forward m x
  = Ok (mkTensor (tN x) (out_channels m) (tH x) (tW x) (Conv2d_data m x)).
Proof.
  intros Hs Hd Hp Hk Hc Hh Hw. unfold Conv2d_forward.
  rewrite Hs at 1.
  rewrite (proj2 (Z.eqb_eq _ _) Hc). simpl negb. cbv iota.
  destruct (1 <=? 0) eqn:E0; [lia|].
  destruct (dilation m <=? 0) eqn:E1; [lia|].
  destruct (padding m <? 0) eqn:E2; [lia|]. simpl orb. cbv iota.
  rewrite Hs, !conv_out_size_same by assumption.
  destruct (tH x <=? 0) eqn:E3; [lia|].
  destruct (tW x <=? 0) eqn:E4; [lia|]. reflexivity.
Qed.

Lemma Conv2d_forward_Ok (m : Conv2d) (x y : Tensor) :
  Conv2d_forward m x = Ok y ->
  tC x = in_channels m /\
  y = mkTensor (tN x) (out_channels m)
        (conv_out_size (tH x) (kernel_size m) (stride m) (padding m) (dilation m))
        (conv_out_size (tW x) (kernel_size m) (stride m) (padding m) (dilation m))
        (Conv2d_data m x) /\
  0 < tH y /\ 0 < tW y.
Proof.
  unfold Conv2d_forward.
  destruct (tC x =? in_channels m) eqn:Ec; simpl; [|discriminate].
  destruct ((stride m <=? 0) || (dilation m <=? 0) || (padding m <? 0)); [discriminate|].
  destruct (conv_out_size (tH x) _ _ _ _ <=? 0) eqn:E1; [discriminate|].
  destruct (conv_out_size (tW x) _ _ _ _ <=? 0) eqn:E2; [discriminate|]. simpl.
  intros [= <-]. simpl. repeat split; lia.
Qed.

Lemma broadcast_dim_refl (a : Z) : broadcast_dim a a = Some a.
Proof. unfold broadcast_dim. rewrite Z.eqb_refl. reflexivity. Qed.

Lemma bidx_in_range (d i : Z) : 0 <= i < d -> bidx d i = i.
Proof. unfold bidx. destruct (Z.eqb_spec d 1); lia. Qed.

(** On operands of one shape the elementwise operators return that shape. *)
Lemma elementwise_same_shape op name (x y : Tensor) :
  shape x = shape y ->
  elementwise op name x y
  = Ok (mkTensor (tN x) (tC x) (tH x) (tW x) (fun n c i j =>
      op (tdata x (bidx (tN x) n) (bidx (tC x) c) (bidx (tH x) i) (bidx (tW x) j))
         (tdata y (bidx (tN y) n) (bidx (tC y) c) (bidx (tH y) i) (bidx (tW y) j)))).
Proof.
  unfold shape. intros [= En Ec Eh Ew]. unfold elementwise, broadcast_shape.
  rewrite <- En, <- Ec, <- Eh, <- Ew, !broadcast_dim_refl. reflexivity.
Qed.

Lemma sigmoid_R_0 : sigmoid_R 0 = (1 / 2)%R.
Proof. unfold sigmoid_R. rewrite Ropp_0, exp_0. lra. Qed.

(** A convolution without bias whose weights are all zero computes zero. *)
Lemma Conv2d_data_zero_weight (m : Conv2d) (x : Tensor) n o i j :
  (forall o c ki kj, weight m o c ki kj = 0%R) -> bias m = None ->
  Conv2d_data m x n o i j = 0%R.
Proof.
  intros Hw Hb. unfold Conv2d_data. rewrite Hb.
  rewrite sum_upto_zero; [lra|].
  intros c _. apply sum_upto_zero. intros ki _. apply sum_upto_zero.
  intros kj _. rewrite Hw. lra.
Qed.

Lemma SelfAttention_new_Ok draw name cin cout sa :
  SelfAttention_new draw name cin cout = Ok sa ->
  sa = mkSelfAttention
         (mkConv2d cin cout 3 1 1 1 (draw (sub name "conv.weight")) None)
         (mkConv2d cin cout 3 1 1 1 (fun _ _ _ _ => 0%R) None).
Proof.
  unfold SelfAttention_new. intros H.
  bind_step H conv Hc. bind_step H att Ha.
  apply Conv2d_new_Ok in Hc as [-> _]. apply Conv2d_new_Ok in Ha as [-> _].
  injection H as <-. reflexivity.
Qed.

(** C4.  After [SelfAttention.__init__] every weight of the gating
    convolution is zero, and on such a module the forward pass returns
    0.5 times the output of the feature convolution, for every input on
    which the feature convolution returns; on the other inputs the forward
    pass raises what the feature convolution raises. *)
Theorem SelfAttention_zero_init (draw : Init) (name : string) (cin cout : Z)
    (sa : SelfAttention) :
  SelfAttention_new draw name cin cout = Ok sa ->
  (forall o c ki kj, weight (sa_attention sa) o c ki kj = 0%R) /\
  forall x,
    match Conv2d_forward (sa_conv sa) x with
    | Ok features =>
        exists y, SelfAttention_forward sa x = Ok y /\
                  tensor_eq y (scale (1 / 2) features)
    | Raise e => SelfAttention_forward sa x = Raise e
    end.
Proof.
  intros Hnew. apply SelfAttention_new_Ok in Hnew as ->. simpl.
  split; [reflexivity|]. intros x.
  unfold SelfAttention_forward. simpl.
  destruct (Conv2d_forward _ x) as [features|e] eqn:Hf; [|reflexivity].
  simpl.
  pose proof (Conv2d_forward_Ok _ _ _ Hf) as (Hc & Hy & Hh & Hw).
  simpl in Hy.
  assert (Ha : Conv2d_forward (mkConv2d cin cout 3 1 1 1 (fun _ _ _ _ => 0%R) None) x
               = Ok (mkTensor (tN x) cout (tH features) (tW features)
                       (Conv2d_data (mkConv2d cin cout 3 1 1 1 (fun _ _ _ _ => 0%R) None) x))).
  { revert Hf. unfold Conv2d_forward. simpl.
    destruct (negb (tC x =? cin)); [discriminate|].
    destruct (conv_out_size (tH x) 3 1 1 1 <=? 0); [discriminate|].
    destruct (conv_out_size (tW x) 3 1 1 1 <=? 0); [discriminate|]. simpl.
    intros [= <-]. reflexivity. }
  rewrite Ha. simpl.
  unfold tensor_mul. rewrite elementwise_same_shape by (rewrite Hy; reflexivity).
  eexists. split; [reflexivity|].
  split; [reflexivity|]. simpl.
  intros n c i j Hn Hcc Hi Hj.
  rewrite Conv2d_data_zero_weight by reflexivity.
  rewrite sigmoid_R_0.
  rewrite !bidx_in_range by assumption. lra.
Qed.

Lemma SelfAttention_zero_init_witness :
  let sa := mkSelfAttention
              (mkConv2d 256 256 3 1 1 1 (fun _ _ _ _ => 1%R) None)
              (mkConv2d 256 256 3 1 1 1 (fun _ _ _ _ => 0%R) None) in
  let x := ones 1 256 4 4 in
  SelfAttention_new (fun _ _ _ _ _ => 1%R) "sa_from_depth2semseg" 256 256 = Ok sa /\
  exists y, SelfAttention_forward sa x = Ok y /\
            tensor_eq y (scale (1 / 2)
                           (mkTensor 1 256 4 4 (Conv2d_data (sa_conv sa) x))).
Proof.
  intros sa x.
  assert (Hnew : SelfAttention_new (fun _ _ _ _ _ => 1%R) "sa_from_depth2semseg" 256 256
                 = Ok sa) by reflexivity.
  split; [exact Hnew|].
  destruct (SelfAttention_zero_init _ _ _ _ _ Hnew) as [_ Hfwd].
  specialize (Hfwd x).
  rewrite Conv2d_forward_same in Hfwd by (simpl; lia).
  exact Hfwd.
Defined.

(** C9.  [SelfAttention.forward] keeps the spatial size and returns
    [out_channels] channels: on an input with [in_channels] channels and a
    non-empty plane (h, w) it returns a tensor of shape
    (N, out_channels, h, w), which can therefore be added to any tensor of
    that shape, the sum having that shape again. *)
Theorem SelfAttention_forward_shape (draw : Init) (name : string) (cin cout : Z)
    (sa : SelfAttention) (x : Tensor) :
  SelfAttention_new draw name cin cout = Ok sa ->
  tC x = cin -> 0 < tH x -> 0 < tW x ->
  exists y, SelfAttention_forward sa x = Ok y /\
            shape y = (tN x, cout, tH x, tW x) /\
            forall features_low, shape features_low = shape y ->
              exists s, tensor_add features_low y = Ok s /\ shape s = shape y.
Proof.
  intros Hnew Hc Hh Hw. apply SelfAttention_new_Ok in Hnew as ->.
  unfold SelfAttention_forward. simpl.
  rewrite !Conv2d_forward_same by (simpl; lia). simpl.
  unfold tensor_mul. rewrite elementwise_same_shape by reflexivity.
  eexists. split; [reflexivity|]. split; [reflexivity|].
  intros fl Hfl. unfold tensor_add.
  rewrite elementwise_same_shape by exact Hfl.
  eexists. split; [reflexivity|]. rewrite <- Hfl. reflexivity.
Qed.

Lemma SelfAttention_forward_shape_witness :
  exists y, SelfAttention_forward
              (mkSelfAttention
                 (mkConv2d 256 256 3 1 1 1 (fun _ _ _ _ => 1%R) None)
                 (mkConv2d 256 256 3 1 1 1 (fun _ _ _ _ => 0%R) None))
              (ones 2 256 32 64) = Ok y /\
            shape y = (2, 256, 32, 64).
Proof.
  destruct (SelfAttention_forward_shape (fun _ _ _ _ _ => 1%R) "sa_from_semseg2depth"
              256 256 _ (ones 2 256 32 64) eq_refl eq_refl)
    as (y & Hy & Hs & _); [simpl; lia|simpl; lia|].
  exists y. split; [exact Hy|exact Hs].
Defined.

(** ** Shapes through the layers *)

Arguments interpolate : simpl never.
Arguments cat2 : simpl never.
Arguments AvgPool2d_forward : simpl never.
Arguments ConvBNReLU_forward : simpl never.
Arguments Conv2d_forward : simpl never.
Arguments conv_out_size : simpl never.

Lemma Conv2d_forward_returns (m : Conv2d) (x : Tensor) :
  tC x = in_channels m -> 0 < stride m -> 0 < dilation m -> 0 <= padding m ->
  0 < conv_out_size (tH x) (kernel_size m) (stride m) (padding m) (dilation m) ->
  0 < conv_out_size (tW x) (kernel_size m) (stride m) (padding m) (dilation m) ->
  Conv2d_forward m x
  = Ok (mkTensor (tN x) (out_channels m)
          (conv_out_size (tH x) (kernel_size m) (stride m) (padding m) (dilation m))
          (conv_out_size (tW x) (kernel_size m) (stride m) (padding m) (dilation m))
          (Conv2d_data m x)).
Proof.
  intros Hc Hs Hd Hp Hh Hw. unfold Conv2d_forward.
  destruct (Z.eqb_spec (tC x) (in_channels m)); [|contradiction]. simpl.
  destruct (stride m <=? 0) eqn:E0; [lia|].
  destruct (dilation m <=? 0) eqn:E1; [lia|].
  destruct (padding m <? 0) eqn:E2; [lia|]. simpl.
  destruct (conv_out_size (tH x) _ _ _ _ <=? 0) eqn:E3; [lia|].
  destruct (conv_out_size (tW x) _ _ _ _ <=? 0) eqn:E4; [lia|]. reflexivity.
Qed.

Lemma ConvBNReLU_new_Ok draw name cin cout k s p d b m :
  ConvBNReLU_new draw name cin cout k s p d b = Ok m ->
  m = mkConvBNReLU
        (mkConv2d cin cout k s p d (draw (sub name "0.weight"))
           (if b then Some (fun o => draw (sub name "0.bias") o 0 0 0) else None))
        (BatchNorm2d_new cout) /\
  0 <= cin /\ 0 <= cout.
Proof.
  unfold ConvBNReLU_new. intros H. bind_step H conv Hc.
  apply Conv2d_new_Ok in Hc as (-> & Hi & Ho & _). injection H as <-. tauto.
Qed.

Lemma ConvBNReLU_new_returns draw name cin cout k s p d b :
  0 <= cin -> 0 <= cout -> 0 <= k ->
  ConvBNReLU_new draw name cin cout k s p d b
  = Ok (mkConvBNReLU
          (mkConv2d cin cout k s p d (draw (sub name "0.weight"))
             (if b then Some (fun o => draw (sub name "0.bias") o 0 0 0) else None))
          (BatchNorm2d_new cout)).
Proof.
  intros H1 H2 H3. unfold ConvBNReLU_new.
  rewrite Conv2d_new_returns by assumption. reflexivity.
Qed.

(** More than one row or column: more than one value per channel. *)
Lemma size_prods_plane (n h w : Z) : 1 < h \/ 1 < w -> n * h * w <> 1.
Proof.
  intros Hbig E. destruct Hbig as [Hh|Hw].
  - assert (E' : h * (n * w) = 1) by lia.
    apply Z.eq_mul_1 in E'. lia.
  - assert (E' : w * (n * h) = 1) by lia.
    apply Z.eq_mul_1 in E'. lia.
Qed.

Lemma BatchNorm2d_forward_returns (m : BatchNorm2d) (x : Tensor) :
  tC x = num_features m ->
  (training m = true -> tN x * tH x * tW x <> 1) ->
  BatchNorm2d_forward m x
  = Ok (mkTensor (tN x) (tC x) (tH x) (tW x) (BatchNorm2d_data m x)).
Proof.
  intros H Hb. unfold BatchNorm2d_forward, size_prods.
  destruct (training m); cbn [andb].
  - destruct (Z.eqb_spec (tN x * tH x * tW x) 1) as [E|_];
      [exfalso; apply Hb; [reflexivity|exact E]|].
    rewrite H, Z.eqb_refl. reflexivity.
  - rewrite H, Z.eqb_refl. reflexivity.
Qed.

Lemma BatchNorm2d_forward_Ok (m : BatchNorm2d) (x y : Tensor) :
  BatchNorm2d_forward m x = Ok y ->
  y = mkTensor (tN x) (tC x) (tH x) (tW x) (BatchNorm2d_data m x) /\
  tC x = num_features m /\
  (training m = true -> tN x * tH x * tW x <> 1).
Proof.
  unfold BatchNorm2d_forward, size_prods.
  destruct (training m); cbn [andb].
  - destruct (Z.eqb_spec (tN x * tH x * tW x) 1) as [E|E]; [discriminate|].
    destruct (Z.eqb_spec (tC x) (num_features m)); [|discriminate]. cbn [negb].
    intros [= <-]. tauto.
  - destruct (Z.eqb_spec (tC x) (num_features m)); [|discriminate]. cbn [negb].
    intros [= <-]. split; [reflexivity|]. split; [assumption|discriminate].
Qed.

(** What training mode refuses. *)
Lemma BatchNorm2d_forward_ValueError (m : BatchNorm2d) (x : Tensor) :
  training m = true -> tN x * tH x * tW x = 1 ->
  BatchNorm2d_forward m x = Raise ValueError.
Proof.
  intros Ht E. unfold BatchNorm2d_forward, size_prods.
  rewrite Ht, E. reflexivity.
Qed.

(** In training mode the value of a call does not depend on the running
    statistics, hence not on earlier calls; in evaluation mode a call
    leaves the module as it is. *)
Lemma BatchNorm2d_forward_after (m : BatchNorm2d) (x0 x : Tensor) :
  BatchNorm2d_forward (BatchNorm2d_after m x0) x = BatchNorm2d_forward m x.
Proof.
  unfold BatchNorm2d_after. destruct (training m) eqn:Et; [|reflexivity].
  unfold BatchNorm2d_forward, BatchNorm2d_data. cbn [training num_features
    bn_weight bn_bias eps]. rewrite Et. reflexivity.
Qed.

(** Conv2d, BatchNorm2d, ReLU in sequence: the shape is the convolution's. *)
Lemma ConvBNReLU_forward_returns (m : ConvBNReLU) (x : Tensor) :
  num_features (cbr_bn m) = out_channels (cbr_conv m) ->
  tC x = in_channels (cbr_conv m) ->
  0 < stride (cbr_conv m) -> 0 < dilation (cbr_conv m) -> 0 <= padding (cbr_conv m) ->
  0 < conv_out_size (tH x) (kernel_size (cbr_conv m)) (stride (cbr_conv m))
        (padding (cbr_conv m)) (dilation (cbr_conv m)) ->
  0 < conv_out_size (tW x) (kernel_size (cbr_conv m)) (stride (cbr_conv m))
        (padding (cbr_conv m)) (dilation (cbr_conv m)) ->
  (training (cbr_bn m) = true ->
   tN x * conv_out_size (tH x) (kernel_size (cbr_conv m)) (stride (cbr_conv m))
            (padding (cbr_conv m)) (dilation (cbr_conv m))
        * conv_out_size (tW x) (kernel_size (cbr_conv m)) (stride (cbr_conv m))
            (padding (cbr_conv m)) (dilation (cbr_conv m)) <> 1) ->
  exists y, ConvBNReLU_forward m x = Ok y /\
    tN y = tN x /\ tC y = out_channels (cbr_conv m) /\
    tH y = conv_out_size (tH x) (kernel_size (cbr_conv m)) (stride (cbr_conv m))
             (padding (cbr_conv m)) (dilation (cbr_conv m)) /\
    tW y = conv_out_size (tW x) (kernel_size (cbr_conv m)) (stride (cbr_conv m))
             (padding (cbr_conv m)) (dilation (cbr_conv m)).
Proof.
  intros Hbn Hc Hs Hd Hp Hh Hw Hb. unfold ConvBNReLU_forward.
  rewrite Conv2d_forward_returns by assumption. rewrite bind_Ok_l.
  rewrite BatchNorm2d_forward_returns by (cbn [tN tC tH tW]; auto).
  rewrite bind_Ok_l. eexists. split; [reflexivity|]. simpl. tauto.
Qed.

Lemma ConvBNReLU_forward_Ok (m : ConvBNReLU) (x y : Tensor) :
  ConvBNReLU_forward m x = Ok y ->
  tC x = in_channels (cbr_conv m) /\
  tN y = tN x /\ tC y = out_channels (cbr_conv m) /\
  tH y = conv_out_size (tH x) (kernel_size (cbr_conv m)) (stride (cbr_conv m))
           (padding (cbr_conv m)) (dilation (cbr_conv m)) /\
  tW y = conv_out_size (tW x) (kernel_size (cbr_conv m)) (stride (cbr_conv m))
           (padding (cbr_conv m)) (dilation (cbr_conv m)) /\
  0 < tH y /\ 0 < tW y /\
  (training (cbr_bn m) = true -> tN y * tH y * tW y <> 1).
Proof.
  unfold ConvBNReLU_forward. intros H. bind_step H c Hc. bind_step H b Hb.
  injection H as <-.
  apply Conv2d_forward_Ok in Hc as (Hin & -> & Hh & Hw). simpl in *.
  apply BatchNorm2d_forward_Ok in Hb as (-> & _ & Hb). simpl in *. tauto.
Qed.

Lemma interpolate_returns (x : Tensor) (oh ow : Z) :
  0 < tH x -> 0 < tW x -> 0 < oh -> 0 < ow ->
  interpolate x (oh, ow) = Ok (mkTensor (tN x) (tC x) oh ow (interpolate_data x oh ow)).
Proof.
  intros H1 H2 H3 H4. unfold interpolate.
  destruct (tH x <=? 0) eqn:E1; [lia|]. destruct (tW x <=? 0) eqn:E2; [lia|].
  destruct (oh <=? 0) eqn:E3; [lia|]. destruct (ow <=? 0) eqn:E4; [lia|].
  reflexivity.
Qed.

Lemma interpolate_Ok (x y : Tensor) (size : Z * Z) :
  interpolate x size = Ok y ->
  y = mkTensor (tN x) (tC x) size.1 size.2 (interpolate_data x size.1 size.2) /\
  0 < tH x /\ 0 < tW x /\ 0 < size.1 /\ 0 < size.2.
Proof.
  destruct size as [oh ow]. unfold interpolate.
  destruct (tH x <=? 0) eqn:E1; [discriminate|].
  destruct (tW x <=? 0) eqn:E2; [discriminate|].
  destruct (oh <=? 0) eqn:E3; [discriminate|].
  destruct (ow <=? 0) eqn:E4; [discriminate|]. simpl.
  intros [= <-]. repeat split; lia.
Qed.

Lemma cat2_returns (a b : Tensor) :
  tN a = tN b -> tH a = tH b -> tW a = tW b ->
  cat2 a b = Ok (mkTensor (tN a) (tC a + tC b) (tH a) (tW a) (fun n c i j =>
               if c <? tC a then tdata a n c i j else tdata b n (c - tC a) i j)).
Proof.
  intros E1 E2 E3. unfold cat2.
  destruct (Z.eqb_spec (tN a) (tN b)); [|contradiction].
  destruct (Z.eqb_spec (tH a) (tH b)); [|contradiction].
  destruct (Z.eqb_spec (tW a) (tW b)); [|contradiction]. reflexivity.
Qed.

Lemma cat2_Ok (a b y : Tensor) :
  cat2 a b = Ok y ->
  tN a = tN b /\ tH a = tH b /\ tW a = tW b /\
  y = mkTensor (tN a) (tC a + tC b) (tH a) (tW a) (fun n c i j =>
        if c <? tC a then tdata a n c i j else tdata b n (c - tC a) i j).
Proof.
  unfold cat2.
  destruct (Z.eqb_spec (tN a) (tN b)); [|discriminate].
  destruct (Z.eqb_spec (tH a) (tH b)); [|discriminate].
  destruct (Z.eqb_spec (tW a) (tW b)); [|discriminate]. simpl.
  intros [= <-]. tauto.
Qed.

Lemma conv_out_size_stride1 (h k p d : Z) :
  conv_out_size h k 1 p d = h + 2 * p - d * (k - 1).
Proof. unfold conv_out_size. rewrite Z.div_1_r. lia. Qed.

(** A block in training mode refuses an input that the convolution maps to
    one value per channel. *)
Lemma ConvBNReLU_forward_ValueError (m : ConvBNReLU) (x : Tensor) :
  stride (cbr_conv m) = 1 -> 0 < dilation (cbr_conv m) -> 0 <= padding (cbr_conv m) ->
  2 * padding (cbr_conv m) = dilation (cbr_conv m) * (kernel_size (cbr_conv m) - 1) ->
  tC x = in_channels (cbr_conv m) -> 0 < tH x -> 0 < tW x ->
  training (cbr_bn m) = true -> tN x * tH x * tW x = 1 ->
  ConvBNReLU_forward m x = Raise ValueError.
Proof.
  intros Hs Hd Hp Hk Hc Hh Hw Ht Hb. unfold ConvBNReLU_forward.
  rewrite Conv2d_forward_same by assumption. rewrite bind_Ok_l.
  rewrite BatchNorm2d_forward_ValueError by assumption. reflexivity.
Qed.

(** The batch of a normalisation in training mode has more than one value
    per channel: by the mode, by the size of the plane, or by what is known
    of the input. *)
Ltac bn_values :=
  let Hm := fresh "Hm" in
  simpl; rewrite ?conv_out_size_stride1; intros Hm;
  first [ discriminate Hm
        | apply size_prods_plane; lia
        | repeat match goal with
                 | H : _ = true -> _ |- _ => specialize (H Hm)
                 end; lia ].

(** Run the next Conv2d-BatchNorm2d-ReLU block of the goal. *)
Ltac cbr_forward y :=
  let E := fresh "E" in
  let HN := fresh "HN" in
  let HC := fresh "HC" in
  let HH := fresh "HH" in
  let HW := fresh "HW" in
  match goal with
  | |- context [ConvBNReLU_forward ?m ?x] =>
      destruct (ConvBNReLU_forward_returns m x) as (y & E & HN & HC & HH & HW);
      [simpl; rewrite ?conv_out_size_stride1; simpl; lia ..
      | bn_values
      | rewrite E; simpl in HN, HC, HH, HW;
        rewrite ?conv_out_size_stride1 in HH, HW; simpl]
  end.

Lemma ASPP_new_Ok draw name cin cout r0 r1 r2 m :
  ASPP_new draw name cin cout (r0, r1, r2) = Ok m ->
  exists w1 w2 w3 w4 wg wf,
    m = mkASPP
          (mkConvBNReLU (mkConv2d cin cout 1 1 0 1 w1 None) (BatchNorm2d_new cout))
          (mkConvBNReLU (mkConv2d cin cout 3 1 r0 r0 w2 None) (BatchNorm2d_new cout))
          (mkConvBNReLU (mkConv2d cin cout 3 1 r1 r1 w3 None) (BatchNorm2d_new cout))
          (mkConvBNReLU (mkConv2d cin cout 3 1 r2 r2 w4 None) (BatchNorm2d_new cout))
          (mkConvBNReLU (mkConv2d cin cout 1 1 1 1 wg None) (BatchNorm2d_new cout))
          (mkConvBNReLU (mkConv2d (cout * 5) cout 1 1 0 1 wf None) (BatchNorm2d_new cout)).
Proof.
  unfold ASPP_new, ASPPpart_new. intros H.
  bind_step H p1 H1. bind_step H p2 H2. bind_step H p3 H3. bind_step H p4 H4.
  bind_step H pg Hg. bind_step H pf Hf. injection H as <-.
  apply ConvBNReLU_new_Ok in H1 as [-> _]. apply ConvBNReLU_new_Ok in H2 as [-> _].
  apply ConvBNReLU_new_Ok in H3 as [-> _]. apply ConvBNReLU_new_Ok in H4 as [-> _].
  apply ConvBNReLU_new_Ok in Hg as [-> _]. apply ConvBNReLU_new_Ok in Hf as [-> _].
  repeat eexists.
Qed.

(** A constructed module is in training mode. *)
Lemma ASPP_train_new draw name cin cout rates m :
  ASPP_new draw name cin cout rates = Ok m -> ASPP_train true m = m.
Proof.
  destruct rates as [[r0 r1] r2]. intros H.
  apply ASPP_new_Ok in H as (w1 & w2 & w3 & w4 & wg & wf & ->). reflexivity.
Qed.

(** The forward pass of ASPP in either mode. *)
Lemma ASPP_forward_returns (draw : Init) (name : string) (cin cout r0 r1 r2 : Z)
    (m : ASPP) (mode : bool) (x : Tensor) :
  ASPP_new draw name cin cout (r0, r1, r2) = Ok m ->
  0 < r0 -> 0 < r1 -> 0 < r2 ->
  tC x = cin -> 0 < tH x -> 0 < tW x ->
  (mode = true -> tN x * tH x * tW x <> 1) ->
  exists y, ASPP_forward (ASPP_train mode m) x = Ok y /\
            shape y = (tN x, cout, tH x, tW x).
Proof.
  intros Hnew Hr0 Hr1 Hr2 Hc Hh Hw Hb.
  apply ASPP_new_Ok in Hnew as (w1 & w2 & w3 & w4 & wg & wf & ->).
  unfold ASPP_forward. simpl.
  cbr_forward y1. cbr_forward y2. cbr_forward y3. cbr_forward y4.
  unfold AvgPool2d_forward.
  destruct (tH x <=? 0) eqn:E3; [lia|]. destruct (tW x <=? 0) eqn:E4; [lia|].
  replace (tH x - tH x + 1) with 1 by lia. replace (tW x - tW x + 1) with 1 by lia.
  cbn [orb Z.leb Z.compare]. simpl.
  cbr_forward g.
  rewrite interpolate_returns by lia. simpl.
  rewrite cat2_returns by (simpl; lia). simpl.
  rewrite cat2_returns by (simpl; lia). simpl.
  rewrite cat2_returns by (simpl; lia). simpl.
  rewrite cat2_returns by (simpl; lia). simpl.
  cbr_forward y.
  exists y. split; [reflexivity|]. unfold shape. f_equal; [f_equal; [f_equal|]|]; lia.
Qed.

(** In training mode the first branch of ASPP refuses an input with one
    value per channel. *)
Lemma ASPP_forward_ValueError (draw : Init) (name : string) (cin cout r0 r1 r2 : Z)
    (m : ASPP) (x : Tensor) :
  ASPP_new draw name cin cout (r0, r1, r2) = Ok m ->
  tC x = cin -> 0 < tH x -> 0 < tW x ->
  tN x * tH x * tW x = 1 ->
  ASPP_forward m x = Raise ValueError.
Proof.
  intros Hnew Hc Hh Hw Hb.
  apply ASPP_new_Ok in Hnew as (w1 & w2 & w3 & w4 & wg & wf & ->).
  unfold ASPP_forward. cbn [conv_1].
  match goal with
  | |- ConvBNReLU_forward ?b x ≫= _ = _ =>
      rewrite (ConvBNReLU_forward_ValueError b x)
  end; [reflexivity|simpl; lia ..].
Qed.

(** C6, as stated, fails: a module is in training mode after its
    construction, and there the normalisation of the first branch refuses
    an input with one value per channel.  On an input of shape
    (1, 512, 1, 1) the forward pass raises ValueError. *)
Lemma ASPP_forward_single_value :
  exists m,
    ASPP_new (fun _ _ _ _ _ => 1%R) "aspp_semseg" 512 256 default_rates = Ok m /\
    ASPP_forward m (ones 1 512 1 1) = Raise ValueError.
Proof.
  destruct (ASPP_new (fun _ _ _ _ _ => 1%R) "aspp_semseg" 512 256 default_rates)
    as [m|e] eqn:E; [|vm_compute in E; discriminate].
  exists m. split; [reflexivity|].
  apply (ASPP_forward_ValueError _ _ _ _ _ _ _ _ _ E); simpl; lia.
Qed.

(** C6, amended.  For positive dilation rates, on an input of shape
    (N, in_channels, h, w) with a non-empty plane, [ASPP.forward] returns a
    tensor of shape (N, out_channels, h, w) in evaluation mode, and in
    training mode, the mode of a constructed module, when the input has
    more than one value per channel (N * h * w is not 1); in training mode
    on an input with one value per channel it raises ValueError. *)
Theorem ASPP_forward_shape (draw : Init) (name : string) (cin cout r0 r1 r2 : Z)
    (m : ASPP) (x : Tensor) :
  ASPP_new draw name cin cout (r0, r1, r2) = Ok m ->
  0 < r0 -> 0 < r1 -> 0 < r2 ->
  tC x = cin -> 0 < tH x -> 0 < tW x ->
  ASPP_train true m = m /\
  (forall mode, (mode = true -> tN x * tH x * tW x <> 1) ->
     exists y, ASPP_forward (ASPP_train mode m) x = Ok y /\
               shape y = (tN x, cout, tH x, tW x)) /\
  (tN x * tH x * tW x = 1 -> ASPP_forward m x = Raise ValueError).
Proof.
  intros Hnew Hr0 Hr1 Hr2 Hc Hh Hw.
  split; [exact (ASPP_train_new _ _ _ _ _ _ Hnew)|]. split.
  - intros mode Hb.
    exact (ASPP_forward_returns _ _ _ _ _ _ _ _ mode x Hnew Hr0 Hr1 Hr2 Hc Hh Hw Hb).
  - intros Hb. exact (ASPP_forward_ValueError _ _ _ _ _ _ _ _ _ Hnew Hc Hh Hw Hb).
Qed.

Lemma ASPP_forward_shape_witness :
  exists m y y',
    ASPP_new (fun _ _ _ _ _ => 1%R) "aspp_semseg" 512 256 default_rates = Ok m /\
    ASPP_forward m (ones 2 512 8 16) = Ok y /\
    shape y = (2, 256, 8, 16) /\
    ASPP_forward (ASPP_train false m) (ones 1 512 1 1) = Ok y' /\
    shape y' = (1, 256, 1, 1).
Proof.
  destruct (ASPP_new (fun _ _ _ _ _ => 1%R) "aspp_semseg" 512 256 default_rates)
    as [m|e] eqn:E; [|vm_compute in E; discriminate].
  destruct (ASPP_forward_shape _ _ _ _ _ _ _ m (ones 2 512 8 16) E)
    as (Ht & Hy & _); [lia|lia|lia|reflexivity|simpl; lia|simpl; lia|].
  destruct (Hy true) as (y & Hy1 & Hs1); [intros _; simpl; lia|].
  destruct (ASPP_forward_shape _ _ _ _ _ _ _ m (ones 1 512 1 1) E)
    as (_ & Hy' & _); [lia|lia|lia|reflexivity|simpl; lia|simpl; lia|].
  destruct (Hy' false) as (y' & Hy2 & Hs2); [discriminate|].
  rewrite Ht in Hy1.
  exists m, y, y'. split; [reflexivity|]. repeat split; assumption.
Defined.

(** ** DecoderDistillation *)

Lemma broadcast_dim_None (a b : Z) :
  broadcast_dim a b = None <-> ~ compatible_dim a b.
Proof.
  unfold broadcast_dim, compatible_dim.
  destruct (Z.eqb_spec a b); [split; [discriminate|tauto]|].
  destruct (Z.eqb_spec a 1); [split; [discriminate|tauto]|].
  destruct (Z.eqb_spec b 1); [split; [discriminate|tauto]|].
  split; [tauto|reflexivity].
Qed.

Lemma broadcast_dim_Some (a b c : Z) :
  broadcast_dim a b = Some c -> compatible_dim a b.
Proof.
  unfold broadcast_dim, compatible_dim.
  destruct (Z.eqb_spec a b); [tauto|].
  destruct (Z.eqb_spec a 1); [tauto|].
  destruct (Z.eqb_spec b 1); [tauto|discriminate].
Qed.

Lemma broadcast_shape_None (x y : Tensor) :
  broadcast_shape x y = None <-> ~ compatible x y.
Proof.
  unfold broadcast_shape, compatible.
  destruct (broadcast_dim (tN x) (tN y)) eqn:En; simpl;
    [apply broadcast_dim_Some in En|apply broadcast_dim_None in En; tauto].
  destruct (broadcast_dim (tC x) (tC y)) eqn:Ec; simpl;
    [apply broadcast_dim_Some in Ec|apply broadcast_dim_None in Ec; tauto].
  destruct (broadcast_dim (tH x) (tH y)) eqn:Eh; simpl;
    [apply broadcast_dim_Some in Eh|apply broadcast_dim_None in Eh; tauto].
  destruct (broadcast_dim (tW x) (tW y)) eqn:Ew; simpl;
    [apply broadcast_dim_Some in Ew|apply broadcast_dim_None in Ew; tauto].
  split; [discriminate|tauto].
Qed.

Lemma DecoderDistillation_new_Ok draw name cin num_out_ch m :
  DecoderDistillation_new draw name cin num_out_ch = Ok m ->
  exists w1 w2 w3,
    m = mkDecoderDistillation
          (mkConvBNReLU (mkConv2d cin (cin / 2) 3 1 1 1 w1 None)
             (BatchNorm2d_new (cin / 2)))
          (mkConvBNReLU (mkConv2d (cin / 2) (cin / 4) 3 1 1 1 w2 None)
             (BatchNorm2d_new (cin / 4)))
          (mkConv2d (cin / 4) num_out_ch 3 1 1 1 w3 None).
Proof.
  unfold DecoderDistillation_new. intros H.
  bind_step H f1 H1. bind_step H f2 H2. bind_step H f3 H3. injection H as <-.
  apply ConvBNReLU_new_Ok in H1 as [-> _]. apply ConvBNReLU_new_Ok in H2 as [-> _].
  apply Conv2d_new_Ok in H3 as [-> _]. repeat eexists.
Qed.

Lemma DecoderDistillation_train_new draw name cin num_out_ch m :
  DecoderDistillation_new draw name cin num_out_ch = Ok m ->
  DecoderDistillation_train true m = m.
Proof.
  intros H. apply DecoderDistillation_new_Ok in H as (w1 & w2 & w3 & ->). reflexivity.
Qed.

(** The forward pass, in either mode, on operands that broadcast to
    (n, in_channels, h, w). *)
Lemma DecoderDistillation_forward_broadcast draw name cin num_out_ch m (mode : bool)
    (features_low features_sa : Tensor) (n h w : Z) :
  DecoderDistillation_new draw name cin num_out_ch = Ok m ->
  broadcast_shape features_low features_sa = Some (n, cin, h, w) ->
  0 < h -> 0 < w ->
  (mode = true -> n * h * w <> 1) ->
  exists feats y,
    DecoderDistillation_features (DecoderDistillation_train mode m)
      features_low features_sa = Ok feats /\
    shape feats = (n, cin / 4, 4 * h, 4 * w) /\
    DecoderDistillation_forward (DecoderDistillation_train mode m)
      features_low features_sa = Ok y /\
    shape y = (n, num_out_ch, 4 * h, 4 * w).
Proof.
  intros Hnew Hb Hh Hw Hv.
  apply DecoderDistillation_new_Ok in Hnew as (w1 & w2 & w3 & ->).
  unfold DecoderDistillation_forward, DecoderDistillation_features.
  unfold tensor_add, elementwise. rewrite Hb. simpl.
  cbr_forward a1.
  rewrite interpolate_returns by lia. simpl.
  cbr_forward a2.
  rewrite interpolate_returns by lia. simpl.
  eexists. eexists. split; [reflexivity|]. split.
  { unfold shape. simpl. f_equal; [f_equal; [f_equal|]|]; lia. }
  rewrite Conv2d_forward_same by (simpl; lia). simpl.
  split; [reflexivity|].
  unfold shape. simpl. f_equal; [f_equal; [f_equal|]|]; lia.
Qed.

Lemma broadcast_shape_same (x y : Tensor) :
  shape x = shape y -> broadcast_shape x y = Some (shape x).
Proof.
  unfold shape. intros [= En Ec Eh Ew]. unfold broadcast_shape.
  rewrite <- En, <- Ec, <- Eh, <- Ew, !broadcast_dim_refl. reflexivity.
Qed.

(** In training mode the first block refuses a sum with one value per
    channel. *)
Lemma DecoderDistillation_forward_ValueError draw name cin num_out_ch m
    (features_low features_sa : Tensor) :
  DecoderDistillation_new draw name cin num_out_ch = Ok m ->
  shape features_low = shape features_sa ->
  tC features_low = cin -> 0 < tH features_low -> 0 < tW features_low ->
  tN features_low * tH features_low * tW features_low = 1 ->
  DecoderDistillation_forward m features_low features_sa = Raise ValueError.
Proof.
  intros Hnew Hs Hc Hh Hw Hv.
  apply DecoderDistillation_new_Ok in Hnew as (w1 & w2 & w3 & ->).
  unfold DecoderDistillation_forward, DecoderDistillation_features.
  unfold tensor_add. rewrite elementwise_same_shape by exact Hs.
  rewrite bind_Ok_l. cbn [conv3x3_final1].
  match goal with
  | |- (ConvBNReLU_forward ?b ?t ≫= _) ≫= _ = _ =>
      rewrite (ConvBNReLU_forward_ValueError b t)
  end; [reflexivity|simpl; lia ..].
Qed.

(** C7, as stated, fails: a module is in training mode after its
    construction, and there the normalisation of the first block refuses
    one value per channel.  On two inputs of shape (1, 256, 1, 1) the
    forward pass raises ValueError. *)
Lemma DecoderDistillation_forward_single_value :
  exists m,
    DecoderDistillation_new (fun _ _ _ _ _ => 1%R) "decoder_semseg2" 256 19 = Ok m /\
    shape (ones 1 256 1 1) = shape (zeros 1 256 1 1) /\
    DecoderDistillation_forward m (ones 1 256 1 1) (zeros 1 256 1 1) = Raise ValueError.
Proof.
  destruct (DecoderDistillation_new (fun _ _ _ _ _ => 1%R) "decoder_semseg2" 256 19)
    as [m|e] eqn:E; [|vm_compute in E; discriminate].
  exists m. split; [reflexivity|]. split; [reflexivity|].
  apply (DecoderDistillation_forward_ValueError _ _ _ _ _ _ _ E);
    first [reflexivity | simpl; lia].
Qed.

(** C7, amended.  On two inputs of one shape (N, in_channels, h, w) with a
    non-empty plane, [DecoderDistillation.forward] returns a tensor of
    shape (N, num_out_ch, 4h, 4w), the tensor entering the final projection
    having in_channels // 4 channels: in evaluation mode always, and in
    training mode, the mode of a constructed module, when the inputs have
    more than one value per channel (N * h * w is not 1); in training mode
    on inputs with one value per channel it raises ValueError. *)
Theorem DecoderDistillation_forward_shape (draw : Init) (name : string)
    (cin num_out_ch : Z) (m : DecoderDistillation) (features_low features_sa : Tensor) :
  DecoderDistillation_new draw name cin num_out_ch = Ok m ->
  shape features_low = shape features_sa ->
  tC features_low = cin -> 0 < tH features_low -> 0 < tW features_low ->
  DecoderDistillation_train true m = m /\
  (forall mode,
     (mode = true -> tN features_low * tH features_low * tW features_low <> 1) ->
     exists feats y,
       DecoderDistillation_features (DecoderDistillation_train mode m)
         features_low features_sa = Ok feats /\
       tC feats = cin / 4 /\
       Conv2d_forward (conv3x3_final3 (DecoderDistillation_train mode m)) feats = Ok y /\
       DecoderDistillation_forward (DecoderDistillation_train mode m)
         features_low features_sa = Ok y /\
       shape y = (tN features_low, num_out_ch,
                  4 * tH features_low, 4 * tW features_low)) /\
  (tN features_low * tH features_low * tW features_low = 1 ->
   DecoderDistillation_forward m features_low features_sa = Raise ValueError).
Proof.
  intros Hnew Hs Hc Hh Hw.
  split; [exact (DecoderDistillation_train_new _ _ _ _ _ Hnew)|]. split.
  - intros mode Hv.
    pose proof (broadcast_shape_same _ _ Hs) as Hb. unfold shape in Hb. rewrite Hc in Hb.
    destruct (DecoderDistillation_forward_broadcast _ _ _ _ _ mode _ _ _ _ _
                Hnew Hb Hh Hw Hv) as (feats & y & Hf & Hfs & Hy & Hys).
    exists feats, y. split; [exact Hf|].
    split; [injection Hfs; intros; assumption|].
    split; [|split; assumption].
    unfold DecoderDistillation_forward in Hy. rewrite Hf in Hy. exact Hy.
  - intros Hv.
    exact (DecoderDistillation_forward_ValueError _ _ _ _ _ _ _ Hnew Hs Hc Hh Hw Hv).
Qed.

Lemma DecoderDistillation_forward_shape_witness :
  exists m y y',
    DecoderDistillation_new (fun _ _ _ _ _ => 1%R) "decoder_semseg2" 256 19 = Ok m /\
    DecoderDistillation_forward m (ones 2 256 32 64) (zeros 2 256 32 64) = Ok y /\
    shape y = (2, 19, 128, 256) /\
    DecoderDistillation_forward (DecoderDistillation_train false m)
      (ones 1 256 1 1) (zeros 1 256 1 1) = Ok y' /\
    shape y' = (1, 19, 4, 4).
Proof.
  destruct (DecoderDistillation_new (fun _ _ _ _ _ => 1%R) "decoder_semseg2" 256 19)
    as [m|e] eqn:E; [|vm_compute in E; discriminate].
  destruct (DecoderDistillation_forward_shape _ _ _ _ m
              (ones 2 256 32 64) (zeros 2 256 32 64) E)
    as (Ht & Hy & _); [reflexivity|reflexivity|simpl; lia|simpl; lia|].
  destruct (Hy true) as (feats & y & _ & _ & _ & Hy1 & Hs1); [intros _; simpl; lia|].
  destruct (DecoderDistillation_forward_shape _ _ _ _ m
              (ones 1 256 1 1) (zeros 1 256 1 1) E)
    as (_ & Hy' & _); [reflexivity|reflexivity|simpl; lia|simpl; lia|].
  destruct (Hy' false) as (feats' & y' & _ & _ & _ & Hy2 & Hs2); [discriminate|].
  rewrite Ht in Hy1.
  exists m, y, y'. split; [reflexivity|]. repeat split; assumption.
Defined.

(** C3, as stated, fails: operands of different shapes that broadcast
    together are added without any check.  With [features_sa] of batch size
    1 against [features_low] of batch size 2 the forward pass returns. *)
Lemma DecoderDistillation_accepts_mismatch :
  exists m y,
    DecoderDistillation_new (fun _ _ _ _ _ => 1%R) "decoder_depth2" 256 1 = Ok m /\
    shape (ones 2 256 8 8) <> shape (ones 1 256 8 8) /\
    DecoderDistillation_forward m (ones 2 256 8 8) (ones 1 256 8 8) = Ok y /\
    shape y = (2, 1, 32, 32).
Proof.
  destruct (DecoderDistillation_new (fun _ _ _ _ _ => 1%R) "decoder_depth2" 256 1)
    as [m|e] eqn:E; [|vm_compute in E; discriminate].
  destruct (DecoderDistillation_forward_broadcast _ _ _ _ m true
              (ones 2 256 8 8) (ones 1 256 8 8) 2 8 8 E)
    as (feats & y & _ & _ & Hy & Hs); [reflexivity|lia|lia|lia|].
  rewrite (DecoderDistillation_train_new _ _ _ _ _ E) in Hy.
  exists m, y. split; [reflexivity|]. split; [discriminate|].
  split; [exact Hy|exact Hs].
Qed.

(** C3, amended.  When the shapes of [features_low] and [features_sa]
    cannot be broadcast together (in some dimension the sizes differ and
    neither is 1), [DecoderDistillation.forward] raises at the elementwise
    addition, its first operation, with the framework's size-mismatch
    error, and returns nothing. *)
Theorem DecoderDistillation_rejects_incompatible (m : DecoderDistillation)
    (features_low features_sa : Tensor) :
  ~ compatible features_low features_sa ->
  tensor_add features_low features_sa
    = Raise (RuntimeError "add: tensor sizes must match") /\
  DecoderDistillation_forward m features_low features_sa
    = Raise (RuntimeError "add: tensor sizes must match").
Proof.
  intros Hn. apply broadcast_shape_None in Hn.
  assert (Ha : tensor_add features_low features_sa
               = Raise (RuntimeError "add: tensor sizes must match")).
  { unfold tensor_add, elementwise. rewrite Hn. reflexivity. }
  split; [exact Ha|].
  unfold DecoderDistillation_forward, DecoderDistillation_features.
  rewrite Ha. reflexivity.
Qed.

Lemma DecoderDistillation_rejects_incompatible_witness :
  DecoderDistillation_forward
    (mkDecoderDistillation
       (mkConvBNReLU (mkConv2d 256 128 3 1 1 1 (fun _ _ _ _ => 1%R) None)
          (BatchNorm2d_new 128))
       (mkConvBNReLU (mkConv2d 128 64 3 1 1 1 (fun _ _ _ _ => 1%R) None)
          (BatchNorm2d_new 64))
       (mkConv2d 64 1 3 1 1 1 (fun _ _ _ _ => 1%R) None))
    (ones 2 256 8 8) (ones 2 256 4 8)
  = Raise (RuntimeError "add: tensor sizes must match").
Proof.
  apply DecoderDistillation_rejects_incompatible.
  unfold compatible, compatible_dim. simpl. lia.
Defined.

(** ** Construction of the top-level model *)

Lemma Conv2d_new_negative cin cout k s p d b w0 b0 :
  cin < 0 \/ cout < 0 \/ k < 0 ->
  Conv2d_new cin cout k s p d b w0 b0
  = Raise (RuntimeError "Conv2d: negative dimension").
Proof.
  intros H. unfold Conv2d_new.
  destruct (cin <? 0) eqn:E1; [reflexivity|].
  destruct (cout <? 0) eqn:E2; [reflexivity|].
  destruct (k <? 0) eqn:E3; [reflexivity|]. lia.
Qed.

Lemma ASPP_new_returns draw name cin cout rates :
  0 <= cin -> 0 <= cout -> exists m, ASPP_new draw name cin cout rates = Ok m.
Proof.
  intros Hi Ho. destruct rates as [[r0 r1] r2].
  unfold ASPP_new, ASPPpart_new.
  rewrite !ConvBNReLU_new_returns by lia. simpl. eexists. reflexivity.
Qed.

Lemma DecoderDeeplabV3p_new_returns draw name bottleneck_ch skip_4x_ch num_out_ch :
  0 <= bottleneck_ch -> 0 <= skip_4x_ch -> 0 <= num_out_ch ->
  exists m, DecoderDeeplabV3p_new draw name bottleneck_ch skip_4x_ch num_out_ch = Ok m /\
            in_channels (features_to_predictions m) = bottleneck_ch /\
            out_channels (features_to_predictions m) = num_out_ch.
Proof.
  intros Hb Hs Ho. unfold DecoderDeeplabV3p_new, n_skip.
  rewrite !ConvBNReLU_new_returns by lia. simpl.
  rewrite Conv2d_new_returns by lia. simpl. eexists. split; [reflexivity|]. simpl. tauto.
Qed.

Lemma DecoderDeeplabV3p_new_negative draw name bottleneck_ch skip_4x_ch num_out_ch :
  0 <= bottleneck_ch -> 0 <= skip_4x_ch -> num_out_ch < 0 ->
  DecoderDeeplabV3p_new draw name bottleneck_ch skip_4x_ch num_out_ch
  = Raise (RuntimeError "Conv2d: negative dimension").
Proof.
  intros Hb Hs Ho. unfold DecoderDeeplabV3p_new, n_skip.
  rewrite !ConvBNReLU_new_returns by lia. simpl.
  rewrite Conv2d_new_negative by lia. reflexivity.
Qed.

Lemma SelfAttention_new_returns draw name cin cout :
  0 <= cin -> 0 <= cout -> exists m, SelfAttention_new draw name cin cout = Ok m.
Proof.
  intros Hi Ho. unfold SelfAttention_new.
  rewrite !Conv2d_new_returns by lia. simpl. eexists. reflexivity.
Qed.

Lemma DecoderDistillation_new_returns draw name cin num_out_ch :
  0 <= cin -> 0 <= num_out_ch ->
  exists m, DecoderDistillation_new draw name cin num_out_ch = Ok m /\
            out_channels (conv3x3_final3 m) = num_out_ch.
Proof.
  intros Hi Ho. unfold DecoderDistillation_new.
  assert (0 <= cin / 2) by (apply Z.div_pos; lia).
  assert (0 <= cin / 4) by (apply Z.div_pos; lia).
  rewrite !ConvBNReLU_new_returns by lia. simpl.
  rewrite Conv2d_new_returns by lia. simpl. eexists. split; reflexivity.
Qed.

Lemma get_encoder_channel_counts_nonneg name :
  0 <= (get_encoder_channel_counts name).1 /\ 0 <= (get_encoder_channel_counts name).2.
Proof. unfold get_encoder_channel_counts. destruct (is_basic_block name); simpl; lia. Qed.

Arguments ASPP_new : simpl never.
Arguments DecoderDeeplabV3p_new : simpl never.
Arguments SelfAttention_new : simpl never.
Arguments DecoderDistillation_new : simpl never.
Arguments get_encoder_channel_counts : simpl never.

(** C1, amended.  [__init__] never looks at the number of entries of
    [outputs_desc] nor at the individual counts, only at their sum: with an
    encoder that can be built, it returns for every [outputs_desc] whose
    counts sum to at least 1, giving the semseg heads sum - 1 channels
    (none when the sum is 1) and the depth heads 1 channel, and it raises
    exactly when the sum is below 1. *)
Theorem Model_new_sum_only (tv : Torchvision) (draw : Init) (cfg : Config)
    (od : OutputsDesc) (enc : Encoder) :
  Encoder_new tv (model_encoder_name cfg) (false, false, true) = Ok enc ->
  (1 <= sum_values od ->
     exists m, Model_new tv draw cfg od = Ok m /\
       outputs_desc m = od /\
       out_channels (features_to_predictions (decoder_semseg m)) = sum_values od - 1 /\
       out_channels (features_to_predictions (decoder_depth m)) = 1 /\
       out_channels (conv3x3_final3 (decoder_semseg2 m)) = sum_values od - 1 /\
       out_channels (conv3x3_final3 (decoder_depth2 m)) = 1) /\
  (sum_values od < 1 ->
     Model_new tv draw cfg od = Raise (RuntimeError "Conv2d: negative dimension")) /\
  (returns (Model_new tv draw cfg od) <-> 1 <= sum_values od).
Proof.
  intros Henc.
  pose proof (get_encoder_channel_counts_nonneg (model_encoder_name cfg)) as [Hb H4].
  assert (Hboth :
    (1 <= sum_values od ->
     exists m, Model_new tv draw cfg od = Ok m /\
       outputs_desc m = od /\
       out_channels (features_to_predictions (decoder_semseg m)) = sum_values od - 1 /\
       out_channels (features_to_predictions (decoder_depth m)) = 1 /\
       out_channels (conv3x3_final3 (decoder_semseg2 m)) = sum_values od - 1 /\
       out_channels (conv3x3_final3 (decoder_depth2 m)) = 1) /\
    (sum_values od < 1 ->
     Model_new tv draw cfg od = Raise (RuntimeError "Conv2d: negative dimension"))).
  { unfold Model_new. rewrite Henc, bind_Ok_l.
    destruct (get_encoder_channel_counts (model_encoder_name cfg)) as [cb c4].
    cbv beta iota. simpl in Hb, H4.
    destruct (ASPP_new_returns draw "aspp_semseg" cb 256 default_rates) as [a1 Ha1];
      [lia|lia|].
    destruct (ASPP_new_returns draw "assp_depth" cb 256 default_rates) as [a2 Ha2];
      [lia|lia|].
    rewrite Ha1, bind_Ok_l. split.
    - intros Hsum.
      destruct (DecoderDeeplabV3p_new_returns draw "decoder_semseg" 256 c4
                  (sum_values od - 1)) as (d1 & Hd1 & _ & Ho1); [lia|lia|lia|].
      destruct (DecoderDeeplabV3p_new_returns draw "decoder_depth" 256 c4 1)
        as (d2 & Hd2 & _ & Ho2); [lia|lia|lia|].
      destruct (SelfAttention_new_returns draw "sa_from_depth2semseg" 256 256)
        as [s1 Hs1]; [lia|lia|].
      destruct (SelfAttention_new_returns draw "sa_from_semseg2depth" 256 256)
        as [s2 Hs2]; [lia|lia|].
      destruct (DecoderDistillation_new_returns draw "decoder_semseg2" 256
                  (sum_values od - 1)) as (e1 & He1 & Hoe1); [lia|lia|].
      destruct (DecoderDistillation_new_returns draw "decoder_depth2" 256 1)
        as (e2 & He2 & Hoe2); [lia|lia|].
      rewrite Hd1, bind_Ok_l, Ha2, bind_Ok_l, Hd2, bind_Ok_l, Hs1, bind_Ok_l,
        Hs2, bind_Ok_l, He1, bind_Ok_l, He2, bind_Ok_l.
      eexists. split; [reflexivity|]. cbn [outputs_desc decoder_semseg decoder_depth
        decoder_semseg2 decoder_depth2]. tauto.
    - intros Hsum.
      rewrite (DecoderDeeplabV3p_new_negative draw "decoder_semseg" 256 c4
                 (sum_values od - 1)) by lia.
      reflexivity. }
  destruct Hboth as [Hret Hraise].
  split; [exact Hret|]. split; [exact Hraise|]. split.
  - intros [m Hm]. destruct (Z.lt_ge_cases (sum_values od) 1) as [Hlt|Hge]; [|lia].
    rewrite (Hraise Hlt) in Hm. discriminate.
  - intros H. destruct (Hret H) as (m & Hm & _). exists m. exact Hm.
Qed.

(** C1, as stated, fails: an [outputs_desc] with three tasks, with one
    task, or with two tasks whose second count is not 1 is accepted. *)
Lemma Model_new_accepts_malformed :
  let new := Model_new torchvision_shapes (fun _ _ _ _ _ => 1%R) (mkConfig "resnet18") in
  (~ two_task_split [("semseg", 5); ("depth", 5); ("normals", 10)] /\
   returns (new [("semseg", 5); ("depth", 5); ("normals", 10)])) /\
  (~ two_task_split [("semseg", 20)] /\ returns (new [("semseg", 20)])) /\
  (~ two_task_split [("semseg", 18); ("depth", 2)] /\
   returns (new [("semseg", 18); ("depth", 2)])).
Proof.
  intros new. unfold returns, two_task_split.
  repeat split.
  - intros (a & b & n & H). discriminate.
  - destruct (new _) as [m|e] eqn:E; [eauto|vm_compute in E; discriminate].
  - intros (a & b & n & H). discriminate.
  - destruct (new _) as [m|e] eqn:E; [eauto|vm_compute in E; discriminate].
  - intros (a & b & n & H). discriminate.
  - destruct (new _) as [m|e] eqn:E; [eauto|vm_compute in E; discriminate].
Qed.

Lemma Model_new_sum_only_witness :
  (exists m,
     Model_new torchvision_shapes (fun _ _ _ _ _ => 1%R) (mkConfig "resnet18")
       [("semseg", 19); ("depth", 1)] = Ok m /\
     out_channels (features_to_predictions (decoder_semseg m)) = 19 /\
     out_channels (conv3x3_final3 (decoder_depth2 m)) = 1) /\
  (exists m,
     Model_new torchvision_shapes (fun _ _ _ _ _ => 1%R) (mkConfig "resnet18")
       [("depth", 1)] = Ok m /\
     out_channels (features_to_predictions (decoder_semseg m)) = 0) /\
  ~ returns (Model_new torchvision_shapes (fun _ _ _ _ _ => 1%R) (mkConfig "resnet18")
               [("semseg", 0); ("depth", 0)]).
Proof.
  split; [|split].
  - destruct (Model_new_sum_only torchvision_shapes (fun _ _ _ _ _ => 1%R)
                (mkConfig "resnet18") [("semseg", 19); ("depth", 1)]
                (mkEncoder (resnet_shapes 64 (false, false, true))) eq_refl)
      as [Hret _].
    destruct Hret as (m & Hm & _ & H1 & _ & _ & H2); [vm_compute; discriminate|].
    exists m. split; [exact Hm|]. split; [exact H1|exact H2].
  - destruct (Model_new_sum_only torchvision_shapes (fun _ _ _ _ _ => 1%R)
                (mkConfig "resnet18") [("depth", 1)]
                (mkEncoder (resnet_shapes 64 (false, false, true))) eq_refl)
      as [Hret _].
    destruct Hret as (m & Hm & _ & H1 & _); [vm_compute; discriminate|].
    exists m. split; [exact Hm|exact H1].
  - destruct (Model_new_sum_only torchvision_shapes (fun _ _ _ _ _ => 1%R)
                (mkConfig "resnet18") [("semseg", 0); ("depth", 0)]
                (mkEncoder (resnet_shapes 64 (false, false, true))) eq_refl)
      as (_ & _ & Hiff).
    intros Hr. apply Hiff in Hr. vm_compute in Hr. apply Hr. reflexivity.
Defined.

(** ** The channel split *)

Lemma split_outputs_lookup_other (items : OutputsDesc) (offset : Z)
    (i f : Tensor) (out : gmap string (Tensor * Tensor)) (task : string) :
  task ∉ items.*1 ->
  split_outputs items offset i f out !! task = out !! task.
Proof.
  revert offset out. induction items as [|[t n] rest IH]; intros offset out Hnot.
  - reflexivity.
  - simpl in *. apply not_elem_of_cons in Hnot as [Hne Hrest].
    rewrite IH by assumption. apply lookup_insert_ne. congruence.
Qed.

(** Under distinct task names, reading [out] back in the order of
    [outputs_desc] gives the slices in the order they were cut. *)
Lemma collect_split_outputs (sel : Tensor * Tensor -> Tensor) (items : OutputsDesc)
    (offset : Z) (i f : Tensor) (out : gmap string (Tensor * Tensor)) :
  NoDup items.*1 ->
  collect sel items (split_outputs items offset i f out)
  = Ok (zip_with (fun a b => sel (a, b))
          (slices i offset items.*2) (slices f offset items.*2)).
Proof.
  revert offset out. induction items as [|[t n] rest IH]; intros offset out Hnd.
  - reflexivity.
  - simpl in Hnd. apply NoDup_cons in Hnd as [Hnot Hnd].
    cbn [collect split_outputs].
    rewrite split_outputs_lookup_other by assumption.
    rewrite lookup_insert_eq.
    assert (Hrest : forall o,
      collect sel rest (split_outputs rest (offset + n) i f o)
      = Ok (zip_with (fun a b => sel (a, b))
              (slices i (offset + n) rest.*2) (slices f (offset + n) rest.*2))).
    { intros o. apply IH. assumption. }
    rewrite Hrest. reflexivity.
Qed.

Lemma slices_length (t : Tensor) (offset : Z) (counts : list Z) :
  length (slices t offset counts) = length counts.
Proof.
  revert offset. induction counts as [|n r IH]; intros offset; simpl; [|rewrite IH];
    reflexivity.
Qed.

Lemma zip_with_first {A B} (l1 : list A) (l2 : list B) :
  length l1 = length l2 -> zip_with (fun a _ => a) l1 l2 = l1.
Proof.
  revert l2. induction l1 as [|a l1 IH]; intros [|b l2] H; simpl in *;
    try discriminate; [reflexivity|]. f_equal. apply IH. lia.
Qed.

Lemma zip_with_second {A B} (l1 : list A) (l2 : list B) :
  length l1 = length l2 -> zip_with (fun _ b => b) l1 l2 = l2.
Proof.
  revert l2. induction l1 as [|a l1 IH]; intros [|b l2] H; simpl in *;
    try discriminate; [reflexivity|]. f_equal. apply IH. lia.
Qed.

(** A slice whose bounds lie inside the channel axis. *)
Lemma slice_channels_inside (t : Tensor) (a b : Z) :
  0 <= a -> a <= b -> b <= tC t ->
  slice_channels t a b
  = mkTensor (tN t) (b - a) (tH t) (tW t) (fun n c i j => tdata t n (a + c) i j).
Proof.
  intros Ha Hab Hb. unfold slice_channels, slice_bound.
  destruct (a <? 0) eqn:E1; [lia|]. destruct (b <? 0) eqn:E2; [lia|].
  rewrite (Z.min_l a) by lia. rewrite (Z.min_l b) by lia.
  rewrite Z.max_r by lia. reflexivity.
Qed.

(** Appending the consecutive slices of [t] from [offset] on to a tensor
    that holds the channels of [t] below [offset] gives the channels of
    [t] below the end of the last slice. *)
Lemma cat_from_slices (t : Tensor) (counts : list Z) :
  forall (offset : Z) (acc : Tensor),
    0 <= offset -> Forall (fun n => 0 <= n) counts ->
    offset + foldr Z.add 0 counts <= tC t ->
    tN acc = tN t -> tC acc = offset -> tH acc = tH t -> tW acc = tW t ->
    (forall n c i j, 0 <= c < offset -> tdata acc n c i j = tdata t n c i j) ->
    exists r, cat_from acc (slices t offset counts) = Ok r /\
      tN r = tN t /\ tC r = offset + foldr Z.add 0 counts /\
      tH r = tH t /\ tW r = tW t /\
      (forall n c i j, 0 <= c < tC r -> tdata r n c i j = tdata t n c i j).
Proof.
  induction counts as [|k rest IH]; intros offset acc Hoff Hpos Hsum HN HC HH HW Hdata.
  - simpl. exists acc. rewrite Z.add_0_r, HC. tauto.
  - apply Forall_cons in Hpos as [Hk Hrest]. simpl in Hsum.
    assert (Hrest_sum : 0 <= foldr Z.add 0 rest).
    { clear -Hrest. induction Hrest; simpl; lia. }
    cbn [slices cat_from].
    rewrite slice_channels_inside by lia.
    rewrite cat2_returns by (simpl; lia).
    rewrite bind_Ok_l.
    match goal with |- context [cat_from ?a _] => set (acc' := a) end.
    destruct (IH (offset + k) acc') as (r & Hr & HrN & HrC & HrH & HrW & Hrd);
      try (subst acc'; simpl; lia); try assumption.
    { subst acc'. simpl. intros n c i j Hc.
      destruct (Z.ltb_spec c (tC acc)).
      - apply Hdata. lia.
      - f_equal. lia. }
    exists r. split; [exact Hr|]. simpl. repeat split; try assumption. lia.
Qed.

Lemma cat_slices_all (t : Tensor) (counts : list Z) :
  counts <> [] -> Forall (fun n => 0 <= n) counts ->
  foldr Z.add 0 counts = tC t ->
  exists r, cat (slices t 0 counts) = Ok r /\ tensor_eq r t.
Proof.
  intros Hne Hpos Hsum. destruct counts as [|k rest]; [contradiction|].
  pose proof Hpos as Hpos'. apply Forall_cons in Hpos' as [Hk Hrest].
  assert (Hrest_sum : 0 <= foldr Z.add 0 rest).
  { clear -Hrest. induction Hrest; simpl; lia. }
  simpl in Hsum. cbn [slices cat].
  rewrite slice_channels_inside by lia.
  match goal with |- context [cat_from ?a _] => set (acc := a) end.
  destruct (cat_from_slices t rest (0 + k) acc)
    as (r & Hr & HrN & HrC & HrH & HrW & Hrd);
    try (subst acc; simpl; lia); try assumption.
  { subst acc. simpl. intros n c i j Hc. reflexivity. }
  exists r. split; [exact Hr|]. split.
  - unfold shape. rewrite HrN, HrC, HrH, HrW. repeat f_equal. lia.
  - intros n c i j _ Hc _ _. apply Hrd. exact Hc.
Qed.

(** Splitting a tensor whose channels are those of [outputs_desc] and
    concatenating what was stored gives the tensor back, for the first and
    for the second component of the stored pairs. *)
Lemma reassemble_split_outputs (od : OutputsDesc) (i f : Tensor) :
  od <> [] -> NoDup od.*1 -> Forall (fun n => 0 <= n) od.*2 ->
  tC i = sum_values od -> tC f = sum_values od ->
  (exists ri, reassemble fst od (split_outputs od 0 i f ∅) = Ok ri /\ tensor_eq ri i) /\
  (exists rf, reassemble snd od (split_outputs od 0 i f ∅) = Ok rf /\ tensor_eq rf f).
Proof.
  intros Hne Hnd Hpos Hi Hf. unfold reassemble.
  rewrite !collect_split_outputs by assumption. rewrite !bind_Ok_l.
  assert (Hne' : od.*2 <> []) by (destruct od; [contradiction|discriminate]).
  split.
  - rewrite (zip_with_first (slices i 0 od.*2) (slices f 0 od.*2))
      by (rewrite !slices_length; reflexivity).
    apply cat_slices_all; [assumption|assumption|symmetry; exact Hi].
  - rewrite (zip_with_second (slices i 0 od.*2) (slices f 0 od.*2))
      by (rewrite !slices_length; reflexivity).
    apply cat_slices_all; [assumption|assumption|symmetry; exact Hf].
Qed.

Lemma DecoderDeeplabV3p_forward_Ok (m : DecoderDeeplabV3p)
    (features_bottleneck features_skip_4x predictions features : Tensor) :
  DecoderDeeplabV3p_forward m features_bottleneck features_skip_4x
    = Ok (predictions, features) ->
  tC predictions = out_channels (features_to_predictions m) /\
  interpolate features_bottleneck (tH features_skip_4x, tW features_skip_4x)
    = Ok features.
Proof.
  unfold DecoderDeeplabV3p_forward. intros H.
  bind_step H b4 Hb. bind_step H sk Hs. bind_step H fc Hc. bind_step H fu Hf.
  bind_step H pr Hp. injection H as <- <-.
  apply Conv2d_forward_Ok in Hp as (_ & -> & _). simpl. split; [reflexivity|exact Hb].
Qed.

Lemma DecoderDistillation_forward_Ok (m : DecoderDistillation)
    (features_low features_sa y : Tensor) :
  DecoderDistillation_forward m features_low features_sa = Ok y ->
  tC y = out_channels (conv3x3_final3 m).
Proof.
  unfold DecoderDistillation_forward. intros H. bind_step H a Ha.
  apply Conv2d_forward_Ok in H as (_ & -> & _). reflexivity.
Qed.

(** Channel counts of the two concatenated prediction tensors. *)
Lemma Model_predictions_channels (m : ModelDeepLabV3PlusBranchedSA)
    (x i f : Tensor) :
  Model_predictions m x = Ok (i, f) ->
  tC i = out_channels (features_to_predictions (decoder_semseg m))
         + out_channels (features_to_predictions (decoder_depth m)) /\
  tC f = out_channels (conv3x3_final3 (decoder_semseg2 m))
         + out_channels (conv3x3_final3 (decoder_depth2 m)).
Proof.
  unfold Model_predictions. intros H.
  bind_step H feats Hfe. bind_step H low Hlow. bind_step H fl Hfl.
  bind_step H as1 Has1. bind_step H f4 Hf4.
  bind_step H ds Hds. destruct ds as [ips fbs].
  bind_step H ips' Hips. bind_step H as2 Has2. bind_step H f4' Hf4'.
  bind_step H dd Hdd. destruct dd as [ipd fbd].
  bind_step H ipd' Hipd. bind_step H ip Hip.
  bind_step H att1 Hat1. bind_step H att2 Hat2.
  bind_step H fps Hfps. bind_step H fpd Hfpd.
  bind_step H fps' Hfps'. bind_step H fpd' Hfpd'.
  bind_step H fp Hfp. injection H as <- <-.
  apply DecoderDeeplabV3p_forward_Ok in Hds as [Hcs _].
  apply DecoderDeeplabV3p_forward_Ok in Hdd as [Hcd _].
  apply DecoderDistillation_forward_Ok in Hfps, Hfpd.
  apply interpolate_Ok in Hips as [-> _]. apply interpolate_Ok in Hipd as [-> _].
  apply interpolate_Ok in Hfps' as [-> _]. apply interpolate_Ok in Hfpd' as [-> _].
  cbn [cat cat_from] in Hip, Hfp.
  bind_step Hip ci Hci. bind_step Hfp cf Hcf.
  injection Hip as <-. injection Hfp as <-.
  apply cat2_Ok in Hci as (_ & _ & _ & ->). apply cat2_Ok in Hcf as (_ & _ & _ & ->).
  simpl. rewrite Hcs, Hcd, Hfps, Hfpd. split; reflexivity.
Qed.

Lemma DecoderDeeplabV3p_new_Ok draw name bottleneck_ch skip_4x_ch num_out_ch m :
  DecoderDeeplabV3p_new draw name bottleneck_ch skip_4x_ch num_out_ch = Ok m ->
  out_channels (features_to_predictions m) = num_out_ch /\ 0 <= num_out_ch.
Proof.
  unfold DecoderDeeplabV3p_new. intros H.
  bind_step H sk Hs. bind_step H fi Hf. bind_step H pr Hp. injection H as <-.
  apply Conv2d_new_Ok in Hp as (-> & _ & Ho & _). simpl. split; [reflexivity|exact Ho].
Qed.

(** [__init__] establishes the channel counts of the heads. *)
Lemma Model_new_heads_match tv draw cfg od m :
  Model_new tv draw cfg od = Ok m -> outputs_desc m = od /\ heads_match m.
Proof.
  unfold Model_new. intros H. bind_step H enc Henc.
  destruct (get_encoder_channel_counts (model_encoder_name cfg)) as [cb c4].
  bind_step H qa1 Ha1. bind_step H qd1 Hd1. bind_step H qa2 Ha2. bind_step H qd2 Hd2.
  bind_step H qs1 Hs1. bind_step H qs2 Hs2. bind_step H qe1 He1. bind_step H qe2 He2.
  injection H as <-.
  apply DecoderDeeplabV3p_new_Ok in Hd1 as [Hd1 Hpos], Hd2 as [Hd2 _].
  apply DecoderDistillation_new_Ok in He1 as (? & ? & ? & ->).
  apply DecoderDistillation_new_Ok in He2 as (? & ? & ? & ->).
  unfold heads_match. simpl. rewrite Hd1, Hd2. repeat split; lia.
Qed.

(** C5.  For a model whose heads have the channel counts [__init__] gives
    them and an [outputs_desc] with distinct task names and non-negative
    counts, whenever the forward pass has computed the two concatenated
    prediction tensors, the returned mapping is their split, and
    concatenating along the channel axis, in the order of [outputs_desc],
    the final slices gives back the concatenated final predictions, and the
    intermediate slices give back the concatenated intermediate ones. *)
Theorem Model_forward_split_roundtrip (m : ModelDeepLabV3PlusBranchedSA)
    (x intermediate_predictions final_predictions : Tensor) :
  heads_match m ->
  NoDup (outputs_desc m).*1 ->
  Forall (fun n => 0 <= n) (outputs_desc m).*2 ->
  Model_predictions m x = Ok (intermediate_predictions, final_predictions) ->
  exists out,
    Model_forward m x = Ok out /\
    (exists rf, reassemble snd (outputs_desc m) out = Ok rf /\
                tensor_eq rf final_predictions) /\
    (exists ri, reassemble fst (outputs_desc m) out = Ok ri /\
                tensor_eq ri intermediate_predictions).
Proof.
  intros (Hpos & Hs1 & Hd1 & Hs2 & Hd2) Hnd Hcounts Hp.
  pose proof (Model_predictions_channels _ _ _ _ Hp) as [Hi Hf].
  rewrite Hs1, Hd1 in Hi. rewrite Hs2, Hd2 in Hf.
  unfold Model_forward. rewrite Hp, bind_Ok_l. cbv beta iota.
  eexists. split; [reflexivity|].
  assert (Hne : outputs_desc m <> []).
  { intros E. rewrite E in Hs1. unfold sum_values in Hs1. simpl in Hs1. lia. }
  destruct (reassemble_split_outputs (outputs_desc m)
              intermediate_predictions final_predictions)
    as [Hri Hrf]; try assumption; try lia.
  split; assumption.
Qed.

Lemma Model_forward_split_roundtrip_witness :
  match example_model with
  | Ok m =>
      match Model_predictions m (zeros 1 3 64 64) with
      | Ok (intermediate_predictions, final_predictions) =>
          exists out rf,
            Model_forward m (zeros 1 3 64 64) = Ok out /\
            reassemble snd [("semseg", 19); ("depth", 1)] out = Ok rf /\
            tensor_eq rf final_predictions
      | Raise _ => False
      end
  | Raise _ => False
  end.
Proof.
  destruct example_model as [m|e] eqn:Em; [|vm_compute in Em; discriminate].
  assert (Hok : is_Ok (Model_predictions m (zeros 1 3 64 64)) = true).
  { assert (H : is_Ok (r ← example_model; Model_predictions r (zeros 1 3 64 64)) = true)
      by (vm_compute; reflexivity).
    rewrite Em in H. exact H. }
  unfold example_model in Em.
  destruct (Model_new_heads_match _ _ _ _ _ Em) as [Hod Hheads].
  destruct (Model_predictions m (zeros 1 3 64 64)) as [[ip fp]|e] eqn:Ep;
    [|discriminate Hok].
  destruct (Model_forward_split_roundtrip m (zeros 1 3 64 64) ip fp Hheads)
    as (out & Hout & (rf & Hrf & Heq) & _).
  - rewrite Hod. apply (bool_decide_unpack _). vm_compute. exact I.
  - rewrite Hod. repeat constructor; simpl; lia.
  - exact Ep.
  - exists out, rf. rewrite Hod in Hrf. tauto.
Defined.

(** ** DecoderDeeplabV3p: what is returned *)

(** The batch mean of a channel of zeros is zero. *)
Lemma batch_mean_zero (x : Tensor) (c : Z) :
  (forall n i j, tdata x n c i j = 0%R) -> batch_mean x c = 0%R.
Proof.
  intros Hz. unfold batch_mean, channel_sum.
  rewrite sum_upto_zero; [unfold Rdiv; ring|].
  intros n' _. apply sum_upto_zero. intros i' _. apply sum_upto_zero.
  intros j' _. apply Hz.
Qed.

(** A block whose convolution has zero weights and no bias, with the
    normalisation as constructed, outputs zero. *)
Lemma ConvBNReLU_zero_weight (cin cout k s p d : Z) (x y : Tensor) n c i j :
  ConvBNReLU_forward
    (mkConvBNReLU (mkConv2d cin cout k s p d (fun _ _ _ _ => 0%R) None)
       (BatchNorm2d_new cout)) x = Ok y ->
  tdata y n c i j = 0%R.
Proof.
  unfold ConvBNReLU_forward. intros H. bind_step H a Ha. bind_step H b Hb.
  injection H as <-.
  apply Conv2d_forward_Ok in Ha as (_ & -> & _).
  apply BatchNorm2d_forward_Ok in Hb as (-> & _).
  cbn [ReLU tdata]. unfold BatchNorm2d_data.
  cbn [cbr_bn cbr_conv BatchNorm2d_new training bn_weight bn_bias eps tdata].
  rewrite batch_mean_zero
    by (intros; cbn [tdata]; apply Conv2d_data_zero_weight; reflexivity).
  rewrite Conv2d_data_zero_weight by reflexivity.
  match goal with
  | |- Rmax 0 ?v = 0%R => replace v with 0%R; [apply Rmax_left; lra|]
  end.
  unfold Rdiv. ring.
Qed.

(** Resizing a tensor of ones gives ones. *)
Lemma interpolate_data_ones (n0 c0 h0 w0 oh ow : Z) n c i j :
  interpolate_data (ones n0 c0 h0 w0) oh ow n c i j = 1%R.
Proof. unfold interpolate_data. cbn [ones tdata]. ring. Qed.

(** The second result of [DecoderDeeplabV3p.forward] is the resized
    bottleneck; the prediction is computed from the output of
    [conv3x3_final], which is not returned. *)
Lemma DecoderDeeplabV3p_forward_results (m : DecoderDeeplabV3p)
    (features_bottleneck features_skip_4x predictions features : Tensor) :
  DecoderDeeplabV3p_forward m features_bottleneck features_skip_4x
    = Ok (predictions, features) ->
  interpolate features_bottleneck (tH features_skip_4x, tW features_skip_4x)
    = Ok features /\
  exists fused,
    DecoderDeeplabV3p_fused m features_bottleneck features_skip_4x = Ok fused /\
    Conv2d_forward (features_to_predictions m) fused = Ok predictions.
Proof.
  unfold DecoderDeeplabV3p_forward, DecoderDeeplabV3p_fused. intros H.
  bind_step H b4 Hb. bind_step H sk Hs. bind_step H fc Hc. bind_step H fu Hf.
  bind_step H pr Hp. injection H as <- <-.
  split; [exact Hb|].
  rewrite Hb, bind_Ok_l, Hs, bind_Ok_l, Hc, bind_Ok_l, Hf.
  exists fu. split; [reflexivity|exact Hp].
Qed.

(** C2.  The code returns another tensor than the claim says.  On a
    bottleneck of ones of shape (1, 256, 4, 4) and a skip tensor of ones of
    shape (1, 64, 16, 16), with every drawn parameter zero, the forward
    pass returns as second result the resized bottleneck, all ones, while
    the output of the 3x3 conv + norm + activation stage, from which the
    prediction is computed, is all zeros. *)
Theorem DecoderDeeplabV3p_forward_returns_resized_bottleneck :
  let features_bottleneck := ones 1 256 4 4 in
  let features_skip_4x := ones 1 64 16 16 in
  exists m predictions features fused,
    DecoderDeeplabV3p_new (fun _ _ _ _ _ => 0%R) "decoder_semseg" 256 64 19 = Ok m /\
    DecoderDeeplabV3p_forward m features_bottleneck features_skip_4x
      = Ok (predictions, features) /\
    DecoderDeeplabV3p_fused m features_bottleneck features_skip_4x = Ok fused /\
    Conv2d_forward (features_to_predictions m) fused = Ok predictions /\
    interpolate features_bottleneck (16, 16) = Ok features /\
    shape features = shape fused /\
    tdata features 0 0 0 0 = 1%R /\
    tdata fused 0 0 0 0 = 0%R /\
    ~ tensor_eq features fused.
Proof.
  intros fb fs.
  destruct (DecoderDeeplabV3p_new (fun _ _ _ _ _ => 0%R) "decoder_semseg" 256 64 19)
    as [m|e] eqn:Em; [|vm_compute in Em; discriminate].
  assert (Hok : is_Ok (DecoderDeeplabV3p_forward m fb fs) = true).
  { assert (H : is_Ok (r ← DecoderDeeplabV3p_new (fun _ _ _ _ _ => 0%R)
                             "decoder_semseg" 256 64 19;
                       DecoderDeeplabV3p_forward r fb fs) = true)
      by (vm_compute; reflexivity).
    rewrite Em in H. exact H. }
  destruct (DecoderDeeplabV3p_forward m fb fs) as [[p ft]|e] eqn:Ef; [|discriminate Hok].
  destruct (DecoderDeeplabV3p_forward_results _ _ _ _ _ Ef) as (Hft & g & Hg & Hp).
  exists m, p, ft, g.
  assert (Hones : tdata ft 0 0 0 0 = 1%R).
  { apply interpolate_Ok in Hft as [-> _]. apply interpolate_data_ones. }
  assert (Hzero : tdata g 0 0 0 0 = 0%R).
  { revert Hg. unfold DecoderDeeplabV3p_fused. intros H.
    bind_step H b4 Hb. bind_step H sk Hs. bind_step H fc Hc.
    revert H. unfold DecoderDeeplabV3p_new in Em.
    bind_step Em c1x Hc1. bind_step Em c3x Hc3. bind_step Em cp Hcp.
    injection Em as <-. cbn [conv3x3_final].
    apply ConvBNReLU_new_Ok in Hc3 as [-> _].
    apply ConvBNReLU_zero_weight. }
  assert (Hshape : shape ft = shape g).
  { assert (H : (r ← DecoderDeeplabV3p_new (fun _ _ _ _ _ => 0%R)
                       "decoder_semseg" 256 64 19;
                 a ← interpolate fb (16, 16);
                 b ← DecoderDeeplabV3p_fused r fb fs;
                 mret (bool_decide (shape a = shape b))) = Ok true)
      by (vm_compute; reflexivity).
    rewrite Em, bind_Ok_l in H. change (tH fs, tW fs) with (16, 16) in Hft.
    rewrite Hft, bind_Ok_l, Hg, bind_Ok_l in H.
    injection H as H. apply bool_decide_eq_true in H. exact H. }
  repeat split; try assumption; try reflexivity.
  intros [_ Hd].
  specialize (Hd 0 0 0 0).
  rewrite Hones, Hzero in Hd.
  apply interpolate_Ok in Hft as [Hfteq _].
  assert (1 = 0)%R; [|lra].
  apply Hd; rewrite Hfteq; simpl; lia.
Qed.

(** * Further properties of the code *)

(** ** Encoder.forward *)

Lemma update_skip_dict_returns skips x sz_in :
  tW x <> 0 -> (tW x | sz_in) ->
  update_skip_dict skips x sz_in = Ok (<[sz_in / tW x := x]> skips).
Proof.
  intros Hw Hd. unfold update_skip_dict.
  destruct (Z.eqb_spec (tW x) 0); [contradiction|].
  apply Z.mod_divide in Hd; [|assumption]. rewrite Hd. reflexivity.
Qed.

Lemma update_skip_dict_assertion skips x sz_in :
  tW x <> 0 -> ~ (tW x | sz_in) ->
  update_skip_dict skips x sz_in = Raise AssertionError.
Proof.
  intros Hw Hd. unfold update_skip_dict.
  destruct (Z.eqb_spec (tW x) 0); [contradiction|].
  destruct (Z.eqb_spec (sz_in mod tW x) 0) as [E|E]; [|reflexivity].
  exfalso. apply Hd. apply Z.mod_divide; assumption.
Qed.

(** Once the stages have returned, the forward pass is the sequence of
    insertions of their outputs. *)
Lemma Encoder_forward_insert_all (e : Encoder) (x : Tensor) (ts : list Tensor) :
  Encoder_stage_outputs e x = Ok ts ->
  Encoder_forward e x = insert_all (tW x) {[ 1 := x ]} ts.
Proof.
  unfold Encoder_stage_outputs, Encoder_forward. intros H.
  bind_step H x0 H0. bind_step H x0' H0'. bind_step H x1 H1.
  bind_step H x2 H2. bind_step H x3 H3. bind_step H x4 H4.
  bind_step H x5 H5. bind_step H x6 H6. injection H as <-.
  rewrite H0, bind_Ok_l, H0', bind_Ok_l, H1, bind_Ok_l.
  cbn [insert_all].
  destruct (update_skip_dict _ x1 _) as [o1|]; [rewrite !bind_Ok_l|reflexivity].
  rewrite H2, bind_Ok_l.
  destruct (update_skip_dict _ x2 _) as [o2|]; [rewrite !bind_Ok_l|reflexivity].
  rewrite H3, bind_Ok_l.
  destruct (update_skip_dict _ x3 _) as [o3|]; [rewrite !bind_Ok_l|reflexivity].
  rewrite H4, bind_Ok_l.
  destruct (update_skip_dict _ x4 _) as [o4|]; [rewrite !bind_Ok_l|reflexivity].
  rewrite H5, bind_Ok_l.
  destruct (update_skip_dict _ x5 _) as [o5|]; [rewrite !bind_Ok_l|reflexivity].
  rewrite H6, bind_Ok_l.
  destruct (update_skip_dict _ x6 _) as [o6|]; reflexivity.
Qed.

Lemma Encoder_forward_stage_outputs (e : Encoder) (x : Tensor) (out : gmap Z Tensor) :
  Encoder_forward e x = Ok out -> exists ts, Encoder_stage_outputs e x = Ok ts.
Proof.
  unfold Encoder_forward, Encoder_stage_outputs. intros H.
  bind_step H x0 H0. bind_step H x0' H0'. bind_step H x1 H1.
  bind_step H o1 U1. bind_step H x2 H2. bind_step H o2 U2.
  bind_step H x3 H3. bind_step H o3 U3. bind_step H x4 H4.
  bind_step H o4 U4. bind_step H x5 H5. bind_step H o5 U5.
  bind_step H x6 H6. bind_step H o6 U6.
  rewrite H0, bind_Ok_l, H0', bind_Ok_l, H1, bind_Ok_l, H2, bind_Ok_l,
    H3, bind_Ok_l, H4, bind_Ok_l, H5, bind_Ok_l, H6, bind_Ok_l.
  eexists. reflexivity.
Qed.

Lemma insert_all_returns_iff (sz_in : Z) (ts : list Tensor) :
  forall skips,
    returns (insert_all sz_in skips ts)
    <-> Forall (fun t => tW t <> 0 /\ (tW t | sz_in)) ts.
Proof.
  induction ts as [|t rest IH]; intros skips; cbn [insert_all].
  - split; [constructor|]. intros _. eexists. reflexivity.
  - split.
    + intros [out H]. bind_step H o Ho.
      apply update_skip_dict_Ok in Ho as (Hw & Hr & ->).
      constructor.
      * split; [assumption|]. apply Z.mod_divide; assumption.
      * apply (IH (<[sz_in / tW t := t]> skips)). eexists. exact H.
    + intros HF. apply Forall_cons in HF as [[Hw Hd] HF].
      rewrite update_skip_dict_returns, bind_Ok_l by assumption.
      apply IH. exact HF.
Qed.

Lemma insert_all_assertion (sz_in : Z) (ts : list Tensor) :
  forall skips,
    Forall (fun t => tW t <> 0) ts ->
    Exists (fun t => ~ (tW t | sz_in)) ts ->
    insert_all sz_in skips ts = Raise AssertionError.
Proof.
  induction ts as [|t rest IH]; intros skips Hnz Hex.
  - inversion Hex.
  - apply Forall_cons in Hnz as [Hw Hnz]. cbn [insert_all].
    destruct (Z.eqb_spec (sz_in mod tW t) 0) as [E|E].
    + rewrite update_skip_dict_returns, bind_Ok_l
        by (try assumption; apply Z.mod_divide; assumption).
      apply IH; [assumption|].
      apply Exists_cons in Hex as [Hbad|Hex]; [|assumption].
      exfalso. apply Hbad. apply Z.mod_divide; assumption.
    + rewrite update_skip_dict_assertion; [reflexivity|assumption|].
      intros Hd. apply E. apply Z.mod_divide; assumption.
Qed.

(** X1.  [Encoder.forward] returns exactly when all stages return and
    every stage output has a non-zero width that divides the input width;
    every entry of the returned pyramid then sits under a key which,
    multiplied by the entry's width, gives the input width. *)
Theorem Encoder_forward_returns_iff (e : Encoder) (x : Tensor) :
  (returns (Encoder_forward e x) <->
   exists ts, Encoder_stage_outputs e x = Ok ts /\
              Forall (fun t => tW t <> 0 /\ (tW t | tW x)) ts) /\
  (forall out k t, Encoder_forward e x = Ok out -> out !! k = Some t ->
                   k * tW t = tW x).
Proof.
  split.
  - split.
    + intros [out H].
      destruct (Encoder_forward_stage_outputs _ _ _ H) as [ts Hts].
      exists ts. split; [exact Hts|].
      rewrite (Encoder_forward_insert_all _ _ _ Hts) in H.
      apply (insert_all_returns_iff (tW x) ts {[ 1 := x ]}). eexists. exact H.
    + intros (ts & Hts & HF).
      rewrite (Encoder_forward_insert_all _ _ _ Hts).
      apply insert_all_returns_iff. exact HF.
  - intros out k t H Hk. exact (Encoder_forward_scales e x out H k t Hk).
Qed.

(** X2.  When the stages return tensors of non-zero width and one of the
    widths does not divide the input width, [Encoder.forward] raises
    AssertionError. *)
Theorem Encoder_forward_assertion (e : Encoder) (x : Tensor) (ts : list Tensor) :
  Encoder_stage_outputs e x = Ok ts ->
  Forall (fun t => tW t <> 0) ts ->
  Exists (fun t => ~ (tW t | tW x)) ts ->
  Encoder_forward e x = Raise AssertionError.
Proof.
  intros Hts Hnz Hex. rewrite (Encoder_forward_insert_all _ _ _ Hts).
  apply insert_all_assertion; assumption.
Qed.

Lemma Encoder_forward_assertion_witness :
  Encoder_forward (mkEncoder (resnet_shapes 64 (false, false, true)))
    (zeros 1 3 10 10) = Raise AssertionError.
Proof.
  apply (Encoder_forward_assertion _ _
           [zeros 1 64 5 5; zeros 1 64 3 3; zeros 1 64 3 3; zeros 1 128 2 2;
            zeros 1 256 1 1; zeros 1 512 1 1]).
  - reflexivity.
  - repeat constructor; simpl; lia.
  - apply Exists_cons_tl. apply Exists_cons_hd.
    simpl. intros [q Hq]. lia.
Defined.

Lemma Encoder_forward_returns_iff_witness :
  returns (Encoder_forward (mkEncoder (resnet_shapes 64 (false, false, true)))
             (zeros 1 3 64 64)).
Proof.
  apply (proj2 (proj1 (Encoder_forward_returns_iff _ _))).
  eexists. split; [reflexivity|].
  repeat (apply Forall_cons; split;
          [split; [vm_compute; discriminate
                  |apply Z.mod_divide; [vm_compute; discriminate|reflexivity]]|]).
  apply Forall_nil. exact I.
Defined.

(** ** The bottleneck lookup *)

Lemma foldr_max_ge (k : Z) (ks : list Z) :
  k <= foldr Z.max k ks /\ Forall (fun k' => k' <= foldr Z.max k ks) ks.
Proof.
  induction ks as [|a ks [IH1 IH2]]; simpl.
  - split; [lia|constructor].
  - split; [lia|]. constructor; [lia|].
    eapply Forall_impl; [exact IH2|]. simpl. intros. lia.
Qed.

Lemma foldr_max_in (k : Z) (ks : list Z) :
  foldr Z.max k ks ∈ k :: ks.
Proof.
  induction ks as [|a ks IH]; simpl.
  - left.
  - destruct (Z.max_spec a (foldr Z.max k ks)) as [[_ ->]|[_ ->]].
    + apply elem_of_cons in IH as [->|IH]; [left|right; right; exact IH].
    + right. left.
Qed.

(** max(features.keys()) on a non-empty mapping is its largest key. *)
Lemma max_key_Ok (features : gmap Z Tensor) (k0 : Z) (t0 : Tensor) :
  features !! k0 = Some t0 ->
  exists k, max_key features = Ok k /\ is_Some (features !! k) /\
            forall k', is_Some (features !! k') -> k' <= k.
Proof.
  intros H0. unfold max_key.
  destruct ((map_to_list features).*1) as [|k ks] eqn:E.
  - exfalso. apply fmap_nil_inv in E. apply map_to_list_empty_iff in E.
    rewrite E in H0. rewrite lookup_empty in H0. discriminate.
  - exists (foldr Z.max k ks). split; [reflexivity|].
    assert (Hkeys : forall k', is_Some (features !! k') <-> k' ∈ k :: ks).
    { intros k'. rewrite <- E. rewrite list_elem_of_fmap. split.
      - intros [t Ht]. exists (k', t). split; [reflexivity|].
        apply elem_of_map_to_list. exact Ht.
      - intros ([k'' t] & -> & Hin). apply elem_of_map_to_list in Hin.
        simpl. eauto. }
    split.
    + apply Hkeys. apply foldr_max_in.
    + intros k' Hk'. apply Hkeys in Hk'.
      destruct (foldr_max_ge k ks) as [H1 H2].
      apply elem_of_cons in Hk' as [->|Hk']; [exact H1|].
      rewrite Forall_forall in H2. apply H2. exact Hk'.
Qed.

Lemma insert_all_keeps_keys (sz_in : Z) (ts : list Tensor) :
  forall skips out k,
    insert_all sz_in skips ts = Ok out -> is_Some (skips !! k) -> is_Some (out !! k).
Proof.
  induction ts as [|t rest IH]; intros skips out k H Hk; cbn [insert_all] in H.
  - injection H as <-. exact Hk.
  - bind_step H o Ho. apply update_skip_dict_Ok in Ho as (_ & _ & ->).
    apply (IH _ _ k H). rewrite lookup_insert_is_Some. 
    destruct (decide (sz_in / tW t = k)); [left; assumption|right; split; assumption].
Qed.

(** X3.  On the pyramid [Encoder.forward] returns, the bottleneck lookup
    of the model's forward pass cannot fail: the pyramid still has the key
    1, [max(features.keys())] is its largest key, and [features[...]] at
    that key is the entry whose width, for an input of positive width, is
    the smallest among the entries of positive width. *)
Theorem Encoder_bottleneck_lookup (e : Encoder) (x : Tensor) (features : gmap Z Tensor) :
  Encoder_forward e x = Ok features ->
  is_Some (features !! 1) /\
  exists lowest_scale features_lowest,
    max_key features = Ok lowest_scale /\
    getitem features lowest_scale = Ok features_lowest /\
    (forall k t, features !! k = Some t -> k <= lowest_scale) /\
    (0 < tW x -> forall k t, features !! k = Some t -> 0 < tW t ->
                 tW features_lowest <= tW t).
Proof.
  intros H.
  assert (H1 : is_Some (features !! 1)).
  { destruct (Encoder_forward_stage_outputs _ _ _ H) as [ts Hts].
    rewrite (Encoder_forward_insert_all _ _ _ Hts) in H.
    apply (insert_all_keeps_keys _ _ _ _ 1 H).
    rewrite lookup_singleton_eq. eauto. }
  split; [exact H1|].
  destruct H1 as [t1 Ht1].
  destruct (max_key_Ok features 1 t1 Ht1) as (k & Hk & [t Ht] & Hmax).
  exists k, t. split; [exact Hk|]. split.
  { unfold getitem. rewrite Ht. reflexivity. }
  split.
  { intros k' t' Hk'. apply Hmax. eauto. }
  intros Hpos k' t' Hk' Hw'.
  pose proof (Encoder_forward_scales e x features H k t Ht) as Ek.
  pose proof (Encoder_forward_scales e x features H k' t' Hk') as Ek'.
  assert (Hle : k' <= k) by (apply Hmax; eauto).
  assert (Hk'pos : 0 < k') by nia.
  assert (Hkpos : 0 < k) by lia.
  assert (Hwpos : 0 < tW t) by nia.
  nia.
Qed.

Lemma Encoder_bottleneck_lookup_witness :
  match Encoder_forward (mkEncoder (resnet_shapes 64 (false, false, true)))
          (zeros 1 3 64 64) with
  | Ok features => max_key features = Ok 16 /\ is_Some (features !! 1)
  | Raise _ => False
  end.
Proof.
  destruct (Encoder_forward _ _) as [features|err] eqn:E;
    [|vm_compute in E; discriminate].
  destruct (Encoder_bottleneck_lookup _ _ _ E) as (H1 & k & t & Hk & _).
  split; [|exact H1].
  assert (Hc : (f ← Encoder_forward (mkEncoder (resnet_shapes 64 (false, false, true)))
                      (zeros 1 3 64 64); max_key f) = Ok 16)
    by (vm_compute; reflexivity).
  rewrite E, bind_Ok_l in Hc. exact Hc.
Defined.

(** ** Construction of the encoder *)

Lemma basic_block_lookup (name : string) :
  (is_basic_block name = false <->
   list_to_map (M := gmap string (Z * Z * Z * Z)) _basic_block_layers !! name = None)
  /\
  (is_basic_block name = true <->
   is_Some (list_to_map (M := gmap string (Z * Z * Z * Z)) _basic_block_layers !! name)).
Proof.
  unfold is_basic_block.
  assert (H : name ∉ _basic_block_layers.*1 <->
              list_to_map (M := gmap string (Z * Z * Z * Z)) _basic_block_layers !! name
              = None) by apply not_elem_of_list_to_map.
  split.
  - rewrite bool_decide_eq_false. exact H.
  - rewrite bool_decide_eq_true. rewrite <- not_eq_None_Some. rewrite <- H.
    split; [tauto|]. intros Hnn.
    destruct (decide (name ∈ _basic_block_layers.*1)); [assumption|contradiction].
Qed.

(** X4.  For a name that is not one of the basic-block variants the
    encoder is built by calling the attribute of that name of torchvision's
    resnet module.  When there is no such attribute the constructor raises
    AttributeError; when the attribute is there, the constructor returns
    exactly when the call of the attribute returns, and raises what the
    call raises (TypeError for an attribute that is no model constructor).
    What the constructor of the encoder raises, the constructor of the
    model raises too, whatever [outputs_desc] is. *)
Theorem Encoder_new_unsupported_name (tv : Torchvision) (name : string)
    (flags : dilation_flags) :
  is_basic_block name = false ->
  (tv_getattr tv name = None -> Encoder_new tv name flags = Raise AttributeError) /\
  (forall fn_name, tv_getattr tv name = Some fn_name ->
     (returns (Encoder_new tv name flags) <-> returns (fn_name flags)) /\
     (forall e, fn_name flags = Raise e -> Encoder_new tv name flags = Raise e)) /\
  (forall e, Encoder_new tv name (false, false, true) = Raise e ->
     forall draw od, Model_new tv draw (mkConfig name) od = Raise e).
Proof.
  intros Hbb. apply (proj1 (basic_block_lookup name)) in Hbb.
  split; [|split].
  - intros Hg. unfold Encoder_new, Encoder__create. rewrite Hbb, Hg. reflexivity.
  - intros fn Hg. split; [split|].
    + intros [enc He]. unfold Encoder_new, Encoder__create in He.
      rewrite Hbb, Hg in He. destruct (fn flags) as [net|e]; [eexists; reflexivity|].
      discriminate He.
    + intros [net Hn]. unfold Encoder_new, Encoder__create.
      rewrite Hbb, Hg, Hn. destruct flags as [[r0 r1] r2].
      rewrite !bind_Ok_l. eexists. reflexivity.
    + intros e He. unfold Encoder_new, Encoder__create.
      rewrite Hbb, Hg, He. reflexivity.
  - intros e He draw od. unfold Model_new. cbn [model_encoder_name].
    rewrite He. reflexivity.
Qed.

Lemma Encoder_new_unsupported_name_witness :
  Model_new torchvision_shapes (fun _ _ _ _ _ => 1%R) (mkConfig "vgg16")
    [("semseg", 19); ("depth", 1)] = Raise AttributeError /\
  Model_new torchvision_shapes (fun _ _ _ _ _ => 1%R) (mkConfig "conv3x3")
    [("semseg", 19); ("depth", 1)] = Raise TypeError /\
  returns (Encoder_new torchvision_shapes "resnet50" (false, false, true)).
Proof.
  split; [|split].
  - destruct (Encoder_new_unsupported_name torchvision_shapes "vgg16"
                (false, false, true) eq_refl) as (Hnone & _ & Hmodel).
    apply Hmodel. apply Hnone. reflexivity.
  - destruct (Encoder_new_unsupported_name torchvision_shapes "conv3x3"
                (false, false, true) eq_refl) as (_ & Hsome & Hmodel).
    apply Hmodel.
    apply (proj2 (Hsome (fun _ => Raise TypeError) eq_refl)). reflexivity.
  - destruct (Encoder_new_unsupported_name torchvision_shapes "resnet50"
                (false, false, true) eq_refl) as (_ & Hsome & _).
    apply (proj1 (Hsome (fun flags => Ok (resnet_shapes 256 flags)) eq_refl)).
    eexists. reflexivity.
Defined.

(** ** The skip connection of the forward pass *)

Lemma Encoder_forward_key_1 (e : Encoder) (x : Tensor) (features : gmap Z Tensor) :
  Encoder_forward e x = Ok features -> is_Some (features !! 1).
Proof.
  intros H. destruct (Encoder_forward_stage_outputs _ _ _ H) as [ts Hts].
  rewrite (Encoder_forward_insert_all _ _ _ Hts) in H.
  apply (insert_all_keeps_keys _ _ _ _ 1 H).
  rewrite lookup_singleton_eq. eauto.
Qed.

Lemma getitem_Some (features : gmap Z Tensor) (k : Z) (t : Tensor) :
  features !! k = Some t -> getitem features k = Ok t.
Proof. intros H. unfold getitem. rewrite H. reflexivity. Qed.

Lemma getitem_Ok (features : gmap Z Tensor) (k : Z) (t : Tensor) :
  getitem features k = Ok t -> features !! k = Some t.
Proof. unfold getitem. destruct (features !! k); [intros [= ->]; reflexivity|discriminate]. Qed.

Lemma getitem_None (features : gmap Z Tensor) (k : Z) :
  features !! k = None -> getitem features k = Raise KeyError.
Proof. intros H. unfold getitem. rewrite H. reflexivity. Qed.

(** X5.  When the pyramid of the encoder has no entry at scale 4, the
    forward pass of the model returns nothing: it raises KeyError at
    [features[4]], unless the semseg ASPP has already raised on the
    bottleneck. *)
Theorem Model_forward_needs_scale_4 (m : ModelDeepLabV3PlusBranchedSA) (x : Tensor)
    (features : gmap Z Tensor) :
  Encoder_forward (encoder m) x = Ok features ->
  features !! 4 = None ->
  exists e, Model_forward m x = Raise e /\
    (e = KeyError \/
     exists lowest_scale features_lowest,
       max_key features = Ok lowest_scale /\
       features !! lowest_scale = Some features_lowest /\
       ASPP_forward (aspp_semseg m) features_lowest = Raise e).
Proof.
  intros He H4.
  destruct (Encoder_forward_key_1 _ _ _ He) as [t1 Ht1].
  destruct (max_key_Ok features 1 t1 Ht1) as (k & Hk & [fl Hfl] & _).
  unfold Model_forward, Model_predictions.
  rewrite He, bind_Ok_l, Hk, bind_Ok_l.
  rewrite (getitem_Some _ _ _ Hfl), bind_Ok_l.
  destruct (ASPP_forward (aspp_semseg m) fl) as [a|e] eqn:Ea.
  - rewrite bind_Ok_l. rewrite (getitem_None _ _ H4).
    exists KeyError. split; [reflexivity|left; reflexivity].
  - exists e. split; [reflexivity|]. right. exists k, fl. tauto.
Qed.

Lemma Model_forward_needs_scale_4_witness :
  match example_model with
  | Ok m => Model_forward m (zeros 2 3 6 6) = Raise KeyError
  | Raise _ => False
  end.
Proof.
  destruct example_model as [m|e] eqn:Em; [|vm_compute in Em; discriminate].
  assert (Hf : (r ← example_model;
                ft ← Encoder_forward (encoder r) (zeros 2 3 6 6);
                k ← max_key ft;
                fl ← getitem ft k;
                mret (bool_decide (ft !! 4 = None)
                      && is_Ok (ASPP_forward (aspp_semseg r) fl))) = Ok true)
    by (vm_compute; reflexivity).
  rewrite Em, bind_Ok_l in Hf.
  bind_step Hf pyr Ef. bind_step Hf kmax Hk. bind_step Hf qlow Hfl.
  injection Hf as Hf. apply andb_prop in Hf as [H4 Hok].
  apply bool_decide_eq_true in H4. apply getitem_Ok in Hfl.
  destruct (Model_forward_needs_scale_4 m _ pyr Ef H4)
    as (e & He & [->|(k' & fl' & Hk' & Hfl' & Ha)]); [exact He|].
  rewrite Hk in Hk'. injection Hk' as <-.
  rewrite Hfl in Hfl'. injection Hfl' as <-.
  rewrite Ha in Hok. discriminate Hok.
Defined.

(** ** DecoderDeeplabV3p.forward *)

Lemma shape_intro (t : Tensor) (n c h w : Z) :
  tN t = n -> tC t = c -> tH t = h -> tW t = w -> shape t = (n, c, h, w).
Proof. intros <- <- <- <-. reflexivity. Qed.

Lemma DecoderDeeplabV3p_new_explicit draw name bottleneck_ch skip_4x_ch num_out_ch m :
  DecoderDeeplabV3p_new draw name bottleneck_ch skip_4x_ch num_out_ch = Ok m ->
  exists w1 b1 w2 w3 b3,
    m = mkDecoderDeeplabV3p
          (mkConvBNReLU (mkConv2d skip_4x_ch 48 1 1 0 1 w1 (Some b1)) (BatchNorm2d_new 48))
          (mkConvBNReLU (mkConv2d (bottleneck_ch + 48) bottleneck_ch 3 1 1 1 w2 None)
             (BatchNorm2d_new bottleneck_ch))
          (mkConv2d bottleneck_ch num_out_ch 3 1 0 1 w3 (Some b3)).
Proof.
  unfold DecoderDeeplabV3p_new, n_skip. intros H.
  bind_step H sk Hs. bind_step H fi Hf. bind_step H pr Hp. injection H as <-.
  apply ConvBNReLU_new_Ok in Hs as [-> _]. apply ConvBNReLU_new_Ok in Hf as [-> _].
  apply Conv2d_new_Ok in Hp as [-> _]. repeat eexists.
Qed.

Lemma DecoderDeeplabV3p_train_new draw name bottleneck_ch skip_4x_ch num_out_ch m :
  DecoderDeeplabV3p_new draw name bottleneck_ch skip_4x_ch num_out_ch = Ok m ->
  DecoderDeeplabV3p_train true m = m.
Proof.
  intros H. apply DecoderDeeplabV3p_new_explicit in H as (w1 & b1 & w2 & w3 & b3 & ->).
  reflexivity.
Qed.

(** The forward pass of the decoder in either mode. *)
Lemma DecoderDeeplabV3p_forward_returns (draw : Init) (name : string)
    (bottleneck_ch skip_4x_ch num_out_ch : Z) (m : DecoderDeeplabV3p) (mode : bool)
    (features_bottleneck features_skip_4x : Tensor) :
  DecoderDeeplabV3p_new draw name bottleneck_ch skip_4x_ch num_out_ch = Ok m ->
  tC features_bottleneck = bottleneck_ch -> tC features_skip_4x = skip_4x_ch ->
  tN features_bottleneck = tN features_skip_4x ->
  0 < tH features_bottleneck -> 0 < tW features_bottleneck ->
  3 <= tH features_skip_4x -> 3 <= tW features_skip_4x ->
  exists predictions features,
    DecoderDeeplabV3p_forward (DecoderDeeplabV3p_train mode m)
      features_bottleneck features_skip_4x = Ok (predictions, features) /\
    shape predictions = (tN features_skip_4x, num_out_ch,
                         tH features_skip_4x - 2, tW features_skip_4x - 2) /\
    shape features = (tN features_skip_4x, bottleneck_ch,
                      tH features_skip_4x, tW features_skip_4x).
Proof.
  intros Hnew Hcb Hcs HN Hhb Hwb Hhs Hws.
  apply DecoderDeeplabV3p_new_explicit in Hnew as (w1 & b1 & w2 & w3 & b3 & ->).
  unfold DecoderDeeplabV3p_forward.
  cbn [DecoderDeeplabV3p_train conv1x1_skip conv3x3_final features_to_predictions].
  rewrite interpolate_returns by lia. rewrite bind_Ok_l.
  cbr_forward sk. cbn [cat cat_from].
  rewrite cat2_returns by (simpl; lia). rewrite !bind_Ok_l.
  cbr_forward fu.
  rewrite Conv2d_forward_returns
    by (simpl; rewrite ?conv_out_size_stride1; simpl; lia).
  rewrite bind_Ok_l. eexists. eexists. split; [reflexivity|].
  split; apply shape_intro; simpl; rewrite ?conv_out_size_stride1; simpl; lia.
Qed.

(** X6.  On a bottleneck with [bottleneck_ch] channels and a skip tensor
    with [skip_4x_ch] channels, of one batch size, the skip plane being at
    least 3 x 3, [DecoderDeeplabV3p.forward] returns, in training mode (the
    mode of a constructed module) as in evaluation mode, predictions with
    [num_out_ch] channels on a plane two smaller than the skip's in each
    direction (the last convolution has no padding), and features with the
    bottleneck's channels at the skip's resolution. *)
Theorem DecoderDeeplabV3p_forward_shape (draw : Init) (name : string)
    (bottleneck_ch skip_4x_ch num_out_ch : Z) (m : DecoderDeeplabV3p) (mode : bool)
    (features_bottleneck features_skip_4x : Tensor) :
  DecoderDeeplabV3p_new draw name bottleneck_ch skip_4x_ch num_out_ch = Ok m ->
  tC features_bottleneck = bottleneck_ch -> tC features_skip_4x = skip_4x_ch ->
  tN features_bottleneck = tN features_skip_4x ->
  0 < tH features_bottleneck -> 0 < tW features_bottleneck ->
  3 <= tH features_skip_4x -> 3 <= tW features_skip_4x ->
  DecoderDeeplabV3p_train true m = m /\
  exists predictions features,
    DecoderDeeplabV3p_forward (DecoderDeeplabV3p_train mode m)
      features_bottleneck features_skip_4x = Ok (predictions, features) /\
    shape predictions = (tN features_skip_4x, num_out_ch,
                         tH features_skip_4x - 2, tW features_skip_4x - 2) /\
    shape features = (tN features_skip_4x, bottleneck_ch,
                      tH features_skip_4x, tW features_skip_4x).
Proof.
  intros Hnew Hcb Hcs HN Hhb Hwb Hhs Hws.
  split; [exact (DecoderDeeplabV3p_train_new _ _ _ _ _ _ Hnew)|].
  exact (DecoderDeeplabV3p_forward_returns _ _ _ _ _ _ mode _ _
           Hnew Hcb Hcs HN Hhb Hwb Hhs Hws).
Qed.

Lemma DecoderDeeplabV3p_forward_shape_witness :
  exists m predictions features,
    DecoderDeeplabV3p_new (fun _ _ _ _ _ => 1%R) "decoder_semseg" 256 64 19 = Ok m /\
    DecoderDeeplabV3p_forward m (ones 2 256 8 16) (ones 2 64 32 64)
      = Ok (predictions, features) /\
    shape predictions = (2, 19, 30, 62) /\
    shape features = (2, 256, 32, 64).
Proof.
  destruct (DecoderDeeplabV3p_new (fun _ _ _ _ _ => 1%R) "decoder_semseg" 256 64 19)
    as [m|e] eqn:E; [|vm_compute in E; discriminate].
  destruct (DecoderDeeplabV3p_forward_shape _ _ _ _ _ m true
              (ones 2 256 8 16) (ones 2 64 32 64) E)
    as (Ht & p & f & Hf & Hp & Hs); try reflexivity; try (simpl; lia).
  rewrite Ht in Hf.
  exists m, p, f. split; [reflexivity|]. split; [exact Hf|]. split; assumption.
Defined.

(** X7.  In either mode [DecoderDeeplabV3p.forward] cannot return on a
    skip tensor whose plane is smaller than 3 in a direction: the last
    convolution, 3 x 3 without padding, has no output position there. *)
Theorem DecoderDeeplabV3p_forward_small_skip (draw : Init) (name : string)
    (bottleneck_ch skip_4x_ch num_out_ch : Z) (m : DecoderDeeplabV3p) (mode : bool)
    (features_bottleneck features_skip_4x : Tensor) :
  DecoderDeeplabV3p_new draw name bottleneck_ch skip_4x_ch num_out_ch = Ok m ->
  tH features_skip_4x < 3 \/ tW features_skip_4x < 3 ->
  (exists e, DecoderDeeplabV3p_forward (DecoderDeeplabV3p_train mode m)
               features_bottleneck features_skip_4x = Raise e) /\
  (exists e, DecoderDeeplabV3p_forward m features_bottleneck features_skip_4x
             = Raise e).
Proof.
  intros Hnew Hsmall.
  assert (Hany : forall mode', exists e,
            DecoderDeeplabV3p_forward (DecoderDeeplabV3p_train mode' m)
              features_bottleneck features_skip_4x = Raise e).
  { intros mode'.
    destruct (DecoderDeeplabV3p_forward (DecoderDeeplabV3p_train mode' m)
                features_bottleneck features_skip_4x)
      as [[p f]|e] eqn:Ef; [exfalso|eauto].
    apply DecoderDeeplabV3p_new_explicit in Hnew as (w1 & b1 & w2 & w3 & b3 & ->).
    unfold DecoderDeeplabV3p_forward in Ef.
    cbn [DecoderDeeplabV3p_train conv1x1_skip conv3x3_final features_to_predictions]
      in Ef.
    bind_step Ef b4 Hb. bind_step Ef sk Hs. bind_step Ef fc Hc. bind_step Ef fu Hf.
    bind_step Ef pr Hp.
    apply interpolate_Ok in Hb as (-> & _).
    cbn [cat cat_from] in Hc. bind_step Hc c2 Hc2. injection Hc as <-.
    apply cat2_Ok in Hc2 as (_ & _ & _ & ->).
    apply ConvBNReLU_forward_Ok in Hf as (_ & _ & _ & HH & HW & _).
    apply Conv2d_forward_Ok in Hp as (_ & -> & Hph & Hpw).
    simpl in HH, HW, Hph, Hpw. rewrite conv_out_size_stride1 in HH, HW, Hph, Hpw.
    lia. }
  split; [apply Hany|].
  rewrite <- (DecoderDeeplabV3p_train_new _ _ _ _ _ _ Hnew). apply Hany.
Qed.

Lemma DecoderDeeplabV3p_forward_small_skip_witness :
  exists m e,
    DecoderDeeplabV3p_new (fun _ _ _ _ _ => 1%R) "decoder_depth" 256 64 1 = Ok m /\
    DecoderDeeplabV3p_forward m (ones 1 256 1 1) (ones 1 64 2 2) = Raise e.
Proof.
  destruct (DecoderDeeplabV3p_new (fun _ _ _ _ _ => 1%R) "decoder_depth" 256 64 1)
    as [m|e] eqn:E; [|vm_compute in E; discriminate].
  destruct (DecoderDeeplabV3p_forward_small_skip _ _ _ _ _ m false
              (ones 1 256 1 1) (ones 1 64 2 2) E) as [_ [e He]]; [left; simpl; lia|].
  exists m, e. split; [reflexivity|exact He].
Defined.

(** ** SelfAttention.forward *)

Lemma sigmoid_R_bounds (v : R) : (0 < sigmoid_R v < 1)%R.
Proof.
  unfold sigmoid_R. pose proof (exp_pos (- v)) as He.
  split.
  - apply Rdiv_lt_0_compat; lra.
  - apply (Rmult_lt_reg_r (1 + exp (- v))); [lra|].
    unfold Rdiv. rewrite Rmult_assoc, Rinv_l by lra. lra.
Qed.

Lemma Rabs_gate (a g : R) : (0 < g < 1)%R -> (Rabs (a * g) <= Rabs a)%R.
Proof.
  intros [H0 H1]. rewrite Rabs_mult, (Rabs_right g) by lra.
  pose proof (Rabs_pos a). nra.
Qed.

(** X8.  Whatever its weights, a SelfAttention module returns, entry by
    entry, the feature projection times a gate strictly between 0 and 1:
    an output entry is never larger in absolute value than the
    corresponding entry of the feature projection. *)
Theorem SelfAttention_forward_gate (cin cout : Z) (wc wa : data) (x : Tensor) :
  let m := mkSelfAttention (mkConv2d cin cout 3 1 1 1 wc None)
                           (mkConv2d cin cout 3 1 1 1 wa None) in
  tC x = cin -> 0 < tH x -> 0 < tW x ->
  exists y, SelfAttention_forward m x = Ok y /\
    forall n c i j, 0 <= n < tN y -> 0 <= c < tC y -> 0 <= i < tH y -> 0 <= j < tW y ->
      tdata y n c i j
      = (Conv2d_data (sa_conv m) x n c i j
         * sigmoid_R (Conv2d_data (sa_attention m) x n c i j))%R /\
      (Rabs (tdata y n c i j) <= Rabs (Conv2d_data (sa_conv m) x n c i j))%R.
Proof.
  intros m Hc Hh Hw. subst m. unfold SelfAttention_forward. cbn [sa_conv sa_attention].
  rewrite !Conv2d_forward_same by (simpl; lia). rewrite !bind_Ok_l.
  unfold tensor_mul. rewrite elementwise_same_shape by reflexivity.
  eexists. split; [reflexivity|].
  cbn [tN tC tH tW tdata sigmoid]. intros n c i j Hn Hcc Hi Hj.
  rewrite !bidx_in_range by assumption.
  split; [reflexivity|]. apply Rabs_gate. apply sigmoid_R_bounds.
Qed.

Lemma SelfAttention_forward_gate_witness :
  exists y, SelfAttention_forward
              (mkSelfAttention
                 (mkConv2d 256 256 3 1 1 1 (fun _ _ _ _ => 1%R) None)
                 (mkConv2d 256 256 3 1 1 1 (fun o _ _ _ => IZR o) None))
              (ones 1 256 4 4) = Ok y.
Proof.
  destruct (SelfAttention_forward_gate 256 256 (fun _ _ _ _ => 1%R)
              (fun o _ _ _ => IZR o) (ones 1 256 4 4))
    as (y & Hy & _); [reflexivity|simpl; lia|simpl; lia|].
  exists y. exact Hy.
Defined.

(** X9.  A SelfAttention module returns exactly on the inputs that have
    its [in_channels] channels and a non-empty plane. *)
Theorem SelfAttention_forward_returns_iff (cin cout : Z) (wc wa : data) (x : Tensor) :
  returns (SelfAttention_forward
             (mkSelfAttention (mkConv2d cin cout 3 1 1 1 wc None)
                              (mkConv2d cin cout 3 1 1 1 wa None)) x)
  <-> tC x = cin /\ 0 < tH x /\ 0 < tW x.
Proof.
  split.
  - intros [y H]. unfold SelfAttention_forward in H. cbn [sa_conv sa_attention] in H.
    bind_step H ft Hf. apply Conv2d_forward_Ok in Hf as (Hc & -> & Hh & Hw).
    simpl in Hc, Hh, Hw. rewrite conv_out_size_stride1 in Hh, Hw. lia.
  - intros (Hc & Hh & Hw).
    unfold SelfAttention_forward. cbn [sa_conv sa_attention].
    rewrite !Conv2d_forward_same by (simpl; lia). rewrite !bind_Ok_l.
    unfold tensor_mul. rewrite elementwise_same_shape by reflexivity.
    eexists. reflexivity.
Qed.

(** ** ASPP.forward *)

Lemma ConvBNReLU_forward_nonneg (m : ConvBNReLU) (x y : Tensor) n c i j :
  ConvBNReLU_forward m x = Ok y -> (0 <= tdata y n c i j)%R.
Proof.
  unfold ConvBNReLU_forward. intros H. bind_step H a Ha. bind_step H b Hb.
  injection H as <-. cbn [ReLU tdata]. apply Rmax_l.
Qed.

(** X10.  An ASPP module built with positive rates returns, in evaluation
    mode, exactly on the inputs that have its [in_channels] channels and a
    non-empty plane; in training mode, the mode of a constructed module,
    the input must also have more than one value per channel.  What it
    returns has no negative entry. *)
Theorem ASPP_forward_returns_iff (draw : Init) (name : string)
    (cin cout r0 r1 r2 : Z) (m : ASPP) (mode : bool) (x : Tensor) :
  ASPP_new draw name cin cout (r0, r1, r2) = Ok m ->
  0 < r0 -> 0 < r1 -> 0 < r2 ->
  ASPP_train true m = m /\
  (returns (ASPP_forward (ASPP_train mode m) x) <->
   tC x = cin /\ 0 < tH x /\ 0 < tW x /\
   (mode = true -> tN x * tH x * tW x <> 1)) /\
  (forall y n c i j, ASPP_forward (ASPP_train mode m) x = Ok y ->
     (0 <= tdata y n c i j)%R).
Proof.
  intros Hnew Hr0 Hr1 Hr2.
  split; [exact (ASPP_train_new _ _ _ _ _ _ Hnew)|]. split; [split|].
  - intros [y H].
    apply ASPP_new_Ok in Hnew as (w1 & w2 & w3 & w4 & wg & wf & ->).
    unfold ASPP_forward in H. cbn [ASPP_train conv_1] in H. bind_step H y1 H1.
    apply ConvBNReLU_forward_Ok in H1 as (Hc & HN & _ & HH & HW & Hh & Hw & Hb).
    simpl in Hc, HH, HW, Hb. rewrite conv_out_size_stride1 in HH, HW.
    repeat split; try lia.
    intros Hm. specialize (Hb Hm). rewrite HN, HH, HW in Hb.
    replace (tH x + 2 * 0 - 1 * (1 - 1)) with (tH x) in Hb by lia.
    replace (tW x + 2 * 0 - 1 * (1 - 1)) with (tW x) in Hb by lia.
    exact Hb.
  - intros (Hc & Hh & Hw & Hb).
    destruct (ASPP_forward_returns _ _ _ _ _ _ _ _ mode x Hnew Hr0 Hr1 Hr2 Hc Hh Hw Hb)
      as (y & Hy & _).
    exists y. exact Hy.
  - intros y n c i j H. unfold ASPP_forward in H.
    bind_step H y1 H1. bind_step H y2 H2. bind_step H y3 H3. bind_step H y4 H4.
    bind_step H g1 Hg1. bind_step H g2 Hg2. bind_step H g3 Hg3. bind_step H fc Hfc.
    eapply ConvBNReLU_forward_nonneg. exact H.
Qed.

Lemma ASPP_forward_returns_iff_witness :
  exists m,
    ASPP_new (fun _ _ _ _ _ => 1%R) "assp_depth" 512 256 default_rates = Ok m /\
    ~ returns (ASPP_forward m (ones 2 256 8 16)) /\
    ~ returns (ASPP_forward m (ones 1 512 1 1)) /\
    returns (ASPP_forward (ASPP_train false m) (ones 1 512 1 1)).
Proof.
  destruct (ASPP_new (fun _ _ _ _ _ => 1%R) "assp_depth" 512 256 default_rates)
    as [m|e] eqn:E; [|vm_compute in E; discriminate].
  exists m. split; [reflexivity|]. split; [|split].
  - destruct (ASPP_forward_returns_iff _ _ _ _ _ _ _ m true (ones 2 256 8 16) E)
      as (Ht & Hiff & _); [lia|lia|lia|].
    rewrite Ht in Hiff. intros Hret. apply Hiff in Hret. simpl in Hret. lia.
  - destruct (ASPP_forward_returns_iff _ _ _ _ _ _ _ m true (ones 1 512 1 1) E)
      as (Ht & Hiff & _); [lia|lia|lia|].
    rewrite Ht in Hiff. intros Hret. apply Hiff in Hret as (_ & _ & _ & Hb).
    apply Hb; reflexivity.
  - destruct (ASPP_forward_returns_iff _ _ _ _ _ _ _ m false (ones 1 512 1 1) E)
      as (_ & Hiff & _); [lia|lia|lia|].
    apply Hiff. simpl. repeat split; try lia; discriminate.
Defined.

(** ** DecoderDistillation.forward *)

Lemma elementwise_Ok op name (x y r : Tensor) :
  elementwise op name x y = Ok r ->
  broadcast_shape x y = Some (shape r).
Proof.
  unfold elementwise.
  destruct (broadcast_shape x y) as [[[[n c] h] w]|]; [|discriminate].
  intros [= <-]. reflexivity.
Qed.

(** X11.  A DecoderDistillation module returns, in evaluation mode,
    exactly on the pairs of inputs whose shapes broadcast to a shape with
    its [in_channels] channels and a non-empty plane; in training mode, the
    mode of a constructed module, the broadcast shape must also hold more
    than one value per channel. *)
Theorem DecoderDistillation_forward_returns_iff (draw : Init) (name : string)
    (cin num_out_ch : Z) (m : DecoderDistillation) (mode : bool)
    (features_low features_sa : Tensor) :
  DecoderDistillation_new draw name cin num_out_ch = Ok m ->
  DecoderDistillation_train true m = m /\
  (returns (DecoderDistillation_forward (DecoderDistillation_train mode m)
              features_low features_sa) <->
   exists n h w, broadcast_shape features_low features_sa = Some (n, cin, h, w) /\
                 0 < h /\ 0 < w /\ (mode = true -> n * h * w <> 1)).
Proof.
  intros Hnew.
  split; [exact (DecoderDistillation_train_new _ _ _ _ _ Hnew)|]. split.
  - intros [y H].
    apply DecoderDistillation_new_Ok in Hnew as (w1 & w2 & w3 & ->).
    unfold DecoderDistillation_forward, DecoderDistillation_features in H.
    cbn [DecoderDistillation_train conv3x3_final1] in H.
    bind_step H a5 H5. bind_step H5 a1 H1. bind_step H5 a2 H2.
    apply elementwise_Ok in H1.
    apply ConvBNReLU_forward_Ok in H2 as (Hc & HN & _ & HH & HW & Hh & Hw & Hb).
    simpl in Hc, HH, HW, Hb. rewrite conv_out_size_stride1 in HH, HW.
    exists (tN a1), (tH a1), (tW a1). rewrite H1. unfold shape. rewrite Hc.
    split; [reflexivity|]. repeat split; try lia.
    intros Hm. specialize (Hb Hm). rewrite HN, HH, HW in Hb.
    replace (tH a1 + 2 * 1 - 1 * (3 - 1)) with (tH a1) in Hb by lia.
    replace (tW a1 + 2 * 1 - 1 * (3 - 1)) with (tW a1) in Hb by lia.
    exact Hb.
  - intros (n & h & w & Hb & Hh & Hw & Hv).
    destruct (DecoderDistillation_forward_broadcast _ _ _ _ _ mode _ _ _ _ _
                Hnew Hb Hh Hw Hv) as (feats & y & _ & _ & Hy & _).
    exists y. exact Hy.
Qed.

Lemma DecoderDistillation_forward_returns_iff_witness :
  exists m,
    DecoderDistillation_new (fun _ _ _ _ _ => 1%R) "decoder_depth2" 256 1 = Ok m /\
    returns (DecoderDistillation_forward m (ones 2 256 8 8) (ones 2 1 1 8)) /\
    ~ returns (DecoderDistillation_forward m (ones 2 128 8 8) (ones 2 128 8 8)) /\
    returns (DecoderDistillation_forward (DecoderDistillation_train false m)
               (ones 1 256 1 1) (ones 1 256 1 1)).
Proof.
  destruct (DecoderDistillation_new (fun _ _ _ _ _ => 1%R) "decoder_depth2" 256 1)
    as [m|e] eqn:E; [|vm_compute in E; discriminate].
  exists m. split; [reflexivity|]. split; [|split].
  - destruct (DecoderDistillation_forward_returns_iff _ _ _ _ m true
                (ones 2 256 8 8) (ones 2 1 1 8) E) as [Ht Hiff].
    rewrite Ht in Hiff. apply Hiff.
    exists 2, 8, 8. split; [reflexivity|lia].
  - destruct (DecoderDistillation_forward_returns_iff _ _ _ _ m true
                (ones 2 128 8 8) (ones 2 128 8 8) E) as [Ht Hiff].
    rewrite Ht in Hiff. intros Hret.
    apply Hiff in Hret as (n & h & w & Hb & _).
    vm_compute in Hb. discriminate.
  - destruct (DecoderDistillation_forward_returns_iff _ _ _ _ m false
                (ones 1 256 1 1) (ones 1 256 1 1) E) as [_ Hiff].
    apply Hiff. exists 1, 1, 1. split; [reflexivity|].
    repeat split; try lia; discriminate.
Defined.

(** ** The mapping returned by the model *)

Lemma split_outputs_keys (items : OutputsDesc) :
  forall offset i f out task,
    is_Some (split_outputs items offset i f out !! task)
    <-> task ∈ items.*1 \/ is_Some (out !! task).
Proof.
  induction items as [|[t n] rest IH]; intros offset i f out task.
  - simpl. rewrite elem_of_nil. tauto.
  - cbn [split_outputs]. rewrite IH. rewrite lookup_insert_is_Some.
    rewrite fmap_cons, elem_of_cons. cbn [fst].
    destruct (decide (t = task)) as [->|Hne]; [tauto|].
    split.
    + intros [H|[H|[_ H]]]; try tauto; congruence.
    + intros [[H|H]|H]; try tauto; congruence.
Qed.

(** X12.  The mapping returned by the forward pass has exactly the task
    names of [outputs_desc] as keys. *)
Theorem Model_forward_keys (m : ModelDeepLabV3PlusBranchedSA) (x : Tensor)
    (out : gmap string (Tensor * Tensor)) :
  Model_forward m x = Ok out ->
  forall task, is_Some (out !! task) <-> task ∈ (outputs_desc m).*1.
Proof.
  unfold Model_forward. intros H task. bind_step H p Hp. destruct p as [ip fp].
  injection H as <-. rewrite split_outputs_keys, lookup_empty.
  split; [intros [H|[? H]]; [exact H|discriminate]|tauto].
Qed.

Lemma Model_forward_keys_witness :
  match example_model with
  | Ok m =>
      match Model_forward m (zeros 1 3 64 64) with
      | Ok out => is_Some (out !! "semseg") /\ is_Some (out !! "depth") /\
                  out !! "normals" = None
      | Raise _ => False
      end
  | Raise _ => False
  end.
Proof.
  destruct example_model as [m|e] eqn:Em; [|vm_compute in Em; discriminate].
  assert (Hok : is_Ok (Model_forward m (zeros 1 3 64 64)) = true).
  { assert (H : is_Ok (r ← example_model; Model_forward r (zeros 1 3 64 64)) = true)
      by (vm_compute; reflexivity).
    rewrite Em in H. exact H. }
  unfold example_model in Em.
  destruct (Model_new_heads_match _ _ _ _ _ Em) as [Hod _].
  destruct (Model_forward m (zeros 1 3 64 64)) as [out|e] eqn:Ef; [|discriminate Hok].
  pose proof (Model_forward_keys m _ out Ef) as Hkeys. rewrite Hod in Hkeys.
  split; [|split].
  - apply Hkeys. left.
  - apply Hkeys. right. left.
  - apply eq_None_not_Some. intros Hs. apply Hkeys in Hs.
    apply elem_of_cons in Hs as [Hs|Hs]; [discriminate|].
    apply elem_of_cons in Hs as [Hs|Hs]; [discriminate|].
    apply elem_of_nil in Hs. exact Hs.
Defined.

Lemma sum_values_nonneg (items : OutputsDesc) :
  Forall (fun n => 0 <= n) items.*2 -> 0 <= sum_values items.
Proof.
  unfold sum_values. induction items as [|[t n] rest IH]; intros H.
  - simpl. lia.
  - rewrite fmap_cons in *. apply Forall_cons in H as [Hn H]. specialize (IH H).
    cbn [foldr snd] in *. lia.
Qed.

(** Where the loop of [forward] stores the slices of a task. *)
Lemma split_outputs_lookup_in (items : OutputsDesc) :
  forall offset i f out task n,
    NoDup items.*1 -> Forall (fun n => 0 <= n) items.*2 ->
    (task, n) ∈ items ->
    exists off,
      offset <= off /\ off + n <= offset + sum_values items /\
      split_outputs items offset i f out !! task
      = Some (slice_channels i off (off + n), slice_channels f off (off + n)).
Proof.
  induction items as [|[t k] rest IH]; intros offset i f out task n Hnd Hpos Hin.
  - apply elem_of_nil in Hin. contradiction.
  - rewrite fmap_cons in Hnd. apply NoDup_cons in Hnd as [Hnot Hnd].
    rewrite fmap_cons in Hpos. apply Forall_cons in Hpos as [Hk Hpos].
    cbn [snd] in Hk.
    pose proof (sum_values_nonneg rest Hpos) as Hsum.
    assert (Hs : sum_values ((t, k) :: rest) = k + sum_values rest) by reflexivity.
    cbn [split_outputs]. apply elem_of_cons in Hin as [Heq|Hin].
    + injection Heq as -> ->. exists offset.
      rewrite split_outputs_lookup_other by exact Hnot.
      rewrite lookup_insert_eq. rewrite Hs. repeat split; lia.
    + destruct (IH (offset + k) i f
                  (<[t := (slice_channels i offset (offset + k),
                           slice_channels f offset (offset + k))]> out)
                  task n Hnd Hpos Hin) as (off & H1 & H2 & H3).
      exists off. rewrite Hs. repeat split; [lia|lia|exact H3].
Qed.

(** Both concatenated prediction tensors have the input's resolution. *)
Lemma Model_predictions_resolution (m : ModelDeepLabV3PlusBranchedSA)
    (x i f : Tensor) :
  Model_predictions m x = Ok (i, f) ->
  tH i = tH x /\ tW i = tW x /\ tH f = tH x /\ tW f = tW x.
Proof.
  unfold Model_predictions. intros H.
  bind_step H feats Hfe. bind_step H low Hlow. bind_step H fl Hfl.
  bind_step H as1 Has1. bind_step H f4 Hf4.
  bind_step H ds Hds. destruct ds as [ips fbs].
  bind_step H ips' Hips. bind_step H as2 Has2. bind_step H f4' Hf4'.
  bind_step H dd Hdd. destruct dd as [ipd fbd].
  bind_step H ipd' Hipd. bind_step H ip Hip.
  bind_step H att1 Hat1. bind_step H att2 Hat2.
  bind_step H fps Hfps. bind_step H fpd Hfpd.
  bind_step H fps' Hfps'. bind_step H fpd' Hfpd'.
  bind_step H fp Hfp. injection H as <- <-.
  apply interpolate_Ok in Hips as [-> _]. apply interpolate_Ok in Hfps' as [-> _].
  cbn [cat cat_from] in Hip, Hfp.
  bind_step Hip ci Hci. bind_step Hfp cf Hcf.
  injection Hip as <-. injection Hfp as <-.
  apply cat2_Ok in Hci as (_ & _ & _ & ->). apply cat2_Ok in Hcf as (_ & _ & _ & ->).
  simpl. tauto.
Qed.

(** X13.  For a model whose heads have the channel counts [__init__] gives
    them and an [outputs_desc] with distinct names and non-negative
    counts, every task of [outputs_desc] is mapped by the forward pass to
    a pair of predictions that both have the task's channel count and the
    height and width of the input. *)
Theorem Model_forward_shapes (m : ModelDeepLabV3PlusBranchedSA) (x : Tensor)
    (out : gmap string (Tensor * Tensor)) :
  heads_match m ->
  NoDup (outputs_desc m).*1 ->
  Forall (fun n => 0 <= n) (outputs_desc m).*2 ->
  Model_forward m x = Ok out ->
  forall task n, (task, n) ∈ outputs_desc m ->
    exists intermediate final,
      out !! task = Some (intermediate, final) /\
      (tC intermediate, tH intermediate, tW intermediate) = (n, tH x, tW x) /\
      (tC final, tH final, tW final) = (n, tH x, tW x).
Proof.
  intros (Hpos & Hs1 & Hd1 & Hs2 & Hd2) Hnd Hcounts Hf task n Hin.
  unfold Model_forward in Hf. bind_step Hf p Hp. destruct p as [ip fp].
  injection Hf as <-.
  pose proof (Model_predictions_channels _ _ _ _ Hp) as [Hi Hfc].
  pose proof (Model_predictions_resolution _ _ _ _ Hp) as (Hih & Hiw & Hfh & Hfw).
  rewrite Hs1, Hd1 in Hi. rewrite Hs2, Hd2 in Hfc.
  destruct (split_outputs_lookup_in (outputs_desc m) 0 ip fp ∅ task n Hnd Hcounts Hin)
    as (off & Hoff & Hend & Hlook).
  assert (Hn : 0 <= n).
  { rewrite Forall_forall in Hcounts. apply Hcounts.
    apply list_elem_of_fmap. exists (task, n). split; [reflexivity|exact Hin]. }
  eexists. eexists. split; [exact Hlook|].
  rewrite !slice_channels_inside by lia. cbn [tC tH tW].
  rewrite Hih, Hiw, Hfh, Hfw. replace (off + n - off) with n by lia.
  split; reflexivity.
Qed.

Lemma Model_forward_shapes_witness :
  match example_model with
  | Ok m =>
      match Model_forward m (zeros 1 3 64 128) with
      | Ok out =>
          exists intermediate final,
            out !! "semseg" = Some (intermediate, final) /\
            (tC intermediate, tH intermediate, tW intermediate) = (19, 64, 128) /\
            (tC final, tH final, tW final) = (19, 64, 128)
      | Raise _ => False
      end
  | Raise _ => False
  end.
Proof.
  destruct example_model as [m|e] eqn:Em; [|vm_compute in Em; discriminate].
  assert (Hok : is_Ok (Model_forward m (zeros 1 3 64 128)) = true).
  { assert (H : is_Ok (r ← example_model; Model_forward r (zeros 1 3 64 128)) = true)
      by (vm_compute; reflexivity).
    rewrite Em in H. exact H. }
  unfold example_model in Em.
  destruct (Model_new_heads_match _ _ _ _ _ Em) as [Hod Hheads].
  destruct (Model_forward m (zeros 1 3 64 128)) as [out|e] eqn:Ef; [|discriminate Hok].
  apply (Model_forward_shapes m (zeros 1 3 64 128) out Hheads).
  - rewrite Hod. apply (bool_decide_unpack _). vm_compute. exact I.
  - rewrite Hod. repeat constructor; simpl; lia.
  - exact Ef.
  - rewrite Hod. left.
Defined.

(** ** The forward pass returns *)








(** ** BasicBlockWithDilation *)

Arguments conv3x3 : simpl never.

(** X15.  The constructor of BasicBlockWithDilation raises ValueError
    whenever [groups] is not 1 or [base_width] is not 64, before it builds
    a layer and whatever the other arguments are, a [norm_layer] that would
    raise included.  With [groups] 1 and [base_width] 64 and the default
    normalisation it never raises ValueError, and it returns when
    [inplanes] and [planes] are positive; what a [norm_layer] of the caller
    raises on [planes], the constructor raises. *)
Theorem BasicBlockWithDilation_new_ValueError (draw : Init) (name : string)
    (inplanes planes stride : Z) (downsample : option Module)
    (groups base_width dilation : Z) (norm_layer : option (Z -> result Module)) :
  (groups <> 1 \/ base_width <> 64 ->
   BasicBlockWithDilation_new draw name inplanes planes stride downsample
     groups base_width dilation norm_layer = Raise ValueError) /\
  (groups = 1 -> base_width = 64 -> norm_layer = None ->
   BasicBlockWithDilation_new draw name inplanes planes stride downsample
     groups base_width dilation norm_layer <> Raise ValueError /\
   (0 < inplanes -> 0 < planes ->
    returns (BasicBlockWithDilation_new draw name inplanes planes stride downsample
               groups base_width dilation norm_layer))) /\
  (groups = 1 -> base_width = 64 -> 0 <= inplanes -> 0 <= planes ->
   forall nl e, norm_layer = Some nl -> nl planes = Raise e ->
     BasicBlockWithDilation_new draw name inplanes planes stride downsample
       groups base_width dilation norm_layer = Raise e).
Proof.
  split; [|split].
  - intros Hbad. unfold BasicBlockWithDilation_new.
    destruct (Z.eqb_spec groups 1) as [Hg|Hg];
      destruct (Z.eqb_spec base_width 64) as [Hb|Hb]; cbn [negb orb];
      try reflexivity.
    destruct Hbad; contradiction.
  - intros -> -> ->. unfold BasicBlockWithDilation_new.
    cbn [Z.eqb Pos.eqb negb orb]. unfold conv3x3.
    destruct (Z.ltb_spec inplanes 0) as [Hi|Hi].
    { rewrite (Conv2d_new_negative inplanes planes) by lia.
      split; [discriminate|lia]. }
    destruct (Z.ltb_spec planes 0) as [Hp|Hp].
    { rewrite (Conv2d_new_negative inplanes planes) by lia.
      split; [discriminate|lia]. }
    rewrite (Conv2d_new_returns inplanes planes) by lia. rewrite !bind_Ok_l.
    rewrite (Conv2d_new_returns planes planes) by lia. rewrite !bind_Ok_l.
    split; [discriminate|]. intros _ _. eexists. reflexivity.
  - intros -> -> Hi Hp nl e -> Hnl. unfold BasicBlockWithDilation_new.
    cbn [Z.eqb Pos.eqb negb orb]. unfold conv3x3.
    rewrite (Conv2d_new_returns inplanes planes) by lia.
    rewrite bind_Ok_l, Hnl. reflexivity.
Qed.

Lemma BasicBlockWithDilation_new_ValueError_witness :
  BasicBlockWithDilation_new (fun _ _ _ _ _ => 1%R) "layer1.0" 64 64 1 None
    2 64 1 (Some (fun _ => Raise TypeError)) = Raise ValueError /\
  returns (BasicBlockWithDilation_new (fun _ _ _ _ _ => 1%R) "layer1.0" 64 64 1 None
             1 64 1 None) /\
  BasicBlockWithDilation_new (fun _ _ _ _ _ => 1%R) "layer1.0" 64 64 1 None
    1 64 1 (Some (fun _ => Raise ValueError)) = Raise ValueError.
Proof.
  split; [|split].
  - apply (proj1 (BasicBlockWithDilation_new_ValueError (fun _ _ _ _ _ => 1%R)
                    "layer1.0" 64 64 1 None 2 64 1 (Some (fun _ => Raise TypeError)))).
    left. lia.
  - apply (proj1 (proj2 (BasicBlockWithDilation_new_ValueError (fun _ _ _ _ _ => 1%R)
                           "layer1.0" 64 64 1 None 1 64 1 None))
             eq_refl eq_refl eq_refl); lia.
  - apply (proj2 (proj2 (BasicBlockWithDilation_new_ValueError (fun _ _ _ _ _ => 1%R)
                           "layer1.0" 64 64 1 None 1 64 1
                           (Some (fun _ => Raise ValueError))))
             eq_refl eq_refl ltac:(lia) ltac:(lia) (fun _ => Raise ValueError) ValueError
             eq_refl eq_refl).
Defined.

Lemma BasicBlockWithDilation_new_Ok draw name inplanes planes stride downsample
    dilation m :
  BasicBlockWithDilation_new draw name inplanes planes stride downsample
    1 64 dilation None = Ok m ->
  exists w1 w2,
    m = mkBasicBlockWithDilation
          (mkConv2d inplanes planes 3 stride 1 1 w1 None)
          (BatchNorm2d_Module (BatchNorm2d_new planes))
          (mkConv2d planes planes 3 1 dilation dilation w2 None)
          (BatchNorm2d_Module (BatchNorm2d_new planes))
          downsample stride.
Proof.
  unfold BasicBlockWithDilation_new. cbn [Z.eqb Pos.eqb negb orb].
  unfold conv3x3. intros H. bind_step H q1 H1. rewrite bind_Ok_l in H.
  bind_step H q2 H2. rewrite bind_Ok_l in H. injection H as <-.
  apply Conv2d_new_Ok in H1 as [-> _]. apply Conv2d_new_Ok in H2 as [-> _].
  eexists. eexists. reflexivity.
Qed.

(** The default normalisation of a block, put in one mode. *)
Lemma Module_call_BatchNorm2d (mode : bool) (bn : BatchNorm2d) (x : Tensor) :
  Module_call (Module_train mode (BatchNorm2d_Module bn)) x
  = BatchNorm2d_forward (BatchNorm2d_train mode bn) x.
Proof. reflexivity. Qed.

(** X16.  A block without downsample, with stride 1 and as many input as
    output planes and the default normalisation, keeps the shape of its
    input, for every positive dilation, and returns no negative entry: in
    evaluation mode on every input with a non-empty plane, in training
    mode, the mode of a constructed block, when the input has more than
    one value per channel. *)
Theorem BasicBlockWithDilation_forward_identity_shape (draw : Init) (name : string)
    (planes dilation : Z) (m : BasicBlockWithDilation) (mode : bool) (x : Tensor) :
  BasicBlockWithDilation_new draw name planes planes 1 None 1 64 dilation None = Ok m ->
  0 < dilation ->
  tC x = planes -> 0 < tH x -> 0 < tW x ->
  (mode = true -> tN x * tH x * tW x <> 1) ->
  BasicBlockWithDilation_train true m = m /\
  exists y, BasicBlockWithDilation_forward (BasicBlockWithDilation_train mode m) x
            = Ok y /\
            shape y = shape x /\
            forall n c i j, (0 <= tdata y n c i j)%R.
Proof.
  intros Hnew Hd Hc Hh Hw Hv.
  apply BasicBlockWithDilation_new_Ok in Hnew as (w1 & w2 & ->).
  split; [reflexivity|].
  unfold BasicBlockWithDilation_forward.
  cbn [BasicBlockWithDilation_train bb_conv1 bb_bn1 bb_conv2 bb_bn2 bb_downsample
       option_map].
  rewrite Conv2d_forward_same by (simpl; lia).
  rewrite bind_Ok_l, Module_call_BatchNorm2d.
  rewrite BatchNorm2d_forward_returns by (simpl; auto). rewrite bind_Ok_l.
  rewrite Conv2d_forward_same by (simpl; lia).
  rewrite bind_Ok_l, Module_call_BatchNorm2d.
  rewrite BatchNorm2d_forward_returns by (simpl; auto). rewrite !bind_Ok_l.
  unfold tensor_iadd.
  rewrite broadcast_shape_same by (unfold shape; simpl; rewrite Hc; reflexivity).
  rewrite bool_decide_eq_true_2 by reflexivity.
  unfold tensor_add.
  rewrite elementwise_same_shape by (unfold shape; simpl; rewrite Hc; reflexivity).
  rewrite bind_Ok_l. eexists. split; [reflexivity|]. split.
  - unfold shape. simpl. rewrite Hc. reflexivity.
  - intros n c i j. cbn [ReLU tdata]. apply Rmax_l.
Qed.

Lemma BasicBlockWithDilation_forward_identity_shape_witness :
  exists m y y',
    BasicBlockWithDilation_new (fun _ _ _ _ _ => 1%R) "layer4.1" 512 512 1 None
      1 64 2 None = Ok m /\
    BasicBlockWithDilation_forward m (ones 2 512 8 16) = Ok y /\
    shape y = (2, 512, 8, 16) /\
    BasicBlockWithDilation_forward (BasicBlockWithDilation_train false m)
      (ones 1 512 1 1) = Ok y' /\
    shape y' = (1, 512, 1, 1).
Proof.
  destruct (BasicBlockWithDilation_new (fun _ _ _ _ _ => 1%R) "layer4.1" 512 512 1
              None 1 64 2 None) as [m|e] eqn:E; [|vm_compute in E; discriminate].
  destruct (BasicBlockWithDilation_forward_identity_shape _ _ _ _ m true
              (ones 2 512 8 16) E) as (Ht & y & Hy & Hs & _);
    [lia|reflexivity|simpl; lia|simpl; lia|intros _; simpl; lia|].
  destruct (BasicBlockWithDilation_forward_identity_shape _ _ _ _ m false
              (ones 1 512 1 1) E) as (_ & y' & Hy' & Hs' & _);
    [lia|reflexivity|simpl; lia|simpl; lia|discriminate|].
  rewrite Ht in Hy.
  exists m, y, y'. split; [reflexivity|]. repeat split; assumption.
Defined.

Lemma tensor_iadd_Ok (x y r : Tensor) :
  tensor_iadd x y = Ok r -> broadcast_shape x y = Some (shape x).
Proof.
  unfold tensor_iadd. destruct (broadcast_shape x y) as [s|]; [|discriminate].
  destruct (bool_decide_reflect (s = shape x)) as [->|]; [reflexivity|discriminate].
Qed.

Lemma broadcast_dim_keeps_left (a b : Z) :
  broadcast_dim a b = Some a -> a = b \/ b = 1.
Proof.
  unfold broadcast_dim.
  destruct (Z.eqb_spec a b); [tauto|].
  destruct (Z.eqb_spec a 1); [intros [= ->]; tauto|].
  destruct (Z.eqb_spec b 1); [tauto|discriminate].
Qed.

Lemma broadcast_shape_keeps_left (x y : Tensor) :
  broadcast_shape x y = Some (shape x) ->
  (tH x = tH y \/ tH y = 1) /\ (tW x = tW y \/ tW y = 1).
Proof.
  unfold broadcast_shape, shape.
  destruct (broadcast_dim (tN x) (tN y)) as [n|]; [|discriminate].
  destruct (broadcast_dim (tC x) (tC y)) as [c|]; [|discriminate].
  destruct (broadcast_dim (tH x) (tH y)) as [h|] eqn:Eh; [|discriminate].
  destruct (broadcast_dim (tW x) (tW y)) as [w|] eqn:Ew; [|discriminate].
  simpl. intros [= -> -> -> ->].
  split; apply broadcast_dim_keeps_left; assumption.
Qed.

(** X17.  In either mode a block with stride 2 and no downsample cannot
    return on an input whose plane has more than one row or more than one
    column: the strided branch is smaller than the identity, and the
    in-place addition refuses it. *)
Theorem BasicBlockWithDilation_forward_stride_needs_downsample (draw : Init)
    (name : string) (inplanes planes dilation : Z) (m : BasicBlockWithDilation)
    (mode : bool) (x : Tensor) :
  BasicBlockWithDilation_new draw name inplanes planes 2 None 1 64 dilation None = Ok m ->
  2 <= tH x \/ 2 <= tW x ->
  (exists e, BasicBlockWithDilation_forward (BasicBlockWithDilation_train mode m) x
             = Raise e) /\
  (exists e, BasicBlockWithDilation_forward m x = Raise e).
Proof.
  intros Hnew Hbig.
  apply BasicBlockWithDilation_new_Ok in Hnew as (w1 & w2 & ->).
  assert (Hany : forall mode', exists e,
            BasicBlockWithDilation_forward
              (BasicBlockWithDilation_train mode'
                 (mkBasicBlockWithDilation
                    (mkConv2d inplanes planes 3 2 1 1 w1 None)
                    (BatchNorm2d_Module (BatchNorm2d_new planes))
                    (mkConv2d planes planes 3 1 dilation dilation w2 None)
                    (BatchNorm2d_Module (BatchNorm2d_new planes)) None 2)) x
            = Raise e).
  { intros mode'.
    match goal with
    | |- exists e, ?f = Raise e => destruct f as [y|e] eqn:Ef; [exfalso|eauto]
    end.
    unfold BasicBlockWithDilation_forward in Ef.
    cbn [BasicBlockWithDilation_train bb_conv1 bb_bn1 bb_conv2 bb_bn2 bb_downsample
         option_map] in Ef.
    bind_step Ef q1 H1. bind_step Ef q2 H2. bind_step Ef q3 H3. bind_step Ef q4 H4.
    rewrite bind_Ok_l in Ef. bind_step Ef q5 H5.
    rewrite Module_call_BatchNorm2d in H2, H4.
    apply Conv2d_forward_Ok in H1 as (_ & -> & Hh1 & Hw1).
    apply BatchNorm2d_forward_Ok in H2 as (-> & _).
    apply Conv2d_forward_Ok in H3 as (_ & -> & Hh3 & Hw3).
    apply BatchNorm2d_forward_Ok in H4 as (-> & _).
    apply tensor_iadd_Ok in H5. apply broadcast_shape_keeps_left in H5 as [HH HW].
    simpl in HH, HW, Hh1, Hw1, Hh3, Hw3.
    rewrite !conv_out_size_stride1 in HH, HW.
    unfold conv_out_size in HH, HW, Hh1, Hw1.
    destruct Hbig as [Hb|Hb].
    - assert ((tH x + 2 * 1 - 1 * (3 - 1) - 1) / 2 + 1 < tH x).
      { pose proof (Z.div_mod (tH x + 2 * 1 - 1 * (3 - 1) - 1) 2 ltac:(lia)).
        pose proof (Z.mod_pos_bound (tH x + 2 * 1 - 1 * (3 - 1) - 1) 2 ltac:(lia)).
        lia. }
      lia.
    - assert ((tW x + 2 * 1 - 1 * (3 - 1) - 1) / 2 + 1 < tW x).
      { pose proof (Z.div_mod (tW x + 2 * 1 - 1 * (3 - 1) - 1) 2 ltac:(lia)).
        pose proof (Z.mod_pos_bound (tW x + 2 * 1 - 1 * (3 - 1) - 1) 2 ltac:(lia)).
        lia. }
      lia. }
  split; [apply Hany|]. exact (Hany true).
Qed.

Lemma BasicBlockWithDilation_forward_stride_needs_downsample_witness :
  exists m e,
    BasicBlockWithDilation_new (fun _ _ _ _ _ => 1%R) "layer2.0" 64 128 2 None
      1 64 1 None = Ok m /\
    BasicBlockWithDilation_forward m (ones 1 64 16 16) = Raise e.
Proof.
  destruct (BasicBlockWithDilation_new (fun _ _ _ _ _ => 1%R) "layer2.0" 64 128 2
              None 1 64 1 None) as [m|e] eqn:E; [|vm_compute in E; discriminate].
  destruct (BasicBlockWithDilation_forward_stride_needs_downsample _ _ _ _ _ m false
              (ones 1 64 16 16) E) as [_ [e He]]; [left; simpl; lia|].
  exists m, e. split; [reflexivity|exact He].
Defined.

(** ** SqueezeAndExcitation *)

Lemma SqueezeAndExcitation_new_Ok draw name channels r m :
  SqueezeAndExcitation_new draw name channels r = Ok m ->
  exists w1 b1 w2 b2,
    m = mkSqueezeAndExcitation (mkLinear channels (channels / r) w1 b1)
                               (mkLinear (channels / r) channels w2 b2).
Proof.
  unfold SqueezeAndExcitation_new. destruct (r =? 0); [discriminate|].
  unfold Linear_new.
  destruct ((channels <? 0) || (channels / r <? 0)); [discriminate|].
  rewrite bind_Ok_l.
  destruct ((channels / r <? 0) || (channels <? 0)); [discriminate|].
  rewrite bind_Ok_l. intros [= <-]. repeat eexists.
Qed.

Lemma broadcast_dim_one_r (a : Z) : broadcast_dim a 1 = Some a.
Proof.
  unfold broadcast_dim. destruct (Z.eqb_spec a 1) as [->|]; [reflexivity|].
  reflexivity.
Qed.

Lemma Linear_forward_returns (l : Linear) (z : Matrix) :
  mcols z = in_features l ->
  Linear_forward l z
  = Ok (mkMatrix (mrows z) (out_features l) (fun n o =>
          (sum_upto (in_features l) (fun k => mdata z n k * lin_weight l o k)
           + lin_bias l o)%R)).
Proof. intros H. unfold Linear_forward. rewrite H, Z.eqb_refl. reflexivity. Qed.

(** The forward pass on an input with the module's channel count: the
    two linear layers return, and the result is the input times the
    sigmoid of the second layer's output for the sample and the channel. *)
Lemma SqueezeAndExcitation_forward_value (channels r : Z) (w1 w2 : Z -> Z -> R)
    (b1 b2 : Z -> R) (x : Tensor) :
  let m := mkSqueezeAndExcitation (mkLinear channels (channels / r) w1 b1)
                                  (mkLinear (channels / r) channels w2 b2) in
  tC x = channels ->
  exists s1 s2 y,
    Linear_forward (se_fc1 m) (mean_plane x) = Ok s1 /\
    Linear_forward (se_fc2 m) (matrix_map (Rmax 0) s1) = Ok s2 /\
    SqueezeAndExcitation_forward m x = Ok y /\
    shape y = shape x /\
    forall n c i j, 0 <= n < tN x -> 0 <= c < tC x -> 0 <= i < tH x -> 0 <= j < tW x ->
      tdata y n c i j = (tdata x n c i j * sigmoid_R (mdata s2 n c))%R.
Proof.
  intros m Hc. subst m channels. cbn [se_fc1 se_fc2].
  pose proof (Linear_forward_returns (mkLinear (tC x) (tC x / r) w1 b1)
                (mean_plane x) eq_refl) as H1.
  match type of H1 with _ = Ok ?v => set (s1 := v) in H1 end.
  pose proof (Linear_forward_returns (mkLinear (tC x / r) (tC x) w2 b2)
                (matrix_map (Rmax 0) s1) eq_refl) as H2.
  match type of H2 with _ = Ok ?v => set (s2 := v) in H2 end.
  exists s1, s2.
  unfold SqueezeAndExcitation_forward, shape. cbn [se_fc1 se_fc2].
  rewrite H1, bind_Ok_l, H2, bind_Ok_l.
  unfold reshape_NC11. cbn [s2 matrix_map mcols mrows mdata out_features].
  cbn [s1 matrix_map mcols mrows mean_plane]. rewrite Z.eqb_refl.
  rewrite bind_Ok_l.
  unfold tensor_mul, elementwise, broadcast_shape. cbn [tN tC tH tW].
  rewrite !broadcast_dim_refl, !broadcast_dim_one_r. cbn [mbind option_bind].
  eexists. split; [reflexivity|]. split; [reflexivity|].
  split; [reflexivity|]. split; [reflexivity|].
  cbn [tdata tN tC tH tW]. intros n c i j Hn Hcc Hi Hj.
  rewrite !bidx_in_range by lia.
  assert (Hq : (n * tC x + c) / tC x = n)
    by (symmetry; apply (Z.div_unique_pos _ _ n c); lia).
  assert (Hr : (n * tC x + c) mod tC x = c)
    by (symmetry; apply (Z.mod_unique_pos _ _ n c); lia).
  rewrite Hq, Hr. reflexivity.
Qed.

(** X18.  A SqueezeAndExcitation module returns exactly on the inputs that
    have its channel count.  What it returns has the shape of the input
    and is the input rescaled: every entry of sample n and channel c is
    multiplied by one factor, the sigmoid of the output of the second
    linear layer at (n, c), computed from the means of the planes; in exact
    arithmetic this factor lies strictly between 0 and 1, so no entry
    grows in absolute value. *)
Theorem SqueezeAndExcitation_forward_rescales (draw : Init) (name : string)
    (channels r : Z) (m : SqueezeAndExcitation) (x : Tensor) :
  SqueezeAndExcitation_new draw name channels r = Ok m ->
  (returns (SqueezeAndExcitation_forward m x) <-> tC x = channels) /\
  (forall y, SqueezeAndExcitation_forward m x = Ok y ->
     shape y = shape x /\
     exists s1 s2,
       Linear_forward (se_fc1 m) (mean_plane x) = Ok s1 /\
       Linear_forward (se_fc2 m) (matrix_map (Rmax 0) s1) = Ok s2 /\
       forall n c i j,
         0 <= n < tN x -> 0 <= c < tC x -> 0 <= i < tH x -> 0 <= j < tW x ->
         tdata y n c i j = (tdata x n c i j * sigmoid_R (mdata s2 n c))%R /\
         (0 < sigmoid_R (mdata s2 n c) < 1)%R /\
         (Rabs (tdata y n c i j) <= Rabs (tdata x n c i j))%R).
Proof.
  intros Hnew. apply SqueezeAndExcitation_new_Ok in Hnew as (w1 & b1 & w2 & b2 & ->).
  assert (Hin : returns (SqueezeAndExcitation_forward
                  (mkSqueezeAndExcitation (mkLinear channels (channels / r) w1 b1)
                                          (mkLinear (channels / r) channels w2 b2)) x)
                -> tC x = channels).
  { intros [y H]. unfold SqueezeAndExcitation_forward, shape in H. cbn [se_fc1] in H.
    bind_step H s1 H1. unfold Linear_forward in H1.
    cbn [mean_plane mcols in_features] in H1.
    destruct (Z.eqb_spec (tC x) channels); [assumption|discriminate]. }
  split.
  - split; [exact Hin|]. intros Hc.
    destruct (SqueezeAndExcitation_forward_value channels r w1 w2 b1 b2 x Hc)
      as (s1 & s2 & y & _ & _ & Hy & _). exists y. exact Hy.
  - intros y Hy.
    assert (Hc : tC x = channels) by (apply Hin; exists y; exact Hy).
    destruct (SqueezeAndExcitation_forward_value channels r w1 w2 b1 b2 x Hc)
      as (s1 & s2 & y' & H1 & H2 & Hy' & Hs & Hv).
    rewrite Hy in Hy'. injection Hy' as <-. split; [exact Hs|].
    exists s1, s2. split; [exact H1|]. split; [exact H2|].
    intros n c i j Hn Hcc Hi Hj.
    split; [apply Hv; assumption|].
    split; [apply sigmoid_R_bounds|].
    rewrite (Hv n c i j) by assumption. apply Rabs_gate. apply sigmoid_R_bounds.
Qed.

Lemma SqueezeAndExcitation_forward_rescales_witness :
  exists m,
    SqueezeAndExcitation_new (fun _ _ _ _ _ => 1%R) "se" 64 16 = Ok m /\
    returns (SqueezeAndExcitation_forward m (ones 2 64 8 8)) /\
    ~ returns (SqueezeAndExcitation_forward m (ones 2 32 8 8)).
Proof.
  destruct (SqueezeAndExcitation_new (fun _ _ _ _ _ => 1%R) "se" 64 16)
    as [m|e] eqn:E; [|vm_compute in E; discriminate].
  exists m. split; [reflexivity|]. split.
  - apply (SqueezeAndExcitation_forward_rescales _ _ _ _ m _ E). reflexivity.
  - intros Hr. apply (SqueezeAndExcitation_forward_rescales _ _ _ _ m _ E) in Hr.
    simpl in Hr. lia.
Defined.
